(** * cbt: the Ceph cluster driver ([cluster/ceph.py])

    A shallow embedding of the control logic of [cluster/ceph.py]: the
    ruleset registry, the health and scrub polling loops, pool creation
    and the recovery-test thread, with the theorems that relate them to
    the specification.

    Conventions of the embedding.
    - Python values read from the YAML configuration are [pyval]s.
    - A method of the source is a computation in the monad [M]: it reads
      and updates a [World] (the mutable attributes of the [Ceph] object,
      the two shared [threading.Event]s, the attributes of the
      [RecoveryTestThread], the trace of remote commands and the outputs
      the remote side is going to produce), and it either returns, raises
      a Python exception, or is still pending.
    - [common.pdsh(nodes, cmd).communicate()] appends a [Pdsh] event; the
      two calls whose standard output the source inspects take it from
      [stdouts].
    - [logger.info] calls have no effect on control and are left out. *)

From Stdlib Require Import ZArith String Ascii List Lia Bool.
From stdpp Require Import base gmap strings list pretty.

Open Scope string_scope.
Open Scope list_scope.

(** ** Python values and strings *)

(** The values a key of the configuration can have here: nothing, a
    boolean, an integer or a string.  (Floats do not occur in the keys the
    modelled methods read.) *)
Inductive pyval :=
| PyNone
| PyBool (b : bool)
| PyInt (z : Z)
| PyStr (s : string).

(** Python truthiness, as used by [if x:]. *)
Definition truthy (v : pyval) : bool :=
  match v with
  | PyNone => false
  | PyBool b => b
  | PyInt z => negb (z =? 0)%Z
  | PyStr s => negb (String.eqb s "")
  end.

(** [str(v)], also what [%s] prints. *)
Definition str (v : pyval) : string :=
  match v with
  | PyNone => "None"
  | PyBool true => "True"
  | PyBool false => "False"
  | PyInt z => pretty z
  | PyStr s => s
  end.

Definition is_digit (c : ascii) : bool :=
  match Ascii.is_nat c with Some _ => true | None => false end.

Fixpoint all_digits (s : string) : bool :=
  match s with
  | "" => true
  | String c s' => is_digit c && all_digits s'
  end.

(** [s.isdigit()] on a byte string. *)
Definition isdigit (s : string) : bool :=
  negb (String.eqb s "") && all_digits s.

Fixpoint startswith (p s : string) : bool :=
  match p, s with
  | "", _ => true
  | String a p', String b s' => if Ascii.eqb a b then startswith p' s' else false
  | String _ _, "" => false
  end.

(** [needle in hay] for strings. *)
Fixpoint contains (needle hay : string) : bool :=
  startswith needle hay ||
  match hay with
  | "" => false
  | String _ hay' => contains needle hay'
  end.

Definition dquote : string := String "034" "".
Definition newline : string := String "010" "".

(** [s.split()]: the maximal runs of non-blank characters. *)
Definition split (s : string) : list string := String.words s.

(** [set(a).intersection(b)] is non-empty. *)
Definition intersects (a b : list string) : bool :=
  existsb (fun x => bool_decide (x ∈ b)) a.

(** ** The world *)

Inductive error :=
| RuntimeError (msg : string)
| Exception (msg : string)
| KeyError (key : string)
| TypeError (msg : string)
| IOError (msg : string).

(** [KeyError] is the only one of these below [LookupError] in Python's
    exception hierarchy. *)
Definition is_LookupError (e : error) : bool :=
  match e with KeyError _ => true | _ => false end.

(** What a run leaves behind, in order: the remote commands and copies,
    local directory creation, [time.sleep], the monitoring hooks, a call
    of a method that is not modelled further, the completion callback of
    the recovery test, and the return of [check_health] with its value. *)
Inductive event :=
| Pdsh (roles : list string) (cmd : string)
| Pdcp (roles : list string) (src dst : string)
| Mkdir (path : string)
| Sleep (secs : Z)
| MonitoringStart (dir : string)
| MonitoringStop
| Call (what : string)
| Callback
| Polled (ret : nat).

(** The six states of the recovery test, the keys of [self.states]. *)
Inductive fault_state := pre | markdown | osdout | osdin | post | done.

Record World := mkWorld {
  (* Ceph *)
  ruleset_map : gmap string nat;
  cur_ruleset : nat;
  (* the two threading.Event objects, shared by Ceph and its thread *)
  stoprequest : bool;
  haltrequest : bool;
  (* RecoveryTestThread *)
  state : fault_state;
  outhealthtries : nat;
  inhealthtries : nat;
  maxhealthtries : nat;
  (* the remote side *)
  trace : list event;
  stdouts : list string
}.

Definition with_ruleset (m : gmap string nat) (c : nat) (w : World) : World :=
  mkWorld m c (stoprequest w) (haltrequest w) (state w) (outhealthtries w)
          (inhealthtries w) (maxhealthtries w) (trace w) (stdouts w).

Definition with_stoprequest (b : bool) (w : World) : World :=
  mkWorld (ruleset_map w) (cur_ruleset w) b (haltrequest w) (state w)
          (outhealthtries w) (inhealthtries w) (maxhealthtries w) (trace w)
          (stdouts w).

Definition with_haltrequest (b : bool) (w : World) : World :=
  mkWorld (ruleset_map w) (cur_ruleset w) (stoprequest w) b (state w)
          (outhealthtries w) (inhealthtries w) (maxhealthtries w) (trace w)
          (stdouts w).

Definition with_state (st : fault_state) (w : World) : World :=
  mkWorld (ruleset_map w) (cur_ruleset w) (stoprequest w) (haltrequest w) st
          (outhealthtries w) (inhealthtries w) (maxhealthtries w) (trace w)
          (stdouts w).

Definition with_tries (o i : nat) (w : World) : World :=
  mkWorld (ruleset_map w) (cur_ruleset w) (stoprequest w) (haltrequest w)
          (state w) o i (maxhealthtries w) (trace w) (stdouts w).

Definition with_maxhealthtries (n : nat) (w : World) : World :=
  mkWorld (ruleset_map w) (cur_ruleset w) (stoprequest w) (haltrequest w)
          (state w) (outhealthtries w) (inhealthtries w) n (trace w)
          (stdouts w).

Definition with_trace (t : list event) (w : World) : World :=
  mkWorld (ruleset_map w) (cur_ruleset w) (stoprequest w) (haltrequest w)
          (state w) (outhealthtries w) (inhealthtries w) (maxhealthtries w) t
          (stdouts w).

Definition with_stdouts (o : list string) (w : World) : World :=
  mkWorld (ruleset_map w) (cur_ruleset w) (stoprequest w) (haltrequest w)
          (state w) (outhealthtries w) (inhealthtries w) (maxhealthtries w)
          (trace w) o.

(** ** The monad of methods *)

Inductive outcome (A : Type) :=
| Done (a : A) (w : World)
| Raised (e : error) (w : World)
| Pending (w : World).
Arguments Done {A} a w.
Arguments Raised {A} e w.
Arguments Pending {A} w.

Definition M (A : Type) : Type := World -> outcome A.

Definition ret {A} (a : A) : M A := fun w => Done a w.

Definition bind {A B} (m : M A) (k : A -> M B) : M B :=
  fun w =>
    match m w with
    | Done a w' => k a w'
    | Raised e w' => Raised e w'
    | Pending w' => Pending w'
    end.

Definition raise {A} (e : error) : M A := fun w => Raised e w.

Global Instance M_ret : MRet M := @ret.
Global Instance M_bind : MBind M := fun A B k m => bind m k.

(** The world an outcome ends in, whichever way it ends. *)
Definition final {A} (o : outcome A) : World :=
  match o with Done _ w | Raised _ w | Pending w => w end.

Definition returned {A} (o : outcome A) : bool :=
  match o with Done _ _ => true | _ => false end.

Definition get {A} (f : World -> A) : M A := fun w => Done (f w) w.
Definition modify (f : World -> World) : M unit := fun w => Done tt (f w).

Definition emit (e : event) : M unit :=
  modify (fun w => with_trace (trace w ++ [e]) w).

Fixpoint for_each {A} (l : list A) (body : A -> M unit) : M unit :=
  match l with
  | [] => ret tt
  | x :: l' => body x ;; for_each l' body
  end.

(** [common.pdsh(settings.getnodes(roles), cmd).communicate()], output
    unused. *)
Definition pdsh (roles : list string) (cmd : string) : M unit :=
  emit (Pdsh roles cmd).

(** The next output of the remote side; pending as long as there is
    none. *)
Definition next_stdout : M string :=
  fun w =>
    match stdouts w with
    | [] => Pending w
    | out :: rest => Done out (with_stdouts rest w)
    end.

(** The same call where the source binds [stdout]. *)
Definition pdsh_stdout (roles : list string) (cmd : string) : M string :=
  emit (Pdsh roles cmd) ;; next_stdout.

(** [time.sleep(secs)]: a negative length is refused with the
    [IOError] of the underlying [select]. *)
Definition sleep (secs : Z) : M unit :=
  if (secs <? 0)%Z
  then raise (IOError "[Errno 22] Invalid argument")
  else emit (Sleep secs).

(** ** The [Ceph] object *)

(** A pool profile is the YAML mapping of its keys. *)
Abbreviation profile := (gmap string pyval).

(** The [recovery_test] section of the configuration, with [run_dir] as
    [create_recovery_test] stores it. *)
Record rt_config := mk_rt_config {
  run_dir : string;
  pre_time : option Z;
  post_time : option Z;
  osds : option (list pyval);
  repeat : option pyval
}.

(** An entry of [erasure_profiles]. *)
Record erasure_profile := mk_erasure_profile {
  erasure_k : option pyval;
  erasure_m : option pyval
}.

(** The keys of the configuration the modelled methods read.  The two
    profile tables that [make_profiles] walks are given as the list of
    their items in the order the walk visits them; an entry of
    [crush_profiles] is reduced to its [osds] key. *)
Record Config := mkConfig {
  cfg_use_existing : option pyval;
  cfg_idle_duration : option Z;
  cfg_log_dir : option string;
  cfg_pid_dir : option string;
  cfg_core_dir : option string;
  conf_file : option string;
  crush_profiles : list (string * option (list pyval));
  erasure_profiles : list (string * erasure_profile);
  pool_profiles : option (gmap string profile);
  recovery_test : rt_config
}.

(** The attributes [__init__] computes once and the methods only read. *)
Record Ceph := mkCeph {
  config : Config;
  tmp_dir : string;
  log_dir : string;
  pid_dir : string;
  core_dir : string;
  monitoring_dir : string;
  tmp_conf : string;
  use_existing : pyval;
  idle_duration : Z
}.

Definition Ceph_init (tmp_dir : string) (config : Config) : Ceph :=
  let use_existing := default (PyBool true) (cfg_use_existing config) in
  {| config := config;
     tmp_dir := tmp_dir;
     log_dir := default (tmp_dir +:+ "/log") (cfg_log_dir config);
     pid_dir := default (tmp_dir +:+ "/pid") (cfg_pid_dir config);
     core_dir := default (tmp_dir +:+ "/core") (cfg_core_dir config);
     monitoring_dir := tmp_dir +:+ "/monitoring";
     tmp_conf := if truthy use_existing then "/etc/ceph/ceph.conf"
                 else tmp_dir +:+ "/ceph.conf";
     use_existing := use_existing;
     idle_duration := default 0%Z (cfg_idle_duration config) |}.

(** The mutable attributes right after [__init__]: an empty ruleset map,
    [cur_ruleset = 1], both events clear.  The thread attributes are those
    of [RecoveryTestThread.__init__]. *)
Definition World_init (outs : list string) : World :=
  {| ruleset_map := ∅; cur_ruleset := 1;
     stoprequest := false; haltrequest := false;
     state := pre; outhealthtries := 0; inhealthtries := 0;
     maxhealthtries := 60;
     trace := []; stdouts := outs |}.

(** ** Health and scrub polling *)

Definition full_check_list : list string :=
  ["degraded"; "peering"; "recovery_wait"; "stuck"; "inactive"; "unclean";
   "recovery"; "stale"].

Section Methods.
Variable self : Ceph.

(** One pass of the [while True:] of [check_health] per unit of fuel. *)
Fixpoint check_health_loop (fuel : nat) (check_list : list string)
         (logline : string) (ret : nat) : M nat :=
  match fuel with
  | 0 => Pending
  | S fuel' =>
      stdout ← pdsh_stdout ["head"]
                 ("ceph -c " +:+ tmp_conf self +:+ " health " +:+ logline);
      if negb (bool_decide (check_list = []))
         && negb (intersects check_list (split stdout))
      then mret ret
      else if contains "HEALTH_OK" stdout
      then mret ret
      else sleep 1 ;; check_health_loop fuel' check_list logline (S ret)
  end.

(** [check_health(self, check_list=None, logfile=None)].  The second
    statement of the body assigns the eight-token list to [check_list],
    whatever the caller passed.  The loop gets more fuel than there are
    outputs to read, so it is pending only for want of an output. *)
Definition check_health (check_list : option (list string))
           (logfile : option string) : M nat :=
  let logline :=
    match logfile with
    | Some f => if String.eqb f "" then "" else "| tee -a " +:+ f
    | None => ""
    end in
  let check_list := full_check_list in
  fuel ← get (fun w => S (length (stdouts w)));
  ret ← check_health_loop fuel check_list logline 0;
  emit (Polled ret) ;;
  mret ret.

Fixpoint check_scrub_loop (fuel : nat) (cmd : string) : M unit :=
  match fuel with
  | 0 => Pending
  | S fuel' =>
      stdout ← pdsh_stdout ["head"] cmd;
      if contains (" 0" +:+ newline) stdout
      then mret tt
      else sleep 1 ;; check_scrub_loop fuel' cmd
  end.

Definition check_scrub : M unit :=
  let cmd := "ceph -c " +:+ tmp_conf self +:+
             " pg dump | cut -f 16 | grep " +:+ dquote +:+ "0.000000" +:+
             dquote +:+ " | wc -l" in
  fuel ← get (fun w => S (length (stdouts w)));
  check_scrub_loop fuel cmd.

(** ** The ruleset registry *)

Definition set_ruleset (name : pyval) : M unit :=
  let name := str name in
  m ← get ruleset_map;
  if bool_decide (name ∈ dom m)
  then raise (Exception ("A rule named " +:+ name +:+ " already exists!"))
  else
    cur ← get cur_ruleset;
    modify (with_ruleset (<[name := cur]> m) cur) ;;
    modify (fun w => with_ruleset (ruleset_map w) (cur_ruleset w + 1) w).

Definition get_ruleset (name : pyval) : M nat :=
  let name := str name in
  m ← get ruleset_map;
  match m !! name with
  | Some id => mret id
  | None => raise (KeyError name)
  end.

(** ** Profiles and cache tiers *)

Definition make_profiles : M unit :=
  let cmds (name : string) := [
    "ceph -c " +:+ tmp_conf self +:+ " osd crush add-bucket " +:+ name +:+ "-root root";
    "ceph -c " +:+ tmp_conf self +:+ " osd crush add-bucket " +:+ name +:+ "-root root";
    "ceph -c " +:+ tmp_conf self +:+ " osd crush add-bucket " +:+ name +:+ "-rack rack";
    "ceph -c " +:+ tmp_conf self +:+ " osd crush move " +:+ name +:+ "-rack root=" +:+ name +:+ "-root";
    "ceph -c " +:+ tmp_conf self +:+ " osd crush add-bucket " +:+ name +:+ "-host host";
    "ceph -c " +:+ tmp_conf self +:+ " osd crush move " +:+ name +:+ "-host rack=" +:+ name +:+ "-rack"] in
  for_each (crush_profiles (config self)) (fun '(name, osds) =>
    match osds with
    | None | Some [] =>
        raise (Exception "No OSDs defined for crush profile, bailing!")
    | Some osds =>
        for_each (cmds name) (pdsh ["head"]) ;;
        for_each osds (fun i =>
          pdsh ["head"] ("ceph -c " +:+ tmp_conf self +:+ " osd crush set " +:+
                         str i +:+ " 1.0 host=" +:+ name +:+ "-host")) ;;
        pdsh ["head"] ("ceph -c " +:+ tmp_conf self +:+
                       " osd crush rule create-simple " +:+ name +:+ " " +:+
                       name +:+ "-root osd") ;;
        set_ruleset (PyStr name)
    end) ;;
  for_each (erasure_profiles (config self)) (fun '(name, profile) =>
    pdsh ["head"] ("ceph -c " +:+ tmp_conf self +:+
                   " osd erasure-code-profile set " +:+ name +:+
                   " ruleset-failure-domain=osd k=" +:+
                   str (default (PyInt 6) (erasure_k profile)) +:+ " m=" +:+
                   str (default (PyInt 2) (erasure_m profile))) ;;
    set_ruleset (PyStr name)).

(** [d.get(key, dflt)] on a profile. *)
Definition pget (p : profile) (key : string) (dflt : pyval) : pyval :=
  default dflt (p !! key).

(** [pool_profiles.get(profile_name, {})]: the table has string keys,
    so any other key is absent. *)
Definition lookup_profile (table : gmap string profile)
           (profile_name : pyval) : profile :=
  match profile_name with
  | PyStr s => default ∅ (table !! s)
  | _ => ∅
  end.

(** What [%d] prints, or the [TypeError] it raises. *)
Definition fmt_d (v : pyval) : M string :=
  match v with
  | PyInt z => mret (pretty z)
  | PyBool true => mret "1"
  | PyBool false => mret "0"
  | _ => raise (TypeError "%d format: a number is required")
  end.

Definition pool_set (name key : string) (value : string) : M unit :=
  pdsh ["head"] ("sudo ceph -c " +:+ tmp_conf self +:+ " osd pool set " +:+
                 name +:+ " " +:+ key +:+ " " +:+ value).

(** [if v: pool set name key v] *)
Definition pool_set_if (name key : string) (v : pyval) : M unit :=
  if truthy v then pool_set name key (str v) else mret tt.

(** [mkpool(self, name, profile_name, base_name=None)].  [depth] is
    the number of nested calls the interpreter's recursion limit leaves
    room for; a chain of [cache_profile]s that is longer ends in the
    [RuntimeError] of that limit. *)
Fixpoint mkpool (depth : nat) (name : string) (profile_name : pyval)
         (base_name : option string) : M unit :=
  match depth with
  | 0 => raise (RuntimeError "maximum recursion depth exceeded")
  | S depth' =>
    let pool_profiles :=
      default {[ "default" := (∅ : profile) ]} (pool_profiles (config self)) in
    let profile := lookup_profile pool_profiles profile_name in
    let pg_size := pget profile "pg_size" (PyInt 1024) in
    let pgp_size := pget profile "pgp_size" (PyInt 1024) in
    let erasure_profile := pget profile "erasure_profile" (PyStr "") in
    let replication := str (pget profile "replication" PyNone) in
    let cache_profile := pget profile "cache_profile" PyNone in
    let crush_profile := pget profile "crush_profile" PyNone in
    let cache_mode := pget profile "cache_mode" PyNone in
    let hit_set_type := pget profile "hit_set_type" PyNone in
    let hit_set_count := pget profile "hit_set_count" PyNone in
    let hit_set_period := pget profile "hit_set_period" PyNone in
    let target_max_objects := pget profile "target_max_objects" PyNone in
    let target_max_bytes := pget profile "target_max_bytes" PyNone in
    let min_read_recency_for_promote :=
      pget profile "min_read_recency_for_promote" PyNone in

    pg ← fmt_d pg_size;
    pgp ← fmt_d pgp_size;
    pdsh ["head"] ("sudo ceph -c " +:+ tmp_conf self +:+ " osd pool create " +:+
                   name +:+ " " +:+ pg +:+ " " +:+ pgp +:+ " " +:+
                   str erasure_profile) ;;

    (if negb (String.eqb replication "") && String.eqb replication "erasure"
     then pdsh ["head"] ("sudo ceph -c " +:+ tmp_conf self +:+
                         " osd pool create " +:+ name +:+ " " +:+ pg +:+ " " +:+
                         pgp +:+ " erasure " +:+ str erasure_profile)
     else pdsh ["head"] ("sudo ceph -c " +:+ tmp_conf self +:+
                         " osd pool create " +:+ name +:+ " " +:+ pg +:+ " " +:+
                         pgp)) ;;

    check_health None None ;;

    (if negb (String.eqb replication "") && isdigit replication
     then pool_set name "size" replication ;;
          check_health None None ;; mret tt
     else mret tt) ;;

    (match base_name with
     | Some base =>
         if negb (String.eqb base "") && truthy cache_mode
         then
           pdsh ["head"] ("sudo ceph -c " +:+ tmp_conf self +:+ " osd tier add " +:+
                          base +:+ " " +:+ name) ;;
           pdsh ["head"] ("sudo ceph -c " +:+ tmp_conf self +:+
                          " osd tier cache-mode " +:+ name +:+ " " +:+
                          str cache_mode) ;;
           pdsh ["head"] ("sudo ceph -c " +:+ tmp_conf self +:+
                          " osd tier set-overlay " +:+ base +:+ " " +:+ name)
         else mret tt
     | None => mret tt
     end) ;;

    (if truthy crush_profile
     then ruleset ← get_ruleset crush_profile;
          pool_set name "crush_ruleset" (pretty ruleset)
     else mret tt) ;;
    pool_set_if name "hit_set_type" hit_set_type ;;
    pool_set_if name "hit_set_count" hit_set_count ;;
    pool_set_if name "hit_set_period" hit_set_period ;;
    pool_set_if name "target_max_objects" target_max_objects ;;
    pool_set_if name "target_max_bytes" target_max_bytes ;;
    pool_set_if name "min_read_recency_for_promote"
                min_read_recency_for_promote ;;
    check_health None None ;;

    if truthy cache_profile
    then mkpool depth' (name +:+ "-cache") cache_profile (Some name)
    else mret tt
  end.

(** [rmpool(self, name, profile_name)], with [depth] as in [mkpool]. *)
Fixpoint rmpool (depth : nat) (name : string) (profile_name : pyval) : M unit :=
  match depth with
  | 0 => raise (RuntimeError "maximum recursion depth exceeded")
  | S depth' =>
    let pool_profiles :=
      default {[ "default" := (∅ : profile) ]} (pool_profiles (config self)) in
    let profile := lookup_profile pool_profiles profile_name in
    let cache_profile := pget profile "cache_profile" PyNone in
    (if truthy cache_profile
     then
       let cache_name := name +:+ "-cache" in
       pdsh ["head"] ("sudo ceph -c " +:+ tmp_conf self +:+
                      " osd tier cache-mode " +:+ cache_name +:+ " forward") ;;
       pdsh ["head"] ("sudo rados -c " +:+ tmp_conf self +:+ " -p " +:+
                      cache_name +:+ " cache-flush-evict-all") ;;
       pdsh ["head"] ("sudo ceph -c " +:+ tmp_conf self +:+
                      " osd tier remove-overlay " +:+ name) ;;
       pdsh ["head"] ("sudo ceph -c " +:+ tmp_conf self +:+ " osd tier remove " +:+
                      name +:+ " " +:+ cache_name) ;;
       rmpool depth' cache_name cache_profile
     else mret tt) ;;
    pdsh ["head"] ("sudo ceph -c " +:+ tmp_conf self +:+ " osd pool delete " +:+
                   name +:+ " " +:+ name +:+ " --yes-i-really-really-mean-it")
  end.

(** ** Cluster lifecycle *)

Definition rbd_unmount : M unit :=
  pdsh ["clients"]
       "sudo find /dev/rbd* -maxdepth 0 -type b -exec umount '{}' \;" ;;
  pdsh ["clients"] "sudo service rbdmap stop".

Definition shutdown : M unit :=
  let nodes := ["clients"; "osds"; "mons"; "rgws"; "mds"] in
  pdsh nodes "sudo killall -9 massif-amd64-li" ;;
  pdsh nodes "sudo killall -9 memcheck-amd64-" ;;
  pdsh nodes "sudo killall -9 ceph-osd" ;;
  pdsh nodes "sudo killall -9 ceph-mon" ;;
  pdsh nodes "sudo killall -9 ceph-mds" ;;
  pdsh nodes "sudo killall -9 rados" ;;
  pdsh nodes "sudo killall -9 rest-bench" ;;
  pdsh nodes "sudo killall -9 radosgw" ;;
  pdsh nodes "sudo killall -9 radosgw-admin" ;;
  pdsh nodes "sudo /etc/init.d/apache2 stop" ;;
  pdsh nodes "sudo killall -9 pdsh" ;;
  emit MonitoringStop.

Definition cleanup : M unit :=
  pdsh ["clients"; "osds"; "mons"; "rgws"; "mds"]
       ("sudo rm -rf " +:+ tmp_dir self).

Definition distribute_conf : M unit :=
  let nodes := ["head"; "clients"; "osds"; "mons"; "rgws"] in
  match conf_file (config self) with
  | None => raise (KeyError "conf_file")
  | Some conf_file =>
      emit (Pdcp nodes conf_file (tmp_conf self)) ;;
      pdsh nodes "sudo mv /etc/ceph/ceph.conf /etc/ceph/ceph.conf.cbt.bak" ;;
      pdsh nodes ("sudo ln -s " +:+ tmp_conf self +:+ " /etc/ceph/ceph.conf")
  end.

(** [initialize(self)].  [Cluster.initialize] of the base class and the
    four methods that format the devices and start the daemons
    ([setup_fs], [make_mons], [make_osds], [start_rgw]) are recorded as
    [Call] events. *)
Definition initialize : M bool :=
  if truthy (use_existing self)
  then raise (RuntimeError ("initialize was called on an " +:+
                            "existing cluster! Avoiding touching anything."))
  else
    emit (Call "Cluster.initialize") ;;
    rbd_unmount ;;
    shutdown ;;
    cleanup ;;
    emit (Mkdir (tmp_dir self)) ;;
    let all_ceph := ["clients"; "mons"; "osds"; "rgws"; "mds"] in
    let all_ceph_head := ["head"; "clients"; "mons"; "osds"; "rgws"; "mds"] in
    pdsh all_ceph_head ("mkdir -p -m0755 -- " +:+ tmp_dir self) ;;
    for_each [pid_dir self; log_dir self; monitoring_dir self; core_dir self]
             (fun path => pdsh all_ceph ("mkdir -p -m0755 -- " +:+ path)) ;;
    distribute_conf ;;
    pdsh all_ceph ("echo " +:+ dquote +:+ tmp_dir self +:+ "/core.%e.%p.%h.%t" +:+
                   dquote +:+ " | sudo tee /proc/sys/kernel/core_pattern") ;;
    emit (Call "setup_fs") ;;
    emit (MonitoringStart (monitoring_dir self +:+ "/creation")) ;;
    emit (Call "make_mons") ;;
    emit (Call "make_osds") ;;
    emit (Call "start_rgw") ;;
    emit MonitoringStop ;;
    emit (MonitoringStart (monitoring_dir self +:+ "/initial_health_check")) ;;
    check_health None None ;;
    emit MonitoringStop ;;
    check_scrub ;;
    make_profiles ;;
    (if (0 <? idle_duration self)%Z
     then emit (MonitoringStart (monitoring_dir self +:+ "/idle_monitoring")) ;;
          sleep (idle_duration self) ;;
          emit MonitoringStop
     else mret tt) ;;
    mret true.

(** The first statement of [wait_recovery_done]: the owner asks the
    thread to stop.  What follows it in the source only waits for the
    thread to end. *)
Definition request_stop : M unit := modify (with_stoprequest true).

(** ** The recovery test thread *)

Definition health_checklist : list string :=
  ["degraded"; "peering"; "recovery_wait"; "stuck"; "inactive"; "unclean";
   "recovery"].

(** [RecoveryTestThread.__init__]: the attributes a new thread starts
    with.  The two events are the cluster's own, not copies.  The states
    have the names of the source's handlers, so the handler of a state
    [st] is called [thread_st] here. *)
Definition RecoveryTestThread_init : M unit :=
  modify (with_state pre) ;;
  modify (with_tries 0 0) ;;
  modify (with_maxhealthtries 60).

Section Thread.
(** [self.config] of the thread. *)
Variable cfg : rt_config.

Definition logcmd (message : string) : string :=
  "echo " +:+ dquote +:+ "[`date`] " +:+ message +:+ dquote +:+ " >> " +:+
  run_dir cfg +:+ "/recovery.log".

Definition thread_pre : M unit :=
  let pre_time := default 60%Z (pre_time cfg) in
  pdsh ["head"] (logcmd ("Starting Recovery Test Thread, waiting " +:+
                         pretty pre_time +:+ " seconds.")) ;;
  sleep pre_time ;;
  let lcmd := logcmd "Setting the ceph osd noup flag" in
  pdsh ["head"] ("ceph -c " +:+ tmp_conf self +:+ " ceph osd set noup;" +:+ lcmd) ;;
  modify (with_state markdown).

(** [for osdnum in self.config.get('osds'):] *)
Definition for_osds (body : pyval -> M unit) : M unit :=
  match osds cfg with
  | None => raise (TypeError "'NoneType' object is not iterable")
  | Some l => for_each l body
  end.

Definition thread_markdown : M unit :=
  for_osds (fun osdnum =>
    let lcmd := logcmd ("Marking OSD " +:+ str osdnum +:+ " down.") in
    pdsh ["head"] ("ceph -c " +:+ tmp_conf self +:+ " osd down " +:+
                   str osdnum +:+ ";" +:+ lcmd) ;;
    let lcmd := logcmd ("Marking OSD " +:+ str osdnum +:+ " out.") in
    pdsh ["head"] ("ceph -c " +:+ tmp_conf self +:+ " osd out " +:+
                   str osdnum +:+ ";" +:+ lcmd)) ;;
  pdsh ["head"] (logcmd "Waiting for the cluster to break and heal") ;;
  modify (with_state osdout).

Definition thread_osdout : M unit :=
  ret ← check_health (Some health_checklist)
                     (Some (run_dir cfg +:+ "/recovery.log"));
  pdsh ["head"] (logcmd ("ret: " +:+ pretty ret)) ;;
  tries ← get outhealthtries;
  max ← get maxhealthtries;
  if (tries <? max)%nat && (ret =? 0)%nat
  then modify (fun w => with_tries (outhealthtries w + 1) (inhealthtries w) w)
  else
    (if (ret =? 0)%nat
     then pdsh ["head"] (logcmd "Cluster never went unhealthy.")
     else pdsh ["head"] (logcmd "Cluster appears to have healed.")) ;;
    let lcmd := logcmd "Unsetting the ceph osd noup flag" in
    pdsh ["head"] ("ceph -c " +:+ tmp_conf self +:+ " ceph osd unset noup;" +:+
                   lcmd) ;;
    for_osds (fun osdnum =>
      let lcmd := logcmd ("Marking OSD " +:+ str osdnum +:+ " up.") in
      pdsh ["head"] ("ceph -c " +:+ tmp_conf self +:+ " osd up " +:+
                     str osdnum +:+ ";" +:+ lcmd) ;;
      let lcmd := logcmd ("Marking OSD " +:+ str osdnum +:+ " in.") in
      pdsh ["head"] ("ceph -c " +:+ tmp_conf self +:+ " osd in " +:+
                     str osdnum +:+ ";" +:+ lcmd)) ;;
    modify (with_state osdin).

Definition thread_osdin : M unit :=
  ret ← check_health (Some health_checklist)
                     (Some (run_dir cfg +:+ "/recovery.log"));
  tries ← get inhealthtries;
  max ← get maxhealthtries;
  if (tries <? max)%nat && (ret =? 0)%nat
  then modify (fun w => with_tries (outhealthtries w) (inhealthtries w + 1) w)
  else
    (if (ret =? 0)%nat
     then pdsh ["head"] (logcmd "Cluster never went unhealthy.")
     else pdsh ["head"] (logcmd "Cluster appears to have healed.")) ;;
    modify (with_state post).

Definition thread_post : M unit :=
  stop ← get stoprequest;
  if (stop : bool)
  then
    pdsh ["head"] (logcmd ("Cluster is healthy, but stoprequest is set, " +:+
                           "finishing now.")) ;;
    modify (with_haltrequest true)
  else if truthy (default (PyBool false) (repeat cfg))
  then
    modify (with_tries 0 0) ;;
    pdsh ["head"] (logcmd ("Cluster is healthy, but repeat is set.  Moving to " +:+
                           dquote +:+ "markdown" +:+ dquote +:+ " state.")) ;;
    modify (with_state markdown)
  else
    let post_time := default 60%Z (post_time cfg) in
    pdsh ["head"] (logcmd ("Cluster is healthy, completion in " +:+
                           pretty post_time +:+ " seconds.")) ;;
    sleep post_time ;;
    modify (with_state done).

Definition thread_done : M unit :=
  pdsh ["head"] (logcmd "Done.  Calling parent callback function.") ;;
  emit Callback ;;
  modify (with_haltrequest true).

(** [self.states[self.state]]: the handler bound to a state. *)
Definition states (st : fault_state) : M unit :=
  match st with
  | pre => thread_pre
  | markdown => thread_markdown
  | osdout => thread_osdout
  | osdin => thread_osdin
  | post => thread_post
  | done => thread_done
  end.

(** One handler invocation, [self.states[self.state]()]. *)
Definition invoke : M unit := st ← get state; states st.

(** One pass of the [while] of [run]: nothing if the halt event is
    set.  The owner runs concurrently; the only thing it does that a
    handler can see is setting the stop event, and only [post] reads
    it, first thing.  So its interference is a flag per pass:
    whether it has set the stop event by the time the handler of this
    pass starts. *)
Definition pass (owner_stops : bool) : M unit :=
  halt ← get haltrequest;
  if (halt : bool) then mret tt
  else (if owner_stops then request_stop else mret tt) ;; invoke.

Definition passes (schedule : list bool) : M unit :=
  for_each schedule pass.

(** [run(self)], for as many passes of its loop as [schedule] is
    long; pending if the halt event is still clear then. *)
Definition run (schedule : list bool) : M unit :=
  modify (with_haltrequest false) ;;
  modify (with_stoprequest false) ;;
  passes schedule ;;
  halt ← get haltrequest;
  if (halt : bool)
  then
    st ← get state;
    pdsh ["head"] (logcmd ("Exiting recovery test thread.  Last state was: " +:+
                           match st with
                           | pre => "pre" | markdown => "markdown"
                           | osdout => "osdout" | osdin => "osdin"
                           | post => "post" | done => "done"
                           end))
  else Pending.

End Thread.

(** [create_recovery_test(self, run_dir, callback)]: the thread's
    configuration and its construction; [start()] then lets [run]
    proceed on its own. *)
Definition thread_config (dir : string) : rt_config :=
  let c := recovery_test (config self) in
  {| run_dir := dir; pre_time := pre_time c; post_time := post_time c;
     osds := osds c; repeat := repeat c |}.

Definition create_recovery_test : M unit := RecoveryTestThread_init.

End Methods.

(** * Notions used in the statements *)

(** Every id handed out so far is below the next one. *)
Definition ids_below_next (w : World) : Prop :=
  forall name id, ruleset_map w !! name = Some id -> id < cur_ruleset w.

(** The world after a series of registration attempts, failed ones
    included. *)
Definition after_registrations (names : list pyval) (w : World) : World :=
  foldl (fun w name => final (set_ruleset name w)) w names.

(** The values [check_health] returned, in order. *)
Definition polls (t : list event) : list nat :=
  omap (fun e => match e with Polled r => Some r | _ => None end) t.

(** The remote commands issued, in order. *)
Definition commands (t : list event) : list string :=
  omap (fun e => match e with Pdsh _ c => Some c | _ => None end) t.

(** The sleeps taken, in order. *)
Definition sleeps (t : list event) : list Z :=
  omap (fun e => match e with Sleep s => Some s | _ => None end) t.

(** An output of [ceph health] on which the loop of [check_health]
    stops: none of the eight tokens is a word of it, or it mentions
    [HEALTH_OK]. *)
Definition settled (stdout : string) : bool :=
  negb (intersects full_check_list (split stdout))
  || contains "HEALTH_OK" stdout.

(** All attributes but the trace and the pending outputs agree. *)
Definition same_control (w w' : World) : Prop :=
  ruleset_map w = ruleset_map w' /\ cur_ruleset w = cur_ruleset w' /\
  stoprequest w = stoprequest w' /\ haltrequest w = haltrequest w' /\
  state w = state w' /\ outhealthtries w = outhealthtries w' /\
  inhealthtries w = inhealthtries w' /\ maxhealthtries w = maxhealthtries w'.

(** The world after [evs] more events and [k] outputs consumed. *)
Definition adv (w : World) (evs : list event) (k : nat) : World :=
  with_stdouts (drop k (stdouts w)) (with_trace (trace w ++ evs) w).

(** [m] returns [a] from [w], having left the events [evs] and read [k]
    outputs, and nothing else. *)
Definition yields {A} (m : M A) (w : World) (a : A) (evs : list event)
           (k : nat) : Prop :=
  m w = Done a (adv w evs k).

(** [m] always returns, and all it does is issue remote commands, sleep
    and the like: no health poll, no output read, no attribute changed. *)
Definition issues (m : M unit) : Prop :=
  forall w, exists evs, yields m w tt evs 0 /\ polls evs = [].

(** The command line of [check_health] and the events of a call that
    goes round its loop [n] times before it stops. *)
Definition health_cmd (self : Ceph) (logfile : option string) : string :=
  "ceph -c " +:+ tmp_conf self +:+ " health " +:+
  match logfile with
  | Some f => if String.eqb f "" then "" else "| tee -a " +:+ f
  | None => ""
  end.

Definition retries (cmd : string) (n : nat) : list event :=
  concat (replicate n [Pdsh ["head"] cmd; Sleep 1]).

Definition poll_events (cmd : string) (n : nat) : list event :=
  retries cmd n ++ [Pdsh ["head"] cmd; Polled n].

(** The log file the thread hands to [check_health]. *)
Definition rt_logfile (cfg : rt_config) : option string :=
  Some (run_dir cfg +:+ "/recovery.log").

(** The order in which the recovery test goes through its states when
    it repeats. *)
Definition next_state (st : fault_state) : fault_state :=
  match st with
  | pre => markdown
  | markdown => osdout
  | osdout => osdin
  | osdin => post
  | post => markdown
  | done => done
  end.

(** The world after the passes of [schedule], wherever they end. *)
Definition after (self : Ceph) (cfg : rt_config) (schedule : list bool)
           (w : World) : World :=
  final (passes self cfg schedule w).

(** [rounds n outs]: the pending outputs answer at least [n] health
    polls, each with a run of outputs the poll goes on after and one it
    settles on. *)
Inductive rounds : nat -> list string -> Prop :=
| rounds_0 outs : rounds 0 outs
| rounds_S n busy out rest :
    Forall (fun s => settled s = false) busy ->
    settled out = true ->
    rounds n rest ->
    rounds (S n) (busy ++ out :: rest).

(** The profile [mkpool] and [rmpool] work with for a profile name. *)
Definition profile_of (self : Ceph) (profile_name : pyval) : profile :=
  lookup_profile
    (default {[ "default" := (∅ : profile) ]} (pool_profiles (config self)))
    profile_name.

(** The two pool-creation command lines of [mkpool]: the one it always
    sends and the two its branch chooses from. *)
Definition create_always (self : Ceph) (name pg pgp : string) (p : profile)
  : string :=
  "sudo ceph -c " +:+ tmp_conf self +:+ " osd pool create " +:+ name +:+ " " +:+
  pg +:+ " " +:+ pgp +:+ " " +:+ str (pget p "erasure_profile" (PyStr "")).

Definition create_erasure (self : Ceph) (name pg pgp : string) (p : profile)
  : string :=
  "sudo ceph -c " +:+ tmp_conf self +:+ " osd pool create " +:+ name +:+ " " +:+
  pg +:+ " " +:+ pgp +:+ " erasure " +:+
  str (pget p "erasure_profile" (PyStr "")).

Definition create_replicated (self : Ceph) (name pg pgp : string) : string :=
  "sudo ceph -c " +:+ tmp_conf self +:+ " osd pool create " +:+ name +:+ " " +:+
  pg +:+ " " +:+ pgp.

(** ** The output of the scrub command

    [check_scrub] sends one shell pipeline through [pdsh] and looks at
    what comes back.  A snapshot is what [ceph pg dump | cut -f 16]
    prints, one row per line.  [grep "0.000000"] keeps the rows that have
    a [0], any one character and six [0]s; [wc -l] counts them; [pdsh]
    puts the name of the host and [": "] in front of the line. *)

Fixpoint grep_zero (row : string) : bool :=
  match row with
  | "" => false
  | String c rest =>
      (Ascii.eqb c "0" &&
       match rest with
       | String _ r => startswith "000000" r
       | "" => false
       end)
      || grep_zero rest
  end.

Definition scrub_count (rows : list string) : nat :=
  length (List.filter grep_zero rows).

Definition scrub_stdout (host : string) (rows : list string) : string :=
  host +:+ ": " +:+ pretty (scrub_count rows) +:+ newline.

(** A row that reads exactly zero. *)
Definition reads_zero (row : string) : bool := String.eqb row "0.000000".

Fixpoint no_newline (s : string) : bool :=
  match s with
  | "" => true
  | String c s' => negb (Ascii.eqb c "010") && no_newline s'
  end.

(** What [check_scrub] looks for in an output. *)
Definition idle_mark : string := " 0" +:+ newline.

Definition scrub_cmd (self : Ceph) : string :=
  "ceph -c " +:+ tmp_conf self +:+
  " pg dump | cut -f 16 | grep " +:+ dquote +:+ "0.000000" +:+
  dquote +:+ " | wc -l".

(** A pool-creation command line. *)
Definition is_create (cmd : string) : bool := contains " osd pool create " cmd.

(** ** A small cluster to evaluate on *)

(** The profile [rep3] of the specification. *)
Definition rep3 : profile :=
  {[ "replication" := PyInt 3; "pg_size" := PyInt 128; "pgp_size" := PyInt 128 ]}.

(** An erasure-coded profile. *)
Definition ec62 : profile :=
  {[ "replication" := PyStr "erasure"; "erasure_profile" := PyStr "ec62" ]}.

Definition example_rt_config : rt_config :=
  {| run_dir := "/run"; pre_time := None; post_time := None;
     osds := Some [PyInt 0; PyInt 1]; repeat := Some (PyBool true) |}.

Definition example_config (existing : option pyval) : Config :=
  {| cfg_use_existing := existing;
     cfg_idle_duration := None;
     cfg_log_dir := None; cfg_pid_dir := None; cfg_core_dir := None;
     conf_file := Some "ceph.conf";
     crush_profiles := []; erasure_profiles := [];
     pool_profiles := Some {[ "rep3" := rep3; "ec" := ec62 ]};
     recovery_test := example_rt_config |}.

(** A cluster that [initialize] may build, and one whose configuration
    does not say [use_existing], which makes it an existing one. *)
Definition fresh_ceph : Ceph :=
  Ceph_init "/tmp/cbt" (example_config (Some (PyBool false))).

Definition existing_ceph : Ceph := Ceph_init "/tmp/cbt" (example_config None).

(** A world in which the next three health outputs are [HEALTH_OK]. *)
Definition healthy_world : World :=
  World_init ["HEALTH_OK"; "HEALTH_OK"; "HEALTH_OK"].

(** ** Notions for the further properties *)

(** A crush profile with a non-empty [osds] list. *)
Definition has_osds (osds : option (list pyval)) : bool :=
  match osds with
  | Some (_ :: _) => true
  | _ => false
  end.

(** The names [make_profiles] registers, in the order it gets to them. *)
Definition profile_names (self : Ceph) : list string :=
  (fst <$> crush_profiles (config self)) ++
  (fst <$> erasure_profiles (config self)).

(** A cluster with two crush profiles and an erasure profile. *)
Definition profiles_ceph : Ceph :=
  Ceph_init "/tmp/cbt"
    {| cfg_use_existing := Some (PyBool false);
       cfg_idle_duration := None;
       cfg_log_dir := None; cfg_pid_dir := None; cfg_core_dir := None;
       conf_file := Some "ceph.conf";
       crush_profiles := [("ssd", Some [PyInt 0; PyInt 1]); ("hdd", Some [PyInt 2])];
       erasure_profiles := [("ec62", mk_erasure_profile None None)];
       pool_profiles := None;
       recovery_test := example_rt_config |}.

(** The same with a crush profile that lists no osds in second place. *)
Definition no_osds_ceph : Ceph :=
  Ceph_init "/tmp/cbt"
    {| cfg_use_existing := Some (PyBool false);
       cfg_idle_duration := None;
       cfg_log_dir := None; cfg_pid_dir := None; cfg_core_dir := None;
       conf_file := Some "ceph.conf";
       crush_profiles := [("ssd", Some [PyInt 0]); ("hdd", Some []);
                          ("nvme", Some [PyInt 3])];
       erasure_profiles := [("ec62", mk_erasure_profile None None)];
       pool_profiles := None;
       recovery_test := example_rt_config |}.

(** The command lines of [rmpool]: the deletion of a pool, and the four
    that detach the cache pool of a base pool. *)
Definition delete_cmd (self : Ceph) (name : string) : string :=
  "sudo ceph -c " +:+ tmp_conf self +:+ " osd pool delete " +:+
  name +:+ " " +:+ name +:+ " --yes-i-really-really-mean-it".

Definition detach_cmds (self : Ceph) (name : string) : list string :=
  let cache_name := name +:+ "-cache" in
  ["sudo ceph -c " +:+ tmp_conf self +:+ " osd tier cache-mode " +:+
   cache_name +:+ " forward";
   "sudo rados -c " +:+ tmp_conf self +:+ " -p " +:+ cache_name +:+
   " cache-flush-evict-all";
   "sudo ceph -c " +:+ tmp_conf self +:+ " osd tier remove-overlay " +:+ name;
   "sudo ceph -c " +:+ tmp_conf self +:+ " osd tier remove " +:+
   name +:+ " " +:+ cache_name].

(** The [cache_profile] key of the profile of a name. *)
Definition cache_profile_of (self : Ceph) (profile_name : pyval) : pyval :=
  pget (profile_of self profile_name) "cache_profile" PyNone.

(** A base profile with a write-back cache profile on top. *)
Definition tiered_ceph : Ceph :=
  Ceph_init "/tmp/cbt"
    {| cfg_use_existing := Some (PyBool false);
       cfg_idle_duration := None;
       cfg_log_dir := None; cfg_pid_dir := None; cfg_core_dir := None;
       conf_file := Some "ceph.conf";
       crush_profiles := []; erasure_profiles := [];
       pool_profiles :=
         Some {[ "base" := ({[ "replication" := PyInt 3;
                               "cache_profile" := PyStr "hot" ]} : profile);
                 "hot" := ({[ "replication" := PyInt 2;
                              "cache_mode" := PyStr "writeback" ]} : profile);
                 "loop" := ({[ "cache_profile" := PyStr "loop" ]} : profile) ]};
       recovery_test := example_rt_config |}.

(** A value that [%d] can print. *)
Definition is_number (v : pyval) : bool :=
  match v with
  | PyInt _ | PyBool _ => true
  | _ => false
  end.

(** The [replication] of a profile makes [mkpool] set the pool size. *)
Definition sets_size (p : profile) : bool :=
  let replication := str (pget p "replication" PyNone) in
  negb (String.eqb replication "") && isdigit replication.

(** The command that sets the pool size, and the three that attach a
    pool as the cache tier of [base]; [mkpool] sends the latter when it
    is given a base and the profile has a cache mode. *)
Definition size_cmd (self : Ceph) (name : string) (p : profile) : string :=
  "sudo ceph -c " +:+ tmp_conf self +:+ " osd pool set " +:+ name +:+ " " +:+
  "size" +:+ " " +:+ str (pget p "replication" PyNone).

Definition attach_cmds (self : Ceph) (name : string) (p : profile)
           (base : option string) : list string :=
  match base with
  | Some base =>
      if negb (String.eqb base "") && truthy (pget p "cache_mode" PyNone)
      then ["sudo ceph -c " +:+ tmp_conf self +:+ " osd tier add " +:+
            base +:+ " " +:+ name;
            "sudo ceph -c " +:+ tmp_conf self +:+ " osd tier cache-mode " +:+
            name +:+ " " +:+ str (pget p "cache_mode" PyNone);
            "sudo ceph -c " +:+ tmp_conf self +:+ " osd tier set-overlay " +:+
            base +:+ " " +:+ name]
      else []
  | None => []
  end.

(** What [mkpool] has left in the trace when it gets to the crush
    ruleset, if every health poll settled at once. *)
Definition mkpool_front (self : Ceph) (name : string) (p : profile)
           (base : option string) (pg pgp : string) : list event :=
  let replication := str (pget p "replication" PyNone) in
  [Pdsh ["head"] (create_always self name pg pgp p);
   Pdsh ["head"]
        (if negb (String.eqb replication "") && String.eqb replication "erasure"
         then create_erasure self name pg pgp p
         else create_replicated self name pg pgp);
   Pdsh ["head"] (health_cmd self None); Polled 0] ++
  (if sets_size p
   then [Pdsh ["head"] (size_cmd self name p);
         Pdsh ["head"] (health_cmd self None); Polled 0]
   else []) ++
  (Pdsh ["head"] <$> attach_cmds self name p base).

(** The command line of [pool_set], and the commands of the six tuning
    knobs of a profile that are set. *)
Definition pool_set_cmd (self : Ceph) (name key value : string) : string :=
  "sudo ceph -c " +:+ tmp_conf self +:+ " osd pool set " +:+
  name +:+ " " +:+ key +:+ " " +:+ value.

Definition knob_cmds (self : Ceph) (name : string) (p : profile) : list string :=
  flat_map
    (fun key => let v := pget p key PyNone in
                if truthy v then [pool_set_cmd self name key (str v)] else [])
    ["hit_set_type"; "hit_set_count"; "hit_set_period"; "target_max_objects";
     "target_max_bytes"; "min_read_recency_for_promote"].

(** A world in which the next six health outputs are [HEALTH_OK]. *)
Definition very_healthy_world : World := World_init (replicate 6 "HEALTH_OK").

(** A cluster whose pool profile names a crush profile. *)
Definition crush_ceph : Ceph :=
  Ceph_init "/tmp/cbt"
    {| cfg_use_existing := Some (PyBool false);
       cfg_idle_duration := None;
       cfg_log_dir := None; cfg_pid_dir := None; cfg_core_dir := None;
       conf_file := Some "ceph.conf";
       crush_profiles := []; erasure_profiles := [];
       pool_profiles :=
         Some {[ "fast" := ({[ "replication" := PyInt 2;
                               "crush_profile" := PyStr "ssd" ]} : profile);
                 "none" := ({[ "replication" := PyInt (-1) ]} : profile) ]};
       recovery_test := example_rt_config |}.

(** The number of times the completion callback of the recovery test
    has been called. *)
Definition callbacks (t : list event) : nat :=
  length (omap (fun e => match e with Callback => Some tt | _ => None end) t).

(** [m] does not call the callback, however it ends. *)
Definition quiet {A} (m : M A) : Prop :=
  forall w, callbacks (trace (final (m w))) = callbacks (trace w).

(** A recovery test that runs once, and one whose configuration names
    no OSDs. *)
Definition once_rt_config : rt_config :=
  {| run_dir := "/run"; pre_time := Some 5%Z; post_time := None;
     osds := Some [PyInt 0]; repeat := None |}.

Definition no_osds_rt_config : rt_config :=
  {| run_dir := "/run"; pre_time := None; post_time := None;
     osds := None; repeat := None |}.

(** The last line [run] writes to the recovery log. *)
Definition exit_cmd (cfg : rt_config) (st : string) : string :=
  logcmd cfg ("Exiting recovery test thread.  Last state was: " +:+ st).

(** ** Building the cluster: [setup_fs] and [make_osds] *)

Module Build.

(** How one of these methods can fail: with one of the exceptions above,
    with a [ValueError], with the [UnboundLocalError] of a local variable
    read before it was assigned, or by [settings.shutdown] ending the
    program. *)
Inductive failure :=
| Err (e : error)
| ValueError (msg : string)
| UnboundLocalError (name : string)
| Exit (msg : string).

Inductive formatted :=
| Text (s : string)
| Bad (f : failure).

(** Where a command is sent: to the nodes of some roles, or to one host
    by name. *)
Inductive target :=
| Nodes (roles : list string)
| Host (h : string).

(** [template.format] with keyword arguments [args], for templates whose
    replacement fields
    are plain names: [field] is the name read so far inside a pair of
    braces.  A doubled brace stands for itself, a name that is not among
    [args] raises [KeyError], as does Python, at the first such field
    from the left. *)
Fixpoint format_from (args : list (string * string)) (field : option string)
         (s : string) : formatted :=
  match field, s with
  | None, "" => Text ""
  | None, String "{" (String "{" s') =>
      match format_from args None s' with
      | Text r => Text (String "{" r)
      | Bad f => Bad f
      end
  | None, String "}" (String "}" s') =>
      match format_from args None s' with
      | Text r => Text (String "}" r)
      | Bad f => Bad f
      end
  | None, String "{" s' => format_from args (Some "") s'
  | None, String "}" _ =>
      Bad (ValueError "Single '}' encountered in format string")
  | None, String c s' =>
      match format_from args None s' with
      | Text r => Text (String c r)
      | Bad f => Bad f
      end
  | Some _, "" => Bad (ValueError "expected '}' before end of string")
  | Some name, String "}" s' =>
      match list_find (fun kv => bool_decide (kv.1 = name)) args with
      | None => Bad (Err (KeyError name))
      | Some (_, (_, v)) =>
          match format_from args None s' with
          | Text r => Text (v +:+ r)
          | Bad f => Bad f
          end
      end
  | Some name, String c s' =>
      format_from args (Some (name +:+ String c "")) s'
  end.

Definition format (template : string) (args : list (string * string))
  : formatted :=
  format_from args None template.

(** The keys of [settings.cluster] the two methods read;
    [osds_per_node] is an integer when it is there. *)
Record cluster_settings := mk_cluster_settings {
  sc_fs : option string;
  sc_mkfs_opts : option string;
  sc_mount_opts : option string;
  sc_osds_per_node : option Z;
  sc_osds : option (list string);
  sc_user : option pyval
}.

(** The commands sent so far, and the local variables of [make_osds]:
    [osdnum], the number of [uuid.uuid4()] calls made, and [pdshhost],
    which has no value until it is assigned. *)
Record progress := mk_progress {
  sent : list (target * string);
  osdnum : nat;
  drawn : nat;
  pdshhost : option string
}.

Inductive ended :=
| Returned (p : progress)
| Failed (f : failure) (p : progress).

Definition and_then (r : ended) (k : progress -> ended) : ended :=
  match r with
  | Returned p => k p
  | Failed f p => Failed f p
  end.

Definition start : progress :=
  {| sent := []; osdnum := 0; drawn := 0; pdshhost := None |}.

Definition send (t : target) (cmd : string) (p : progress) : ended :=
  Returned {| sent := sent p ++ [(t, cmd)]; osdnum := osdnum p;
              drawn := drawn p; pdshhost := pdshhost p |}.

(** [common.pdsh(pdshhost, cmd).communicate()] *)
Definition send_to_pdshhost (cmd : string) (p : progress) : ended :=
  match pdshhost p with
  | None => Failed (UnboundLocalError "pdshhost") p
  | Some h => send (Host h) cmd p
  end.

(** [for cmd in cmds: cmd = cmd.format(...); <send>(cmd)] *)
Fixpoint send_formatted (sender : string -> progress -> ended)
         (args : list (string * string)) (cmds : list string) (p : progress)
  : ended :=
  match cmds with
  | [] => Returned p
  | cmd :: cmds' =>
      match format cmd args with
      | Bad f => Failed f p
      | Text cmd => and_then (sender cmd p) (send_formatted sender args cmds')
      end
  end.

(** [for i in range(n): body], counting from [i]. *)
Fixpoint for_range_from (i n : nat) (body : nat -> progress -> ended)
         (p : progress) : ended :=
  match n with
  | 0 => Returned p
  | S n' => and_then (body i p) (for_range_from (S i) n' body)
  end.

Definition for_range (n : Z) (body : nat -> progress -> ended)
  : progress -> ended :=
  for_range_from 0 (Z.to_nat n) body.

Fixpoint for_hosts (hosts : list string) (body : string -> progress -> ended)
         (p : progress) : ended :=
  match hosts with
  | [] => Returned p
  | host :: hosts' => and_then (body host p) (for_hosts hosts' body)
  end.

(** The optional string keys print as [None] when they are missing. *)
Definition str_opt (s : option string) : string := default "None" s.

Section Methods.
Variable self : Ceph.
(** Attributes the methods read that [Ceph] above does not carry:
    [mnt_dir] of the base class, [ceph_osd_cmd], [osd_valgrind]. *)
Variable mnt_dir : string.
Variable ceph_osd_cmd : string.
Variable osd_valgrind : pyval.
Variable sc : cluster_settings.
(** What is outside the module: whether [settings.shutdown] ends the
    program, [common.setup_valgrind], and the [n]-th value of
    [str(uuid.uuid4())]. *)
Variable shutdown_exits : bool.
Variable setup_valgrind : pyval -> string -> string -> string.
Variable uuid4 : nat -> string.

Definition fs_base_cmds : list string :=
  ["sudo umount /dev/disk/by-partlabel/{odd}";
   "sudo rm -rf {mnt_dir}/{odd}";
   "sudo mkdir -p -m0755 -- {mnt_dir}/{odd}"].

Definition fs_zfs_cmds : list string :=
  ["sudo zpool destroy {odd}";
   "sudo zpool create -f -O xattr=sa -m legacy {odd}/dev/disk/by-partlabel/{odd}";
   "sudo zpool add {odd} log /dev/disk/by-partlabel/{odd}";
   "sudo mount {mount_opts} -t zfs {odd} {mnt_dir}/{odd}"].

Definition fs_mkfs_cmds : list string :=
  ["sudo mkfs.{fs} {mkfs_opts} /dev/disk/by-partlabel/{odd}";
   "sudo mount {mount_opts} -t {fs} /dev/disk/by-partlabel/{odd} {mnt_dir}/{odd}"].

(** The commands of one device, before formatting. *)
Definition fs_cmds (fs : option string) : list string :=
  fs_base_cmds ++
  (if bool_decide (fs = Some "tmpfs") then []
   else if bool_decide (fs = Some "zfs") then fs_zfs_cmds
   else fs_mkfs_cmds).

Definition fs_args (device : nat) : list (string * string) :=
  [("fs", str_opt (sc_fs sc));
   ("mkfs_opts", default "" (sc_mkfs_opts sc));
   ("mount_opts", default "" (sc_mount_opts sc));
   ("mnt_dir", mnt_dir);
   ("odd", "osd-device-" +:+ pretty device +:+ "-data")].

(** [setup_fs(self)] *)
Definition setup_fs : ended :=
  let fs := sc_fs sc in
  and_then
    (if bool_decide (fs = Some "") && shutdown_exits
     then Failed (Exit "No OSD filesystem specified.  Exiting.") start
     else Returned start)
    (fun p =>
       match sc_osds_per_node sc with
       | None => Failed (ValueError "No osds_per_node parameter setup in config") p
       | Some n =>
           for_range n
             (fun device =>
                send_formatted (send (Nodes ["osds"])) (fs_args device)
                               (fs_cmds fs))
             p
       end).

Definition osd_cmds : list string :=
  ["sudo ceph -c {conf} osd create {uuid}";
   "sudo ceph -c {conf} osd crush add osd.{osd_num} 1.0 host={host} rack=localrack root=default";
   "sudo sh -c " +:+ dquote +:+ "ulimit -n 16384 && ulimit -c unlimited &&" +:+
   "   exec {cmd} -c {conf} -i {osd_num} --mkfs --mkkey --osd-uuid {uuid}" +:+
   dquote;
   "sudo ceph -c {conf} -i {key_fn} auth add osd.{osd_num} " +:+
   "   osd " +:+ dquote +:+ "allow *" +:+ dquote +:+ " mon " +:+ dquote +:+
   "allow profile osd" +:+ dquote].

(** The body of [for i in range(settings.cluster['osds_per_node']):] *)
Definition make_osd (i : nat) (p : progress) : ended :=
  let osduuid := uuid4 (drawn p) in
  let p := {| sent := sent p; osdnum := osdnum p; drawn := S (drawn p);
              pdshhost := pdshhost p |} in
  let key_fn := mnt_dir +:+ "/osd-device-" +:+ pretty i +:+ "-data/keyring" in
  and_then
    (send_formatted send_to_pdshhost
       [("conf", tmp_conf self); ("uuid", osduuid); ("cmd", ceph_osd_cmd);
        ("key_fn", key_fn)]
       osd_cmds p)
    (fun p =>
       let pidfile := pid_dir self +:+ "/ceph-osd." +:+ pretty (osdnum p) +:+
                      ".pid" in
       let cmd := ceph_osd_cmd +:+ " -c " +:+ tmp_conf self +:+ " -i " +:+
                  pretty (osdnum p) +:+ " --pid-file=" +:+ pidfile in
       let cmd :=
         if truthy osd_valgrind
         then setup_valgrind osd_valgrind ("osd." +:+ pretty (osdnum p))
                             (tmp_dir self) +:+ " " +:+ cmd
         else "ceph-run " +:+ cmd in
       and_then
         (send_to_pdshhost
            ("sudo sh -c " +:+ dquote +:+
             "ulimit -n 16384 && ulimit -c unlimited && exec " +:+ cmd +:+
             dquote) p)
         (fun p => Returned {| sent := sent p; osdnum := osdnum p + 1;
                               drawn := drawn p; pdshhost := pdshhost p |})).

(** The body of [for host in osdhosts:] *)
Definition make_host_osds (host : string) (p : progress) : ended :=
  let user := default PyNone (sc_user sc) in
  let p := if truthy user
           then {| sent := sent p; osdnum := osdnum p; drawn := drawn p;
                   pdshhost := Some (str user +:+ "@" +:+ host) |}
           else p in
  match sc_osds_per_node sc with
  | None => Failed (Err (KeyError "osds_per_node")) p
  | Some n => for_range n make_osd p
  end.

(** [make_osds(self)] *)
Definition make_osds : ended :=
  match sc_osds sc with
  | None => Failed (Err (TypeError "'NoneType' object is not iterable")) start
  | Some osdhosts => for_hosts osdhosts make_host_osds start
  end.

End Methods.

End Build.

(** A cluster of two OSD hosts with two devices each, on xfs, and the
    same with a [user] to log in as. *)
Definition example_settings (user : option pyval) : Build.cluster_settings :=
  {| Build.sc_fs := Some "xfs";
     Build.sc_mkfs_opts := Some "-f";
     Build.sc_mount_opts := None;
     Build.sc_osds_per_node := Some 2%Z;
     Build.sc_osds := Some ["node1"; "node2"];
     Build.sc_user := user |}.

Definition example_uuid4 (n : nat) : string := "uuid-" +:+ pretty n.

Definition no_valgrind (v : pyval) (name dir : string) : string := "".

(** [p] with [out] sent after what it has sent. *)
Definition add_sent (out : list (Build.target * string)) (p : Build.progress)
  : Build.progress :=
  {| Build.sent := Build.sent p ++ out; Build.osdnum := Build.osdnum p;
     Build.drawn := Build.drawn p; Build.pdshhost := Build.pdshhost p |}.

(** [make_osds] has nothing to build. *)
Definition nothing_to_build (sc : Build.cluster_settings) : Prop :=
  exists hosts,
    Build.sc_osds sc = Some hosts
    /\ (hosts = []
        \/ exists n, Build.sc_osds_per_node sc = Some n /\ (n <= 0)%Z).

(** A cluster to build whose configuration names no [conf_file]. *)
Definition no_conf_ceph : Ceph :=
  Ceph_init "/tmp/cbt"
    {| cfg_use_existing := Some (PyBool false);
       cfg_idle_duration := None;
       cfg_log_dir := None; cfg_pid_dir := None; cfg_core_dir := None;
       conf_file := None;
       crush_profiles := []; erasure_profiles := [];
       pool_profiles := None;
       recovery_test := example_rt_config |}.

(** The commands [make_profiles] sends for a crush profile, and the
    events of a run of crush profiles. *)
Definition crush_cmds (self : Ceph) (name : string) (osds : list pyval)
  : list string :=
  ["ceph -c " +:+ tmp_conf self +:+ " osd crush add-bucket " +:+ name +:+ "-root root";
   "ceph -c " +:+ tmp_conf self +:+ " osd crush add-bucket " +:+ name +:+ "-root root";
   "ceph -c " +:+ tmp_conf self +:+ " osd crush add-bucket " +:+ name +:+ "-rack rack";
   "ceph -c " +:+ tmp_conf self +:+ " osd crush move " +:+ name +:+ "-rack root=" +:+ name +:+ "-root";
   "ceph -c " +:+ tmp_conf self +:+ " osd crush add-bucket " +:+ name +:+ "-host host";
   "ceph -c " +:+ tmp_conf self +:+ " osd crush move " +:+ name +:+ "-host rack=" +:+ name +:+ "-rack"] ++
  ((fun i => "ceph -c " +:+ tmp_conf self +:+ " osd crush set " +:+
             str i +:+ " 1.0 host=" +:+ name +:+ "-host") <$> osds) ++
  ["ceph -c " +:+ tmp_conf self +:+ " osd crush rule create-simple " +:+
   name +:+ " " +:+ name +:+ "-root osd"].

Definition crush_events (self : Ceph)
           (profiles : list (string * option (list pyval))) : list event :=
  Pdsh ["head"] <$>
    concat ((fun x => crush_cmds self (fst x) (default [] (snd x))) <$> profiles).

(** * Properties *)

(** ** Running a computation *)

Lemma bind_run {A B} (m : M A) (k : A -> M B) (w : World) :
  (m ≫= k) w =
  match m w with
  | Done a w' => k a w'
  | Raised e w' => Raised e w'
  | Pending w' => Pending w'
  end.
Proof. reflexivity. Qed.

Lemma bind_done {A B} (m : M A) (k : A -> M B) w a w' :
  m w = Done a w' -> (m ≫= k) w = k a w'.
Proof. intros H. rewrite bind_run, H. reflexivity. Qed.


Lemma bind_pending {A B} (m : M A) (k : A -> M B) w w' :
  m w = Pending w' -> (m ≫= k) w = Pending w'.
Proof. intros H. rewrite bind_run, H. reflexivity. Qed.

Lemma same_control_refl w : same_control w w.
Proof. repeat split. Qed.

Lemma same_control_trans w1 w2 w3 :
  same_control w1 w2 -> same_control w2 w3 -> same_control w1 w3.
Proof.
  unfold same_control. intros (?&?&?&?&?&?&?&?) (?&?&?&?&?&?&?&?).
  repeat split; congruence.
Qed.

Lemma same_control_sym w1 w2 : same_control w1 w2 -> same_control w2 w1.
Proof.
  unfold same_control. intros (?&?&?&?&?&?&?&?). repeat split; congruence.
Qed.

Lemma adv_nil w : adv w [] 0 = w.
Proof. destruct w. unfold adv. cbn. rewrite app_nil_r. reflexivity. Qed.

Lemma adv_adv w e1 k1 e2 k2 :
  adv (adv w e1 k1) e2 k2 = adv w (e1 ++ e2) (k1 + k2).
Proof.
  unfold adv. cbn. rewrite drop_drop, <- app_assoc. reflexivity.
Qed.

Lemma adv_same_control w evs k : same_control w (adv w evs k).
Proof. repeat split. Qed.

Lemma polls_app t1 t2 : polls (t1 ++ t2) = polls t1 ++ polls t2.
Proof. apply omap_app. Qed.

Lemma sleeps_app t1 t2 : sleeps (t1 ++ t2) = sleeps t1 ++ sleeps t2.
Proof. apply omap_app. Qed.

Lemma commands_app t1 t2 : commands (t1 ++ t2) = commands t1 ++ commands t2.
Proof. apply omap_app. Qed.

Lemma yields_ret {A} (a : A) w : yields (mret a) w a [] 0.
Proof. unfold yields. rewrite adv_nil. reflexivity. Qed.

Lemma yields_emit e w : yields (emit e) w tt [e] 0.
Proof. reflexivity. Qed.

Lemma yields_pdsh roles cmd w : yields (pdsh roles cmd) w tt [Pdsh roles cmd] 0.
Proof. reflexivity. Qed.

Lemma yields_bind {A B} (m : M A) (k : A -> M B) w a e1 k1 b e2 k2 :
  yields m w a e1 k1 ->
  yields (k a) (adv w e1 k1) b e2 k2 ->
  yields (m ≫= k) w b (e1 ++ e2) (k1 + k2).
Proof.
  unfold yields. intros Hm Hk. rewrite (bind_done _ _ _ _ _ Hm), Hk.
  rewrite adv_adv. reflexivity.
Qed.

Lemma yields_eq {A} (m : M A) w a evs k evs' k' :
  yields m w a evs k -> evs = evs' -> k = k' -> yields m w a evs' k'.
Proof. intros H <- <-. exact H. Qed.

Lemma issues_ret : issues (mret tt).
Proof. intros w. exists []. split; [apply yields_ret|reflexivity]. Qed.

Lemma issues_pdsh roles cmd : issues (pdsh roles cmd).
Proof. intros w. exists [Pdsh roles cmd]. split; reflexivity. Qed.

Lemma sleep_emits secs : (0 <= secs)%Z -> sleep secs = emit (Sleep secs).
Proof.
  intros H. unfold sleep.
  replace (secs <? 0)%Z with false by (symmetry; apply Z.ltb_ge; exact H).
  reflexivity.
Qed.

Lemma issues_sleep secs : (0 <= secs)%Z -> issues (sleep secs).
Proof.
  intros H w. rewrite (sleep_emits secs H).
  exists [Sleep secs]. split; reflexivity.
Qed.

Lemma issues_bind (m k : M unit) : issues m -> issues k -> issues (m ;; k).
Proof.
  intros Hm Hk w. destruct (Hm w) as (e1 & H1 & P1).
  destruct (Hk (adv w e1 0)) as (e2 & H2 & P2).
  exists (e1 ++ e2). split.
  - apply (yields_bind m (fun _ => k) w tt e1 0 tt e2 0 H1 H2).
  - rewrite polls_app, P1, P2. reflexivity.
Qed.

Lemma issues_for_each {A} (l : list A) (body : A -> M unit) :
  (forall x, issues (body x)) -> issues (for_each l body).
Proof.
  intros Hb. induction l as [|x l IH]; [apply issues_ret|].
  cbn. apply issues_bind; [apply Hb|exact IH].
Qed.

Lemma issues_if (b : bool) (m1 m2 : M unit) :
  issues m1 -> issues m2 -> issues (if b then m1 else m2).
Proof. destruct b; auto. Qed.

Lemma run_get {A B} (f : World -> A) (k : A -> M B) w :
  (get f ≫= k) w = k (f w) w.
Proof. reflexivity. Qed.

Lemma run_emit {B} e (k : unit -> M B) w :
  (emit e ≫= k) w = k tt (adv w [e] 0).
Proof. reflexivity. Qed.

Lemma run_pdsh {B} roles cmd (k : unit -> M B) w :
  (pdsh roles cmd ≫= k) w = k tt (adv w [Pdsh roles cmd] 0).
Proof. reflexivity. Qed.

Lemma run_sleep {B} secs (k : unit -> M B) w :
  (0 <= secs)%Z ->
  (sleep secs ≫= k) w = k tt (adv w [Sleep secs] 0).
Proof. intros H. rewrite (sleep_emits secs H). reflexivity. Qed.

Lemma run_sleep_negative {B} secs (k : unit -> M B) w :
  (secs < 0)%Z ->
  (sleep secs ≫= k) w = Raised (IOError "[Errno 22] Invalid argument") w.
Proof.
  intros H. unfold sleep.
  replace (secs <? 0)%Z with true by (symmetry; apply Z.ltb_lt; exact H).
  reflexivity.
Qed.

Lemma run_modify {B} f (k : unit -> M B) w :
  (modify f ≫= k) w = k tt (f w).
Proof. reflexivity. Qed.

Lemma run_issues {B} (m : M unit) (k : unit -> M B) w :
  issues m ->
  exists evs, polls evs = [] /\ m w = Done tt (adv w evs 0)
              /\ (m ≫= k) w = k tt (adv w evs 0).
Proof.
  intros Hm. destruct (Hm w) as (evs & Hy & Hp). exists evs.
  split; [exact Hp|]. split; [exact Hy|]. apply bind_done. exact Hy.
Qed.

(** ** The health poll *)

Lemma yields_pdsh_stdout roles cmd w out rest :
  stdouts w = out :: rest ->
  yields (pdsh_stdout roles cmd) w out [Pdsh roles cmd] 1.
Proof.
  intros Hw. unfold yields, pdsh_stdout. rewrite bind_run. cbn [emit modify].
  unfold next_stdout, adv. cbn. rewrite Hw. reflexivity.
Qed.

Lemma stdouts_adv w evs k : stdouts (adv w evs k) = drop k (stdouts w).
Proof. reflexivity. Qed.

Lemma trace_adv w evs k : trace (adv w evs k) = trace w ++ evs.
Proof. reflexivity. Qed.

Lemma full_check_list_nonempty :
  negb (bool_decide (full_check_list = [])) = true.
Proof. reflexivity. Qed.

Lemma check_health_loop_rounds self cmd out rest :
  settled out = true ->
  forall busy fuel ret w,
    Forall (fun s => settled s = false) busy ->
    stdouts w = busy ++ out :: rest ->
    length busy < fuel ->
    yields (check_health_loop self fuel full_check_list cmd ret) w
           (ret + length busy)
           (retries ("ceph -c " +:+ tmp_conf self +:+ " health " +:+ cmd)
                    (length busy) ++
            [Pdsh ["head"] ("ceph -c " +:+ tmp_conf self +:+ " health " +:+ cmd)])
           (S (length busy)).
Proof.
  intros Hout. unfold settled in Hout.
  induction busy as [|b busy IH]; intros fuel ret w Hbusy Hw Hfuel.
  - destruct fuel as [|fuel]; [cbn in Hfuel; lia|].
    cbn [check_health_loop]. rewrite Nat.add_0_r.
    eapply yields_eq; [eapply (yields_bind _ _ w out _ 1 ret [] 0)|..].
    + apply yields_pdsh_stdout with (rest := rest). exact Hw.
    + rewrite full_check_list_nonempty. cbn [andb].
      destruct (intersects full_check_list (split out)); cbn in Hout |- *.
      * rewrite Hout. apply yields_ret.
      * apply yields_ret.
    + reflexivity.
    + reflexivity.
  - destruct fuel as [|fuel]; [cbn in Hfuel; lia|].
    apply Forall_cons in Hbusy as [Hb Hbusy]. unfold settled in Hb.
    apply orb_false_iff in Hb as [Hb1 Hb2]. apply negb_false_iff in Hb1.
    set (c := "ceph -c " +:+ tmp_conf self +:+ " health " +:+ cmd).
    assert (Hy := IH fuel (S ret) (adv (adv w [Pdsh ["head"] c] 1) [Sleep 1] 0)
                     Hbusy).
    rewrite !stdouts_adv, Hw in Hy. specialize (Hy eq_refl).
    assert (Hlt : length busy < fuel) by (cbn in Hfuel; lia).
    specialize (Hy Hlt). fold c in Hy.
    cbn [check_health_loop]. fold c.
    replace (ret + length (b :: busy)) with (S ret + length busy) by (cbn; lia).
    eapply yields_eq;
      [eapply (yields_bind _ _ w b [Pdsh ["head"] c] 1 _ _ (0 + S (length busy)))|..].
    + apply yields_pdsh_stdout with (rest := busy ++ out :: rest). exact Hw.
    + rewrite full_check_list_nonempty, Hb1, Hb2. cbn [negb andb].
      eapply (yields_bind _ _ _ tt [Sleep 1] 0).
      * apply yields_emit.
      * exact Hy.
    + reflexivity.
    + reflexivity.
Qed.

(** After [n] outputs it does not settle on and one it does,
    [check_health] returns [n]. *)
Lemma check_health_rounds self check_list logfile w busy out rest :
  Forall (fun s => settled s = false) busy ->
  settled out = true ->
  stdouts w = busy ++ out :: rest ->
  yields (check_health self check_list logfile) w (length busy)
         (poll_events (health_cmd self logfile) (length busy))
         (S (length busy)).
Proof.
  intros Hbusy Hout Hw. unfold check_health.
  eapply yields_eq; [eapply yields_bind; [apply yields_ret|]|..].
  - rewrite adv_nil. eapply yields_bind.
    + apply (check_health_loop_rounds self _ out rest Hout busy _ 0 w Hbusy Hw).
      rewrite Hw, length_app. lia.
    + eapply yields_bind; [apply yields_emit|apply yields_ret].
  - unfold poll_events, health_cmd. cbn [app]. rewrite <- app_assoc. reflexivity.
  - lia.
Qed.

Lemma check_health_settled self check_list logfile w out rest :
  stdouts w = out :: rest ->
  settled out = true ->
  yields (check_health self check_list logfile) w 0
         [Pdsh ["head"] (health_cmd self logfile); Polled 0] 1.
Proof.
  intros Hw Hout.
  apply (check_health_rounds self check_list logfile w [] out rest);
    [constructor|exact Hout|exact Hw].
Qed.

(** [check_health] never raises and touches nothing but the remote
    side. *)
Lemma check_health_loop_outcome self fuel check_list logline :
  forall ret w,
    match check_health_loop self fuel check_list logline ret w with
    | Done _ w' | Pending w' =>
        same_control w w' /\ polls (trace w') = polls (trace w)
    | Raised _ _ => False
    end.
Proof.
  induction fuel as [|fuel IH]; intros ret w; [split; [apply same_control_refl|reflexivity]|].
  cbn [check_health_loop]. rewrite bind_run. unfold pdsh_stdout.
  rewrite bind_run. cbn [emit modify]. unfold next_stdout. cbn [stdouts with_trace].
  assert (Hp : forall e, polls [e] = [] -> polls (trace w ++ [e]) = polls (trace w)).
  { intros e He. rewrite polls_app, He, app_nil_r. reflexivity. }
  destruct (stdouts w) as [|out rest];
    [split; [repeat split|cbn; apply Hp; reflexivity]|].
  destruct (negb (bool_decide (check_list = [])) &&
            negb (intersects check_list (split out)));
    [split; [repeat split|cbn; apply Hp; reflexivity]|].
  destruct (contains "HEALTH_OK" out);
    [split; [repeat split|cbn; apply Hp; reflexivity]|].
  rewrite (sleep_emits 1) by lia. rewrite bind_run. cbn [emit modify].
  match goal with |- context [check_health_loop self fuel _ _ ?r ?w'] =>
    specialize (IH r w');
    destruct (check_health_loop self fuel check_list logline r w') end;
    try exact IH; destruct IH as [IH1 IH2];
    (split; [eapply same_control_trans; [|exact IH1]; repeat split|]);
    rewrite IH2; cbn; rewrite !polls_app; cbn; rewrite !app_nil_r; reflexivity.
Qed.

Lemma check_health_outcome self check_list logfile w :
  match check_health self check_list logfile w with
  | Done r w' => same_control w w' /\ polls (trace w') = polls (trace w) ++ [r]
  | Pending w' => same_control w w' /\ polls (trace w') = polls (trace w)
  | Raised _ _ => False
  end.
Proof.
  unfold check_health. rewrite bind_run. cbn [get]. rewrite bind_run.
  match goal with |- context [check_health_loop self ?f ?c ?l 0 w] =>
    pose proof (check_health_loop_outcome self f c l 0 w) as H;
    destruct (check_health_loop self f c l 0 w) as [r w'|e w'|w'] end;
    [|exact H|exact H].
  destruct H as [H1 H2]. rewrite bind_run. cbn. split.
  - eapply same_control_trans; [exact H1|repeat split].
  - rewrite polls_app, H2. reflexivity.
Qed.

(** ** The ruleset registry *)

Lemma set_ruleset_taken name w :
  str name ∈ dom (ruleset_map w) ->
  set_ruleset name w =
  Raised (Exception ("A rule named " +:+ str name +:+ " already exists!")) w.
Proof.
  intros Hin. unfold set_ruleset. rewrite bind_run. cbn.
  rewrite bool_decide_eq_true_2 by exact Hin. reflexivity.
Qed.

Lemma set_ruleset_fresh name w :
  str name ∉ dom (ruleset_map w) ->
  set_ruleset name w =
  Done tt (with_ruleset (<[str name := cur_ruleset w]> (ruleset_map w))
                        (cur_ruleset w + 1) w).
Proof.
  intros Hin. unfold set_ruleset. rewrite bind_run. cbn.
  rewrite bool_decide_eq_false_2 by exact Hin. reflexivity.
Qed.

Lemma set_ruleset_cases name w :
  ((str name ∈ dom (ruleset_map w)) /\ final (set_ruleset name w) = w) \/
  ((str name ∉ dom (ruleset_map w)) /\
   final (set_ruleset name w) =
   with_ruleset (<[str name := cur_ruleset w]> (ruleset_map w))
                (cur_ruleset w + 1) w).
Proof.
  destruct (decide (str name ∈ dom (ruleset_map w))) as [Hin|Hin].
  - left. split; [exact Hin|]. rewrite set_ruleset_taken by exact Hin. reflexivity.
  - right. split; [exact Hin|]. rewrite set_ruleset_fresh by exact Hin. reflexivity.
Qed.

Lemma set_ruleset_ids_below_next name w :
  ids_below_next w -> ids_below_next (final (set_ruleset name w)).
Proof.
  intros Hinv. destruct (set_ruleset_cases name w) as [[_ ->]|[_ ->]]; [exact Hinv|].
  intros k id. cbn. rewrite lookup_insert. case_decide.
  - intros [= <-]. lia.
  - intros Hk. apply Hinv in Hk. lia.
Qed.

Lemma set_ruleset_keeps name w k id :
  ruleset_map w !! k = Some id ->
  ruleset_map (final (set_ruleset name w)) !! k = Some id.
Proof.
  intros Hk. destruct (set_ruleset_cases name w) as [[_ ->]|[Hin ->]]; [exact Hk|].
  cbn. rewrite lookup_insert_ne; [exact Hk|].
  intros <-. apply Hin. apply elem_of_dom. eauto.
Qed.

Lemma set_ruleset_dom name w k :
  k ∈ dom (ruleset_map (final (set_ruleset name w))) ->
  k = str name \/ k ∈ dom (ruleset_map w).
Proof.
  destruct (set_ruleset_cases name w) as [[_ ->]|[_ ->]]; [auto|].
  cbn. rewrite dom_insert. set_solver.
Qed.

Lemma after_registrations_ids_below_next names w :
  ids_below_next w -> ids_below_next (after_registrations names w).
Proof.
  revert w. induction names as [|n names IH]; intros w Hinv; [exact Hinv|].
  cbn. apply IH, set_ruleset_ids_below_next, Hinv.
Qed.

Lemma after_registrations_keeps names w k id :
  ruleset_map w !! k = Some id ->
  ruleset_map (after_registrations names w) !! k = Some id.
Proof.
  revert w. induction names as [|n names IH]; intros w Hk; [exact Hk|].
  cbn. apply IH, set_ruleset_keeps, Hk.
Qed.

Lemma after_registrations_dom names w k :
  k ∈ dom (ruleset_map (after_registrations names w)) ->
  k ∈ (str <$> names) \/ k ∈ dom (ruleset_map w).
Proof.
  revert w. induction names as [|n names IH]; intros w Hk; [right; exact Hk|].
  cbn in Hk. apply IH in Hk as [Hk|Hk].
  - left. rewrite fmap_cons. apply elem_of_cons. right. exact Hk.
  - apply set_ruleset_dom in Hk as [->|Hk]; [left|right; exact Hk].
    rewrite fmap_cons. apply elem_of_cons. left. reflexivity.
Qed.

Lemma World_init_ids_below_next outs : ids_below_next (World_init outs).
Proof. intros k id. cbn. rewrite lookup_empty. discriminate. Qed.

(** C8. Registering a name a second time raises the "already exists"
    exception and leaves the world as it was; looking up a name that was
    never registered raises [KeyError], a [LookupError]; and of two
    successful registrations the later one gets the larger id. *)
Theorem ruleset_registry :
  (forall name w,
      let w1 := final (set_ruleset name w) in
      set_ruleset name w1 =
      Raised (Exception ("A rule named " +:+ str name +:+ " already exists!")) w1)
  /\ (forall names name outs,
         str name ∉ (str <$> names) ->
         let w := after_registrations names (World_init outs) in
         get_ruleset name w = Raised (KeyError (str name)) w
         /\ is_LookupError (KeyError (str name)) = true)
  /\ (forall names1 n1 names2 n2 outs w1 w3,
         let w0 := after_registrations names1 (World_init outs) in
         set_ruleset n1 w0 = Done tt w1 ->
         let w2 := after_registrations names2 w1 in
         set_ruleset n2 w2 = Done tt w3 ->
         exists id1 id2,
           ruleset_map w3 !! str n1 = Some id1
           /\ ruleset_map w3 !! str n2 = Some id2
           /\ id1 < id2).
Proof.
  split; [|split].
  - intros name w w1. apply set_ruleset_taken. subst w1.
    destruct (set_ruleset_cases name w) as [[Hin ->]|[_ ->]]; [exact Hin|].
    cbn. rewrite dom_insert. set_solver.
  - intros names name outs Hnot w. split; [|reflexivity].
    unfold get_ruleset. rewrite bind_run. cbn.
    destruct (ruleset_map w !! str name) as [id|] eqn:Hk; [|reflexivity].
    exfalso. assert (Hd : str name ∈ dom (ruleset_map w)).
    { apply elem_of_dom. eauto. }
    apply after_registrations_dom in Hd as [Hd|Hd]; [exact (Hnot Hd)|].
    cbn in Hd. set_solver.
  - intros names1 n1 names2 n2 outs w1 w3 w0 H1 w2 H2.
    assert (Hf1 : str n1 ∉ dom (ruleset_map w0)).
    { intros Hin. rewrite set_ruleset_taken in H1 by exact Hin. discriminate. }
    rewrite set_ruleset_fresh in H1 by exact Hf1. injection H1 as <-.
    assert (Hf2 : str n2 ∉ dom (ruleset_map w2)).
    { intros Hin. rewrite set_ruleset_taken in H2 by exact Hin. discriminate. }
    rewrite set_ruleset_fresh in H2 by exact Hf2. injection H2 as <-.
    set (w1 := with_ruleset _ _ w0) in *.
    assert (Hk1 : ruleset_map w2 !! str n1 = Some (cur_ruleset w0)).
    { apply after_registrations_keeps. cbn. apply lookup_insert_eq. }
    assert (Hinv : ids_below_next w2).
    { apply after_registrations_ids_below_next.
      pose proof (set_ruleset_ids_below_next n1 w0
        (after_registrations_ids_below_next names1 _
           (World_init_ids_below_next outs))) as Hinv1.
      rewrite set_ruleset_fresh in Hinv1 by exact Hf1. exact Hinv1. }
    exists (cur_ruleset w0), (cur_ruleset w2). cbn. split; [|split].
    + rewrite lookup_insert_ne; [exact Hk1|].
      intros Heq. apply Hf2. rewrite Heq. apply elem_of_dom. eauto.
    + apply lookup_insert_eq.
    + apply Hinv in Hk1. exact Hk1.
Qed.

(** ** The handlers of the recovery test *)

Section Handlers.
Variable self : Ceph.
Variable cfg : rt_config.

Lemma issues_for_osds_some l (body : pyval -> M unit) :
  osds cfg = Some l -> (forall x, issues (body x)) -> issues (for_osds cfg body).
Proof.
  intros Hl Hb. unfold for_osds. rewrite Hl. apply issues_for_each, Hb.
Qed.

Lemma thread_osdout_shape w :
  match check_health self (Some health_checklist) (rt_logfile cfg) w with
  | Done r w1 =>
      if (outhealthtries w1 <? maxhealthtries w1)%nat && (r =? 0)%nat
      then exists evs,
          thread_osdout self cfg w =
          Done tt (with_tries (outhealthtries w1 + 1) (inhealthtries w1)
                              (adv w1 evs 0))
          /\ polls evs = []
      else match osds cfg with
           | None => exists e evs,
               thread_osdout self cfg w = Raised e (adv w1 evs 0)
               /\ polls evs = []
           | Some _ => exists evs,
               thread_osdout self cfg w = Done tt (with_state osdin (adv w1 evs 0))
               /\ polls evs = []
           end
  | Pending w1 => thread_osdout self cfg w = Pending w1
  | Raised e w1 => thread_osdout self cfg w = Raised e w1
  end.
Proof.
  unfold thread_osdout. fold (rt_logfile cfg). rewrite bind_run.
  destruct (check_health self (Some health_checklist) (rt_logfile cfg) w)
    as [r w1|e w1|w1]; [|reflexivity|reflexivity].
  rewrite run_pdsh, !run_get.
  change (outhealthtries (adv w1 _ 0)) with (outhealthtries w1).
  change (maxhealthtries (adv w1 _ 0)) with (maxhealthtries w1).
  destruct ((outhealthtries w1 <? maxhealthtries w1)%nat && (r =? 0)%nat).
  - eexists. split; [reflexivity|reflexivity].
  - match goal with |- context [((if (r =? 0)%nat then ?a else ?b) ≫= ?k) ?w2] =>
      destruct (run_issues (if (r =? 0)%nat then a else b) k w2
                  ltac:(apply issues_if; apply issues_pdsh))
        as (e1 & Hp1 & _ & ->) end.
    rewrite run_pdsh, !adv_adv.
    destruct (osds cfg) as [l|] eqn:Hl.
    + match goal with |- context [(for_osds cfg ?b ≫= ?k) ?w3] =>
        destruct (run_issues (for_osds cfg b) k w3
                    ltac:(apply (issues_for_osds_some l); [exact Hl|];
                          intros x; apply issues_bind; apply issues_pdsh))
          as (e2 & Hp2 & _ & ->) end.
      rewrite adv_adv. eexists. split; [reflexivity|].
      rewrite !polls_app, Hp1, Hp2. reflexivity.
    + unfold for_osds at 1. rewrite Hl.
      eexists _, _. split; [reflexivity|].
      rewrite !polls_app, Hp1. reflexivity.
Qed.

Lemma thread_osdin_shape w :
  match check_health self (Some health_checklist) (rt_logfile cfg) w with
  | Done r w1 =>
      if (inhealthtries w1 <? maxhealthtries w1)%nat && (r =? 0)%nat
      then thread_osdin self cfg w =
           Done tt (with_tries (outhealthtries w1) (inhealthtries w1 + 1) w1)
      else exists evs,
          thread_osdin self cfg w = Done tt (with_state post (adv w1 evs 0))
          /\ polls evs = []
  | Pending w1 => thread_osdin self cfg w = Pending w1
  | Raised e w1 => thread_osdin self cfg w = Raised e w1
  end.
Proof.
  unfold thread_osdin. fold (rt_logfile cfg). rewrite bind_run.
  destruct (check_health self (Some health_checklist) (rt_logfile cfg) w)
    as [r w1|e w1|w1]; [|reflexivity|reflexivity].
  rewrite !run_get.
  destruct ((inhealthtries w1 <? maxhealthtries w1)%nat && (r =? 0)%nat).
  - reflexivity.
  - match goal with |- context [((if (r =? 0)%nat then ?a else ?b) ≫= ?k) ?w2] =>
      destruct (run_issues (if (r =? 0)%nat then a else b) k w2
                  ltac:(apply issues_if; apply issues_pdsh))
        as (e1 & Hp1 & _ & ->) end.
    eexists. split; [reflexivity|exact Hp1].
Qed.

Lemma thread_pre_shape w :
  (0 <= default 60 (pre_time cfg))%Z ->
  exists evs,
    thread_pre self cfg w = Done tt (with_state markdown (adv w evs 0))
    /\ polls evs = [].
Proof.
  intros Hpre. unfold thread_pre.
  rewrite run_pdsh, run_sleep, run_pdsh, !adv_adv by exact Hpre.
  eexists. split; reflexivity.
Qed.

(** A negative [pre_time] ends [pre] in the error of [time.sleep], after
    its first log line. *)
Lemma thread_pre_raises w :
  (default 60 (pre_time cfg) < 0)%Z ->
  exists evs,
    thread_pre self cfg w =
    Raised (IOError "[Errno 22] Invalid argument") (adv w evs 0)
    /\ polls evs = [].
Proof.
  intros Hpre. unfold thread_pre.
  rewrite run_pdsh, run_sleep_negative by exact Hpre.
  eexists. split; reflexivity.
Qed.

Lemma thread_markdown_shape w :
  match osds cfg with
  | None => exists e, thread_markdown self cfg w = Raised e w
  | Some _ => exists evs,
      thread_markdown self cfg w = Done tt (with_state osdout (adv w evs 0))
      /\ polls evs = []
  end.
Proof.
  unfold thread_markdown. destruct (osds cfg) as [l|] eqn:Hl.
  - match goal with |- context [(for_osds cfg ?b ≫= ?k) ?w3] =>
      destruct (run_issues (for_osds cfg b) k w3
                  ltac:(apply (issues_for_osds_some l); [exact Hl|];
                        intros x; apply issues_bind; apply issues_pdsh))
        as (e2 & Hp2 & _ & ->) end.
    rewrite run_pdsh, adv_adv. eexists. split; [reflexivity|].
    rewrite polls_app, Hp2. reflexivity.
  - unfold for_osds. rewrite Hl. eexists. reflexivity.
Qed.

Lemma thread_post_shape w :
  exists evs,
    polls evs = [] /\
    thread_post cfg w =
    if stoprequest w then Done tt (with_haltrequest true (adv w evs 0))
    else if truthy (default (PyBool false) (repeat cfg))
         then Done tt (with_state markdown (adv (with_tries 0 0 w) evs 0))
         else if (default 60 (post_time cfg) <? 0)%Z
              then Raised (IOError "[Errno 22] Invalid argument") (adv w evs 0)
              else Done tt (with_state done (adv w evs 0)).
Proof.
  unfold thread_post. rewrite run_get.
  destruct (stoprequest w).
  - rewrite run_pdsh. eexists. split; [|reflexivity]. reflexivity.
  - destruct (truthy (default (PyBool false) (repeat cfg))).
    + rewrite run_modify, run_pdsh. eexists. split; [|reflexivity]. reflexivity.
    + rewrite run_pdsh.
      destruct (default 60 (post_time cfg) <? 0)%Z eqn:Hpost.
      * apply Z.ltb_lt in Hpost. rewrite run_sleep_negative by exact Hpost.
        eexists. split; [|reflexivity]. reflexivity.
      * apply Z.ltb_ge in Hpost. rewrite run_sleep, adv_adv by exact Hpost.
        eexists. split; [|reflexivity]. reflexivity.
Qed.

Lemma thread_done_shape w :
  exists evs,
    thread_done cfg w = Done tt (with_haltrequest true (adv w evs 0))
    /\ polls evs = [].
Proof.
  unfold thread_done. rewrite run_pdsh, run_emit, adv_adv.
  eexists. split; reflexivity.
Qed.

Lemma invoke_run w : invoke self cfg w = states self cfg (state w) w.
Proof. reflexivity. Qed.

Lemma pass_run b w :
  haltrequest w = false ->
  pass self cfg b w =
  invoke self cfg (if b then with_stoprequest true w else w).
Proof.
  intros Hh. unfold pass. rewrite run_get, Hh. destruct b; reflexivity.
Qed.

Lemma pass_halted b w :
  haltrequest w = true -> pass self cfg b w = Done tt w.
Proof. intros Hh. unfold pass. rewrite run_get, Hh. reflexivity. Qed.

(** What one handler invocation does to the attributes, however it
    ends. *)
Lemma invoke_control w :
  let w' := final (invoke self cfg w) in
  match state w with
  | pre => same_control w w' \/ same_control (with_state markdown w) w'
  | markdown => same_control w w' \/ same_control (with_state osdout w) w'
  | osdout =>
      same_control w w'
      \/ (outhealthtries w < maxhealthtries w
          /\ same_control (with_tries (outhealthtries w + 1) (inhealthtries w) w) w')
      \/ (same_control (with_state osdin w) w')
  | osdin =>
      same_control w w'
      \/ (inhealthtries w < maxhealthtries w
          /\ same_control (with_tries (outhealthtries w) (inhealthtries w + 1) w) w')
      \/ (same_control (with_state post w) w')
  | post =>
      if stoprequest w then same_control (with_haltrequest true w) w'
      else if truthy (default (PyBool false) (repeat cfg))
           then same_control (with_state markdown (with_tries 0 0 w)) w'
           else same_control w w' \/ same_control (with_state done w) w'
  | done => same_control (with_haltrequest true w) w'
  end.
Proof.
  cbv zeta. rewrite invoke_run. destruct (state w) eqn:Hst; cbn [states].
  - destruct (Z_lt_le_dec (default 60%Z (pre_time cfg)) 0%Z) as [Hpre|Hpre].
    + destruct (thread_pre_raises w Hpre) as (evs & -> & _). left. repeat split.
    + destruct (thread_pre_shape w Hpre) as (evs & -> & _). right. repeat split.
  - pose proof (thread_markdown_shape w) as H. destruct (osds cfg).
    + destruct H as (evs & -> & _). right. repeat split.
    + destruct H as (e & ->). left. repeat split.
  - pose proof (thread_osdout_shape w) as H.
    pose proof (check_health_outcome self (Some health_checklist) (rt_logfile cfg) w) as Hc.
    destruct (check_health self (Some health_checklist) (rt_logfile cfg) w)
      as [r w1|e w1|w1]; [|contradiction|rewrite H; left; apply Hc].
    destruct Hc as [Hc _].
    destruct ((outhealthtries w1 <? maxhealthtries w1)%nat && (r =? 0)%nat) eqn:Hb.
    + destruct H as (evs & -> & _). right. left.
      apply andb_true_iff in Hb as [Hb _]. apply Nat.ltb_lt in Hb.
      destruct Hc as (?&?&?&?&?&?&?&?). split; [lia|].
      repeat split; cbn; congruence.
    + destruct (osds cfg).
      * destruct H as (evs & -> & _). right. right.
        destruct Hc as (?&?&?&?&?&?&?&?). repeat split; cbn; congruence.
      * destruct H as (e & evs & -> & _). left.
        destruct Hc as (?&?&?&?&?&?&?&?). repeat split; cbn; congruence.
  - pose proof (thread_osdin_shape w) as H.
    pose proof (check_health_outcome self (Some health_checklist) (rt_logfile cfg) w) as Hc.
    destruct (check_health self (Some health_checklist) (rt_logfile cfg) w)
      as [r w1|e w1|w1]; [|contradiction|rewrite H; left; apply Hc].
    destruct Hc as [Hc _].
    destruct ((inhealthtries w1 <? maxhealthtries w1)%nat && (r =? 0)%nat) eqn:Hb.
    + rewrite H. right. left.
      apply andb_true_iff in Hb as [Hb _]. apply Nat.ltb_lt in Hb.
      destruct Hc as (?&?&?&?&?&?&?&?). split; [lia|].
      repeat split; cbn; congruence.
    + destruct H as (evs & -> & _). right. right.
      destruct Hc as (?&?&?&?&?&?&?&?). repeat split; cbn; congruence.
  - destruct (thread_post_shape w) as (evs & _ & ->).
    destruct (stoprequest w); [repeat split|].
    destruct (truthy (default (PyBool false) (repeat cfg))); [repeat split|].
    destruct (default 60 (post_time cfg) <? 0)%Z;
      [left; repeat split|right; repeat split].
  - destruct (thread_done_shape w) as (evs & -> & _). repeat split.
Qed.

Lemma unit_bind_ret (m : M unit) w : (m ;; mret tt) w = m w.
Proof. rewrite bind_run. destruct (m w) as [[] ?| |]; reflexivity. Qed.

Lemma passes_cons b l w :
  passes self cfg (b :: l) w =
  match pass self cfg b w with
  | Done _ w1 => passes self cfg l w1
  | Raised e w1 => Raised e w1
  | Pending w1 => Pending w1
  end.
Proof. reflexivity. Qed.

Lemma passes_app l1 l2 w :
  passes self cfg (l1 ++ l2) w =
  match passes self cfg l1 w with
  | Done _ w1 => passes self cfg l2 w1
  | Raised e w1 => Raised e w1
  | Pending w1 => Pending w1
  end.
Proof.
  revert w. induction l1 as [|b l1 IH]; intros w; [reflexivity|].
  cbn [app]. rewrite !passes_cons.
  destruct (pass self cfg b w); [apply IH|reflexivity|reflexivity].
Qed.

Lemma after_snoc hist b w :
  after self cfg (hist ++ [b]) w =
  if returned (passes self cfg hist w)
  then final (pass self cfg b (after self cfg hist w))
  else after self cfg hist w.
Proof.
  unfold after. rewrite passes_app.
  destruct (passes self cfg hist w) as [[] w1|e w1|w1]; cbn [returned final];
    [|reflexivity|reflexivity].
  rewrite passes_cons. destruct (pass self cfg b w1); reflexivity.
Qed.

Local Ltac close_control :=
  repeat split; intros; try congruence; auto;
  try (left; congruence); try (right; congruence);
  try match goal with
      | Hx : stoprequest ?a = stoprequest ?b |- stoprequest ?b = false =>
          rewrite <- Hx; auto
      end.

(** What one pass of the loop does when the test repeats. *)
Lemma pass_control b w :
  truthy (default (PyBool false) (repeat cfg)) = true ->
  state w <> done ->
  let w' := final (pass self cfg b w) in
  (state w' = state w \/ state w' = next_state (state w))
  /\ state w' <> done
  /\ maxhealthtries w' = maxhealthtries w
  /\ (haltrequest w = false -> haltrequest w' = true ->
      state w = post /\ stoprequest w' = true)
  /\ (haltrequest w = false -> stoprequest w = false -> b = false ->
      haltrequest w' = false /\ stoprequest w' = false).
Proof.
  intros Hrep Hst w'. subst w'.
  destruct (haltrequest w) eqn:Hh.
  { rewrite pass_halted by exact Hh. cbn [final].
    repeat split; try discriminate; auto. }
  rewrite pass_run by exact Hh.
  set (w0 := if b then with_stoprequest true w else w).
  assert (E : state w0 = state w /\ haltrequest w0 = false
              /\ maxhealthtries w0 = maxhealthtries w
              /\ stoprequest w0 = (stoprequest w || b)).
  { unfold w0. destruct b; cbn; rewrite ?orb_true_r, ?orb_false_r; auto. }
  destruct E as (E1 & E2 & E3 & E4).
  pose proof (invoke_control w0) as H. cbv zeta in H. rewrite E1 in H.
  set (w' := final (invoke self cfg w0)) in *.
  assert (Hstop : stoprequest w = false -> b = false -> stoprequest w0 = false).
  { intros Hs ->. rewrite E4, Hs. reflexivity. }
  destruct (state w) eqn:Hs; try congruence.
  - destruct H as [H|H]; destruct H as (?&?&?&?&?&?&?&?); cbn in *;
      close_control.
  - destruct H as [H|H]; destruct H as (?&?&?&?&?&?&?&?); cbn in *;
      close_control.
  - destruct H as [H|[[_ H]|H]]; destruct H as (?&?&?&?&?&?&?&?); cbn in *;
      close_control.
  - destruct H as [H|[[_ H]|H]]; destruct H as (?&?&?&?&?&?&?&?); cbn in *;
      close_control.
  - rewrite Hrep in H. destruct (stoprequest w0) eqn:Hs0.
    + assert (Hno : stoprequest w = false -> b = false -> False).
      { intros Hw Hb. discriminate (Hstop Hw Hb). }
      destruct H as (?&?&?&?&?&?&?&?). cbn in *.
      close_control; exfalso; eauto.
    + destruct H as (?&?&?&?&?&?&?&?). cbn in *.
      close_control.
Qed.

Lemma rounds_pred n outs : rounds (S n) outs -> rounds n outs.
Proof.
  revert outs. induction n as [|n IH]; intros outs H; [constructor|].
  inversion H as [|? busy out rest Hb Ho Hr]; subst.
  constructor; [exact Hb|exact Ho|apply IH, Hr].
Qed.

Lemma rounds_le n m outs : m <= n -> rounds n outs -> rounds m outs.
Proof.
  induction 1 as [|n Hle IH]; [auto|]. intros H. apply IH, rounds_pred, H.
Qed.

Lemma drop_round (busy : list string) out rest :
  drop (S (length busy)) (busy ++ out :: rest) = rest.
Proof. induction busy as [|b busy IH]; [reflexivity|exact IH]. Qed.

(** With a round of outputs pending, a health poll returns. *)
Lemma health_round check_list lf n w :
  rounds (S n) (stdouts w) ->
  exists r evs k,
    check_health self check_list lf w = Done r (adv w evs k)
    /\ rounds n (stdouts (adv w evs k)).
Proof.
  intros H. remember (stdouts w) as outs eqn:Heq.
  inversion H as [|? busy out rest Hb Ho Hr]; subst.
  match goal with Hx : _ ++ _ :: _ = stdouts w |- _ =>
    rename Hx into Heq; symmetry in Heq end.
  pose proof (check_health_rounds self check_list lf w busy out rest Hb Ho Heq)
    as Hy.
  eexists _, _, _. split; [exact Hy|].
  rewrite stdouts_adv, Heq, drop_round. exact Hr.
Qed.

Lemma passes_replicate_S k w :
  passes self cfg (replicate (S k) false) w =
  match pass self cfg false w with
  | Done _ w1 => passes self cfg (replicate k false) w1
  | Raised e w1 => Raised e w1
  | Pending w1 => Pending w1
  end.
Proof. reflexivity. Qed.

(** From [osdout] the test gets to [osdin], in at most as many passes
    as it has tries left, plus one. *)
Lemma osdout_progress l :
  osds cfg = Some l ->
  forall d w m,
    state w = osdout -> haltrequest w = false ->
    maxhealthtries w - outhealthtries w <= d ->
    rounds (S d + m) (stdouts w) ->
    exists k w',
      passes self cfg (replicate k false) w = Done tt w'
      /\ state w' = osdin /\ haltrequest w' = false
      /\ stoprequest w' = stoprequest w
      /\ maxhealthtries w' = maxhealthtries w
      /\ rounds m (stdouts w').
Proof.
  intros Hl. induction d as [|d IH]; intros w m Hst Hh Hd Hr.
  - destruct (health_round (Some health_checklist) (rt_logfile cfg) (0 + m) w Hr)
      as (r & evs & k & Hc & Hr').
    pose proof (thread_osdout_shape w) as Hs. rewrite Hc in Hs.
    change (outhealthtries (adv w evs k)) with (outhealthtries w) in Hs.
    change (maxhealthtries (adv w evs k)) with (maxhealthtries w) in Hs.
    replace (outhealthtries w <? maxhealthtries w)%nat with false in Hs
      by (symmetry; apply Nat.ltb_ge; lia).
    cbn [andb] in Hs. rewrite Hl in Hs. destruct Hs as (evs' & Hs & _).
    exists 1, (with_state osdin (adv (adv w evs k) evs' 0)).
    rewrite passes_replicate_S, pass_run, invoke_run, Hst by exact Hh.
    cbn [states]. rewrite Hs. repeat split; try assumption.
  - destruct (health_round (Some health_checklist) (rt_logfile cfg) (S d + m) w Hr)
      as (r & evs & k & Hc & Hr').
    pose proof (thread_osdout_shape w) as Hs. rewrite Hc in Hs.
    change (outhealthtries (adv w evs k)) with (outhealthtries w) in Hs.
    change (maxhealthtries (adv w evs k)) with (maxhealthtries w) in Hs.
    change (inhealthtries (adv w evs k)) with (inhealthtries w) in Hs.
    destruct ((outhealthtries w <? maxhealthtries w)%nat && (r =? 0)%nat) eqn:Hb.
    + destruct Hs as (evs' & Hs & _).
      set (w1 := with_tries (outhealthtries w + 1) (inhealthtries w)
                            (adv (adv w evs k) evs' 0)) in *.
      destruct (IH w1 m) as (k' & w' & Hp & H1 & H2 & H3 & H4 & H5);
        [exact Hst|exact Hh|cbn; lia|exact Hr'|].
      exists (S k'), w'.
      rewrite passes_replicate_S, pass_run, invoke_run, Hst by exact Hh.
      cbn [states]. rewrite Hs. repeat split; assumption.
    + rewrite Hl in Hs. destruct Hs as (evs' & Hs & _).
      exists 1, (with_state osdin (adv (adv w evs k) evs' 0)).
      rewrite passes_replicate_S, pass_run, invoke_run, Hst by exact Hh.
      cbn [states]. rewrite Hs. repeat split; try assumption.
      apply (rounds_le (S d + m)); [lia|exact Hr'].
Qed.

(** Likewise from [osdin] to [post]. *)
Lemma osdin_progress :
  forall d w m,
    state w = osdin -> haltrequest w = false ->
    maxhealthtries w - inhealthtries w <= d ->
    rounds (S d + m) (stdouts w) ->
    exists k w',
      passes self cfg (replicate k false) w = Done tt w'
      /\ state w' = post /\ haltrequest w' = false
      /\ stoprequest w' = stoprequest w
      /\ maxhealthtries w' = maxhealthtries w
      /\ rounds m (stdouts w').
Proof.
  induction d as [|d IH]; intros w m Hst Hh Hd Hr.
  - destruct (health_round (Some health_checklist) (rt_logfile cfg) (0 + m) w Hr)
      as (r & evs & k & Hc & Hr').
    pose proof (thread_osdin_shape w) as Hs. rewrite Hc in Hs.
    change (inhealthtries (adv w evs k)) with (inhealthtries w) in Hs.
    change (maxhealthtries (adv w evs k)) with (maxhealthtries w) in Hs.
    replace (inhealthtries w <? maxhealthtries w)%nat with false in Hs
      by (symmetry; apply Nat.ltb_ge; lia).
    cbn [andb] in Hs. destruct Hs as (evs' & Hs & _).
    exists 1, (with_state post (adv (adv w evs k) evs' 0)).
    rewrite passes_replicate_S, pass_run, invoke_run, Hst by exact Hh.
    cbn [states]. rewrite Hs. repeat split; try assumption.
  - destruct (health_round (Some health_checklist) (rt_logfile cfg) (S d + m) w Hr)
      as (r & evs & k & Hc & Hr').
    pose proof (thread_osdin_shape w) as Hs. rewrite Hc in Hs.
    change (outhealthtries (adv w evs k)) with (outhealthtries w) in Hs.
    change (maxhealthtries (adv w evs k)) with (maxhealthtries w) in Hs.
    change (inhealthtries (adv w evs k)) with (inhealthtries w) in Hs.
    destruct ((inhealthtries w <? maxhealthtries w)%nat && (r =? 0)%nat) eqn:Hb.
    + set (w1 := with_tries (outhealthtries w) (inhealthtries w + 1)
                            (adv w evs k)) in *.
      destruct (IH w1 m) as (k' & w' & Hp & H1 & H2 & H3 & H4 & H5);
        [exact Hst|exact Hh|cbn; lia|exact Hr'|].
      exists (S k'), w'.
      rewrite passes_replicate_S, pass_run, invoke_run, Hst by exact Hh.
      cbn [states]. rewrite Hs. repeat split; assumption.
    + destruct Hs as (evs' & Hs & _).
      exists 1, (with_state post (adv (adv w evs k) evs' 0)).
      rewrite passes_replicate_S, pass_run, invoke_run, Hst by exact Hh.
      cbn [states]. rewrite Hs. repeat split; try assumption.
      apply (rounds_le (S d + m)); [lia|exact Hr'].
Qed.

(** While nobody asks it to stop, a repeating test always gets to its
    next state. *)
Lemma progress_one l :
  osds cfg = Some l ->
  truthy (default (PyBool false) (repeat cfg)) = true ->
  forall w m,
    state w <> done -> haltrequest w = false -> stoprequest w = false ->
    (state w = pre -> (0 <= default 60 (pre_time cfg))%Z) ->
    rounds (S (maxhealthtries w) + m) (stdouts w) ->
    exists k w',
      passes self cfg (replicate k false) w = Done tt w'
      /\ state w' = next_state (state w) /\ haltrequest w' = false
      /\ stoprequest w' = false
      /\ maxhealthtries w' = maxhealthtries w
      /\ rounds m (stdouts w').
Proof.
  intros Hl Hrep w m Hst Hh Hs Hpre Hr.
  assert (Hr0 : rounds m (stdouts w)) by (apply (rounds_le _ m) in Hr; [auto|lia]).
  destruct (state w) eqn:Est; try congruence; cbn [next_state].
  - destruct (thread_pre_shape w (Hpre eq_refl)) as (evs & He & _).
    exists 1, (with_state markdown (adv w evs 0)).
    rewrite passes_replicate_S, pass_run, invoke_run, Est by exact Hh.
    cbn [states]. rewrite He. repeat split; assumption.
  - pose proof (thread_markdown_shape w) as He. rewrite Hl in He.
    destruct He as (evs & He & _).
    exists 1, (with_state osdout (adv w evs 0)).
    rewrite passes_replicate_S, pass_run, invoke_run, Est by exact Hh.
    cbn [states]. rewrite He. repeat split; assumption.
  - destruct (osdout_progress l Hl (maxhealthtries w) w m Est Hh ltac:(lia) Hr)
      as (k & w' & Hp & H1 & H2 & H3 & H4 & H5).
    exists k, w'. repeat split; try assumption. congruence.
  - destruct (osdin_progress (maxhealthtries w) w m Est Hh ltac:(lia) Hr)
      as (k & w' & Hp & H1 & H2 & H3 & H4 & H5).
    exists k, w'. repeat split; try assumption. congruence.
  - destruct (thread_post_shape w) as (evs & _ & He).
    rewrite Hs, Hrep in He.
    exists 1, (with_state markdown (adv (with_tries 0 0 w) evs 0)).
    rewrite passes_replicate_S, pass_run, invoke_run, Est by exact Hh.
    cbn [states]. rewrite He. repeat split; assumption.
Qed.

Lemma progress_many l :
  osds cfg = Some l ->
  truthy (default (PyBool false) (repeat cfg)) = true ->
  forall n w,
    state w <> done -> haltrequest w = false -> stoprequest w = false ->
    (state w = pre -> (0 <= default 60 (pre_time cfg))%Z) ->
    rounds (n * S (maxhealthtries w)) (stdouts w) ->
    exists k w',
      passes self cfg (replicate k false) w = Done tt w'
      /\ state w' = Nat.iter n next_state (state w)
      /\ haltrequest w' = false /\ stoprequest w' = false.
Proof.
  intros Hl Hrep. induction n as [|n IH]; intros w Hst Hh Hs Hpre Hr.
  - exists 0, w. repeat split; assumption.
  - destruct (progress_one l Hl Hrep w (n * S (maxhealthtries w)) Hst Hh Hs Hpre)
      as (k1 & w1 & Hp1 & H1 & H2 & H3 & H4 & H5).
    { replace (S (maxhealthtries w) + n * S (maxhealthtries w))
        with (S n * S (maxhealthtries w)) by lia. exact Hr. }
    destruct (IH w1) as (k2 & w2 & Hp2 & G1 & G2 & G3).
    { rewrite H1. destruct (state w); cbn; congruence. }
    { exact H2. } { exact H3. }
    { rewrite H1. destruct (state w); cbn; discriminate. }
    { rewrite H4. exact H5. }
    exists (k1 + k2), w2. rewrite replicate_add, passes_app, Hp1, Hp2.
    repeat split; try assumption.
    rewrite G1, H1. symmetry. apply Nat.iter_succ_r.
Qed.

(** Who raises the halt event, whatever the configuration. *)
Lemma pass_flags b w :
  let w' := final (pass self cfg b w) in
  (haltrequest w = false -> haltrequest w' = true ->
   (state w = post /\ stoprequest w' = true) \/ state w = done)
  /\ (stoprequest w = false -> b = false -> stoprequest w' = false).
Proof.
  cbv zeta. destruct (haltrequest w) eqn:Hh.
  { rewrite pass_halted by exact Hh. cbn [final]. split; [discriminate|auto]. }
  rewrite pass_run by exact Hh.
  set (w0 := if b then with_stoprequest true w else w).
  assert (E : state w0 = state w /\ haltrequest w0 = false
              /\ stoprequest w0 = (stoprequest w || b)).
  { unfold w0. destruct b; cbn; rewrite ?orb_true_r, ?orb_false_r; auto. }
  destruct E as (E1 & E2 & E4).
  pose proof (invoke_control w0) as H. cbv zeta in H. rewrite E1 in H.
  set (w' := final (invoke self cfg w0)) in *.
  assert (Hstop : stoprequest w = false -> b = false -> stoprequest w0 = false).
  { intros Hs ->. rewrite E4, Hs. reflexivity. }
  destruct (state w) eqn:Hs.
  - destruct H as [H|H]; destruct H as (?&?&?&?&?&?&?&?); cbn in *;
      close_control.
  - destruct H as [H|H]; destruct H as (?&?&?&?&?&?&?&?); cbn in *;
      close_control.
  - destruct H as [H|[[_ H]|H]]; destruct H as (?&?&?&?&?&?&?&?); cbn in *;
      close_control.
  - destruct H as [H|[[_ H]|H]]; destruct H as (?&?&?&?&?&?&?&?); cbn in *;
      close_control.
  - destruct (stoprequest w0) eqn:Hs0.
    + destruct H as (?&?&?&?&?&?&?&?). cbn in *. split.
      * intros _ _. left. split; congruence.
      * intros Hw Hb. discriminate (Hstop Hw Hb).
    + destruct (truthy (default (PyBool false) (repeat cfg)));
        [|destruct H as [H|H]];
        destruct H as (?&?&?&?&?&?&?&?); cbn in *; close_control.
  - destruct H as (?&?&?&?&?&?&?&?). cbn in *. split; [auto|].
    intros Hw Hb. rewrite <- (Hstop Hw Hb). congruence.
Qed.

(** In [osdout], with outputs the poll settles on at once, every pass
    that still has a try left uses it up and stays. *)
Lemma osdout_counting :
  forall schedule w,
    state w = osdout -> haltrequest w = false ->
    Forall (fun s => settled s = true) (stdouts w) ->
    length schedule <= length (stdouts w) ->
    outhealthtries w + length schedule <= maxhealthtries w ->
    exists w',
      passes self cfg schedule w = Done tt w'
      /\ state w' = osdout /\ haltrequest w' = false
      /\ outhealthtries w' = outhealthtries w + length schedule
      /\ inhealthtries w' = inhealthtries w
      /\ maxhealthtries w' = maxhealthtries w
      /\ stdouts w' = drop (length schedule) (stdouts w)
      /\ polls (trace w') = polls (trace w) ++ replicate (length schedule) 0.
Proof.
  induction schedule as [|b schedule IH]; intros w Hst Hh Hout Hlen Htries.
  - exists w. cbn. rewrite Nat.add_0_r, app_nil_r. repeat split; assumption.
  - cbn [length] in *.
    set (w0 := if b then with_stoprequest true w else w).
    assert (E : state w0 = osdout /\ haltrequest w0 = false
                /\ stdouts w0 = stdouts w /\ trace w0 = trace w
                /\ outhealthtries w0 = outhealthtries w
                /\ inhealthtries w0 = inhealthtries w
                /\ maxhealthtries w0 = maxhealthtries w).
    { unfold w0. destruct b; cbn; auto 10. }
    destruct E as (E1 & E2 & E3 & E4 & E5 & E6 & E7).
    destruct (stdouts w) as [|out rest] eqn:Hw; [cbn in Hlen; lia|].
    apply Forall_cons in Hout as [Ho Hrest].
    pose proof (check_health_settled self (Some health_checklist) (rt_logfile cfg) w0
                  out rest E3 Ho) as Hc.
    unfold yields in Hc.
    pose proof (thread_osdout_shape w0) as Hs. rewrite Hc in Hs.
    change (outhealthtries (adv w0 _ 1)) with (outhealthtries w0) in Hs.
    change (maxhealthtries (adv w0 _ 1)) with (maxhealthtries w0) in Hs.
    change (inhealthtries (adv w0 _ 1)) with (inhealthtries w0) in Hs.
    replace (outhealthtries w0 <? maxhealthtries w0)%nat with true in Hs
      by (symmetry; apply Nat.ltb_lt; lia).
    cbn [andb Nat.eqb] in Hs. destruct Hs as (evs & Hs & Hp).
    match type of Hs with _ = Done tt ?x => set (w1 := x) in * end.
    destruct (IH w1) as (w' & Hp' & H1 & H2 & H3 & H4 & H5 & H6 & H7).
    { exact E1. } { exact E2. }
    { unfold w1. cbn. rewrite E3. cbn. rewrite !drop_0. exact Hrest. }
    { unfold w1. cbn. rewrite E3. cbn in Hlen |- *. rewrite !drop_0. lia. }
    { unfold w1. cbn. lia. }
    exists w'. rewrite passes_cons, pass_run by exact Hh. fold w0.
    rewrite invoke_run, E1. cbn [states]. rewrite Hs.
    split; [exact Hp'|]. split; [exact H1|]. split; [exact H2|].
    split; [rewrite H3; unfold w1; cbn; lia|].
    split; [rewrite H4; unfold w1; cbn; congruence|].
    split; [rewrite H5; unfold w1; cbn; congruence|].
    split; [rewrite H6; unfold w1; cbn; rewrite E3; cbn; rewrite !drop_0;
            reflexivity|].
    rewrite H7. unfold w1. cbn. rewrite E4, !polls_app, Hp. cbn.
    rewrite app_nil_r, <- app_assoc. reflexivity.
Qed.

End Handlers.

Lemma osdout_exhausted self cfg l b w out rest :
  osds cfg = Some l ->
  state w = osdout -> haltrequest w = false ->
  maxhealthtries w <= outhealthtries w ->
  stdouts w = out :: rest -> settled out = true ->
  exists w',
    pass self cfg b w = Done tt w'
    /\ state w' = osdin /\ outhealthtries w' = outhealthtries w.
Proof.
  intros Hl Hst Hh Hmax Hw Ho.
  set (w0 := if b then with_stoprequest true w else w).
  assert (E : state w0 = osdout /\ stdouts w0 = stdouts w
              /\ outhealthtries w0 = outhealthtries w
              /\ maxhealthtries w0 = maxhealthtries w).
  { unfold w0. destruct b; cbn; auto. }
  destruct E as (E1 & E3 & E5 & E7). rewrite Hw in E3.
  pose proof (check_health_settled self (Some health_checklist)
                (rt_logfile cfg) w0 out rest E3 Ho) as Hc.
  unfold yields in Hc.
  pose proof (thread_osdout_shape self cfg w0) as Hs. rewrite Hc in Hs.
  change (outhealthtries (adv w0 _ 1)) with (outhealthtries w0) in Hs.
  change (maxhealthtries (adv w0 _ 1)) with (maxhealthtries w0) in Hs.
  replace (outhealthtries w0 <? maxhealthtries w0)%nat with false in Hs
    by (symmetry; apply Nat.ltb_ge; lia).
  cbn [andb] in Hs. rewrite Hl in Hs. destruct Hs as (evs & Hs & _).
  eexists. rewrite pass_run by exact Hh. fold w0.
  rewrite invoke_run, E1. cbn [states]. rewrite Hs.
  split; [reflexivity|]. split; [reflexivity|]. cbn. exact E5.
Qed.

(** C6. In [osdout] with the out-counter at 0 and a maximum of [N]
    tries, while every health query returns 0: after each of the first [N]
    handler invocations the counter is one higher and the state is still
    [osdout]; the invocation after them, which finds the counter at [N],
    is the one that moves to [osdin].  A new thread starts with the
    counter at 0 and the maximum at 60. *)
Theorem osdout_waits_maxhealthtries self cfg N l w :
  osds cfg = Some l ->
  state w = osdout -> haltrequest w = false ->
  outhealthtries w = 0 -> maxhealthtries w = N ->
  Forall (fun s => settled s = true) (stdouts w) ->
  N < length (stdouts w) ->
  (forall schedule,
      length schedule <= N ->
      exists w',
        passes self cfg schedule w = Done tt w'
        /\ state w' = osdout
        /\ outhealthtries w' = length schedule
        /\ polls (trace w') = polls (trace w) ++ replicate (length schedule) 0)
  /\ (forall schedule,
         length schedule = S N ->
         exists w',
           passes self cfg schedule w = Done tt w'
           /\ state w' = osdin
           /\ outhealthtries w' = N)
  /\ (forall w0,
         let w1 := final (RecoveryTestThread_init w0) in
         outhealthtries w1 = 0 /\ maxhealthtries w1 = 60).
Proof.
  intros Hl Hst Hh Hout Hmax Hsettled Hlen.
  assert (Hfirst : forall schedule,
             length schedule <= N ->
             exists w',
               passes self cfg schedule w = Done tt w'
               /\ state w' = osdout /\ haltrequest w' = false
               /\ outhealthtries w' = length schedule
               /\ maxhealthtries w' = N
               /\ stdouts w' = drop (length schedule) (stdouts w)
               /\ polls (trace w') =
                  polls (trace w) ++ replicate (length schedule) 0).
  { intros schedule Hs.
    destruct (osdout_counting self cfg schedule w Hst Hh Hsettled)
      as (w' & Hp & H1 & H2 & H3 & H4 & H5 & H6 & H7); [lia|lia|].
    exists w'. rewrite H3, Hout, H5, Hmax. cbn. auto 10. }
  split; [|split].
  - intros schedule Hs.
    destruct (Hfirst schedule Hs) as (w' & Hp & H1 & H2 & H3 & H4 & H5 & H6).
    exists w'. auto.
  - intros schedule Hs.
    destruct (Hfirst (take N schedule)) as (w1 & Hp & H1 & H2 & H3 & H4 & H5 & H6).
    { rewrite length_take. lia. }
    rewrite length_take, Nat.min_l in H3, H5 by lia.
    destruct (drop N schedule) as [|b tl] eqn:Hd.
    { apply (f_equal length) in Hd. rewrite length_drop in Hd. cbn in Hd. lia. }
    assert (tl = []) as ->.
    { apply (f_equal length) in Hd. rewrite length_drop in Hd. cbn in Hd.
      destruct tl; [reflexivity|cbn in Hd; lia]. }
    destruct (drop N (stdouts w)) as [|out rest] eqn:Hdo.
    { apply (f_equal length) in Hdo. rewrite length_drop in Hdo. cbn in Hdo. lia. }
    assert (Ho : settled out = true).
    { apply (Forall_lookup_1 _ _ N out Hsettled).
      rewrite <- (Nat.add_0_r N), <- lookup_drop, Hdo. reflexivity. }
    destruct (osdout_exhausted self cfg l b w1 out rest Hl H1 H2 ltac:(lia) H5 Ho)
      as (w' & Hp' & G1 & G2).
    exists w'. rewrite <- (take_drop N schedule), Hd, passes_app, Hp.
    rewrite passes_cons, Hp'. cbn. split; [reflexivity|].
    split; [exact G1|]. rewrite G2. exact H3.
  - intros w0. cbn. auto.
Qed.

Lemma after_nil self cfg w : after self cfg [] w = w.
Proof. reflexivity. Qed.

Lemma pass_done self cfg b w :
  haltrequest w = false -> state w = done ->
  exists w', pass self cfg b w = Done tt w'
             /\ haltrequest w' = true /\ state w' = done.
Proof.
  intros Hh Hst. rewrite pass_run, invoke_run by exact Hh.
  set (w0 := if b then with_stoprequest true w else w).
  assert (E : state w0 = done) by (unfold w0; destruct b; exact Hst).
  rewrite E. cbn [states].
  destruct (thread_done_shape cfg w0) as (evs & -> & _).
  eexists. split; [reflexivity|]. split; [reflexivity|exact E].
Qed.

Lemma stdouts_adv_0 w evs : stdouts (adv w evs 0) = stdouts w.
Proof. rewrite stdouts_adv. apply drop_0. Qed.

Lemma passes_false_S self cfg k w w1 w' :
  pass self cfg false w = Done tt w1 ->
  passes self cfg (replicate k false) w1 = Done tt w' ->
  passes self cfg (replicate (S k) false) w = Done tt w'.
Proof. intros H1 H2. rewrite passes_replicate_S, H1. exact H2. Qed.

(** Whatever the configuration says about repeating, a test that is not
    done gets to [post] when its polls are answered, with the stop event
    as it was. *)
Lemma reach_post self cfg l :
  osds cfg = Some l ->
  forall w,
    state w <> done -> haltrequest w = false ->
    (state w = pre -> (0 <= default 60 (pre_time cfg))%Z) ->
    rounds (2 * S (maxhealthtries w)) (stdouts w) ->
    exists k w',
      passes self cfg (replicate k false) w = Done tt w'
      /\ state w' = post /\ haltrequest w' = false
      /\ stoprequest w' = stoprequest w
      /\ maxhealthtries w' = maxhealthtries w.
Proof.
  intros Hl.
  assert (Hin : forall w,
             state w = osdin -> haltrequest w = false ->
             rounds (S (maxhealthtries w)) (stdouts w) ->
             exists k w',
               passes self cfg (replicate k false) w = Done tt w'
               /\ state w' = post /\ haltrequest w' = false
               /\ stoprequest w' = stoprequest w
               /\ maxhealthtries w' = maxhealthtries w).
  { intros w Hst Hh Hr.
    destruct (osdin_progress self cfg (maxhealthtries w) w 0 Hst Hh)
      as (k & w' & Hp & H1 & H2 & H3 & H4 & _); [lia| |].
    { rewrite Nat.add_0_r. exact Hr. }
    exists k, w'. auto. }
  assert (Hout : forall w,
             state w = osdout -> haltrequest w = false ->
             rounds (2 * S (maxhealthtries w)) (stdouts w) ->
             exists k w',
               passes self cfg (replicate k false) w = Done tt w'
               /\ state w' = post /\ haltrequest w' = false
               /\ stoprequest w' = stoprequest w
               /\ maxhealthtries w' = maxhealthtries w).
  { intros w Hst Hh Hr.
    destruct (osdout_progress self cfg l Hl (maxhealthtries w) w
                (S (maxhealthtries w)) Hst Hh)
      as (k1 & w1 & Hp1 & H1 & H2 & H3 & H4 & H5); [lia| |].
    { replace (S (maxhealthtries w) + S (maxhealthtries w))
        with (2 * S (maxhealthtries w)) by lia. exact Hr. }
    destruct (Hin w1 H1 H2) as (k2 & w2 & Hp2 & G1 & G2 & G3 & G4).
    { rewrite H4. exact H5. }
    exists (k1 + k2), w2. rewrite replicate_add, passes_app, Hp1, Hp2.
    repeat split; congruence. }
  assert (Hmark : forall w,
             state w = markdown -> haltrequest w = false ->
             rounds (2 * S (maxhealthtries w)) (stdouts w) ->
             exists k w',
               passes self cfg (replicate k false) w = Done tt w'
               /\ state w' = post /\ haltrequest w' = false
               /\ stoprequest w' = stoprequest w
               /\ maxhealthtries w' = maxhealthtries w).
  { intros w Hst Hh Hr.
    pose proof (thread_markdown_shape self cfg w) as He. rewrite Hl in He.
    destruct He as (evs & He & _).
    destruct (Hout (with_state osdout (adv w evs 0)) eq_refl Hh)
      as (k & w' & Hp & H1 & H2 & H3 & H4).
    { change (rounds (2 * S (maxhealthtries w)) (stdouts (adv w evs 0))).
      rewrite stdouts_adv_0. exact Hr. }
    exists (S k), w'. split; [|auto].
    eapply passes_false_S; [|exact Hp].
    rewrite pass_run, invoke_run, Hst by exact Hh. exact He. }
  intros w Hst Hh Hpre Hr. destruct (state w) eqn:Est; try congruence.
  - destruct (thread_pre_shape self cfg w (Hpre eq_refl)) as (evs & He & _).
    destruct (Hmark (with_state markdown (adv w evs 0)) eq_refl Hh)
      as (k & w' & Hp & H1 & H2 & H3 & H4).
    { change (rounds (2 * S (maxhealthtries w)) (stdouts (adv w evs 0))).
      rewrite stdouts_adv_0. exact Hr. }
    exists (S k), w'. split; [|auto].
    eapply passes_false_S; [|exact Hp].
    rewrite pass_run, invoke_run, Est by exact Hh. exact He.
  - apply Hmark; assumption.
  - apply Hout; assumption.
  - apply Hin; [assumption|assumption|].
    apply (rounds_le (2 * S (maxhealthtries w))); [lia|exact Hr].
  - exists 0, w. auto.
Qed.

(** A pass that runs [post] with the stop event set, by the owner just
    now or before, raises the halt event and stays in [post]. *)
Lemma post_sees_stop self cfg b w :
  state w = post -> haltrequest w = false ->
  stoprequest w = true \/ b = true ->
  exists evs,
    pass self cfg b w =
    Done tt (with_haltrequest true (adv (with_stoprequest true w) evs 0))
    /\ polls evs = [].
Proof.
  intros Hst Hh Hstop. rewrite pass_run, invoke_run by exact Hh.
  set (w0 := if b then with_stoprequest true w else w).
  assert (E : state w0 = post /\ stoprequest w0 = true
              /\ w0 = with_stoprequest true w).
  { unfold w0. destruct b; [auto|]. destruct Hstop as [Hs|]; [|discriminate].
    split; [exact Hst|]. split; [exact Hs|].
    destruct w. cbn in Hs. subst. reflexivity. }
  destruct E as (E1 & E2 & E3). rewrite E1. cbn [states].
  destruct (thread_post_shape cfg w0) as (evs & Hp & He). rewrite E2 in He.
  exists evs. rewrite He, E3. split; [reflexivity|exact Hp].
Qed.




Lemma repeat_never_done self cfg w :
  truthy (default (PyBool false) (repeat cfg)) = true ->
  state w <> done ->
  forall hist, state (after self cfg hist w) <> done.
Proof.
  intros Hrep Hst hist. induction hist as [|b hist IH] using rev_ind; [exact Hst|].
  rewrite after_snoc. destruct (returned (passes self cfg hist w)); [|exact IH].
  apply (pass_control self cfg b _ Hrep IH).
Qed.

(** C7. With [repeat] set, the test never reaches [done]: pass after
    pass its state stays or moves one step along
    markdown, osdout, osdin, post, markdown; a pass raises the halt event
    only if it runs the [post] handler with the stop event set, and a
    pass that runs [post] with the stop event set does raise it; as long
    as nobody requests a stop and the health polls are answered, the test
    goes on for any number of steps without halting; and a stop requested
    in any state gets the thread to [post] with the halt event still
    clear, where the next pass raises it.  (From [pre] the test moves on
    only if [pre_time] is not negative.) *)
Theorem repeat_cycles_until_post_sees_stop self cfg w :
  truthy (default (PyBool false) (repeat cfg)) = true ->
  state w <> done ->
  (forall hist b,
      let w1 := after self cfg hist w in
      let w2 := after self cfg (hist ++ [b]) w in
      (state w2 = state w1 \/ state w2 = next_state (state w1))
      /\ state w2 <> done
      /\ (haltrequest w1 = false -> haltrequest w2 = true ->
          state w1 = post /\ stoprequest w2 = true))
  /\ (forall b w1,
         state w1 = post -> haltrequest w1 = false ->
         stoprequest w1 = true \/ b = true ->
         exists w2,
           pass self cfg b w1 = Done tt w2
           /\ haltrequest w2 = true /\ state w2 = post)
  /\ (forall l n,
         osds cfg = Some l ->
         haltrequest w = false -> stoprequest w = false ->
         (state w = pre -> (0 <= default 60 (pre_time cfg))%Z) ->
         rounds (n * S (maxhealthtries w)) (stdouts w) ->
         exists k w',
           passes self cfg (replicate k false) w = Done tt w'
           /\ state w' = Nat.iter n next_state (state w)
           /\ haltrequest w' = false)
  /\ (forall l,
         osds cfg = Some l ->
         haltrequest w = false -> stoprequest w = true ->
         (state w = pre -> (0 <= default 60 (pre_time cfg))%Z) ->
         rounds (2 * S (maxhealthtries w)) (stdouts w) ->
         exists k w1 w2,
           passes self cfg (replicate k false) w = Done tt w1
           /\ state w1 = post /\ haltrequest w1 = false
           /\ pass self cfg false w1 = Done tt w2
           /\ haltrequest w2 = true /\ state w2 = post).
Proof.
  intros Hrep Hst.
  assert (Hpost : forall b w1,
             state w1 = post -> haltrequest w1 = false ->
             stoprequest w1 = true \/ b = true ->
             exists w2,
               pass self cfg b w1 = Done tt w2
               /\ haltrequest w2 = true /\ state w2 = post).
  { intros b w1 H1 H2 H3.
    destruct (post_sees_stop self cfg b w1 H1 H2 H3) as (evs & He & _).
    eexists. split; [exact He|]. split; [reflexivity|exact H1]. }
  split; [|split; [exact Hpost|split]].
  - intros hist b w1 w2. subst w1 w2.
    pose proof (repeat_never_done self cfg w Hrep Hst hist) as Hnd.
    rewrite after_snoc. destruct (returned (passes self cfg hist w)).
    + destruct (pass_control self cfg b _ Hrep Hnd) as (H1 & H2 & _ & H4 & _).
      auto.
    + split; [left; reflexivity|]. split; [exact Hnd|]. intros -> ?. discriminate.
  - intros l n Hl Hh Hs Hpre Hr.
    destruct (progress_many self cfg l Hl Hrep n w Hst Hh Hs Hpre Hr)
      as (k & w' & Hp & H1 & H2 & _).
    exists k, w'. auto.
  - intros l Hl Hh Hs Hpre Hr.
    destruct (reach_post self cfg l Hl w Hst Hh Hpre Hr)
      as (k & w1 & Hp & H1 & H2 & H3 & _).
    destruct (Hpost false w1 H1 H2) as (w2 & Hp2 & G1 & G2).
    { left. congruence. }
    exists k, w1, w2. auto 10.
Qed.

Lemma run_unfold self cfg schedule w :
  run self cfg schedule w =
  match passes self cfg schedule
               (with_stoprequest false (with_haltrequest false w)) with
  | Done _ w1 =>
      if haltrequest w1
      then pdsh ["head"]
             (logcmd cfg ("Exiting recovery test thread.  Last state was: " +:+
                          match state w1 with
                          | pre => "pre" | markdown => "markdown"
                          | osdout => "osdout" | osdin => "osdin"
                          | post => "post" | done => "done"
                          end)) w1
      else Pending w1
  | Raised e w1 => Raised e w1
  | Pending w1 => Pending w1
  end.
Proof.
  unfold run. rewrite !run_modify, bind_run.
  destruct (passes self cfg schedule _) as [[] w1|e w1|w1]; try reflexivity.
  rewrite run_get. destruct (haltrequest w1); reflexivity.
Qed.

Lemma quiet_owner_keeps_stop_clear self cfg w :
  stoprequest w = false ->
  forall k, stoprequest (after self cfg (replicate k false) w) = false.
Proof.
  intros Hs k. induction k as [|k IH]; [exact Hs|].
  replace (S k) with (k + 1) by lia. rewrite replicate_add. cbn [replicate].
  rewrite after_snoc. destruct (returned _); [|exact IH].
  apply (pass_flags self cfg false _); [exact IH|reflexivity].
Qed.


(** ** Pool creation *)

Lemma run_ret {A B} (a : A) (k : A -> M B) w : (mret a ≫= k) w = k a w.
Proof. reflexivity. Qed.

Lemma bind_assoc {A B C} (m : M A) (f : A -> M B) (g : B -> M C) w :
  ((m ≫= f) ≫= g) w = (m ≫= (fun a => f a ≫= g)) w.
Proof. rewrite !bind_run. destruct (m w); reflexivity. Qed.

Lemma run_if_pdsh {B} (c : bool) roles a b (k : unit -> M B) w :
  ((if c then pdsh roles a else pdsh roles b) ≫= k) w =
  k tt (adv w [Pdsh roles (if c then a else b)] 0).
Proof. destruct c; reflexivity. Qed.

Lemma run_check_health {B} self check_list logfile (f : nat -> M B) w evs k :
  Forall (fun s => settled s = true) (stdouts w) ->
  k < length (stdouts w) ->
  (check_health self check_list logfile ≫= f) (adv w evs k) =
  f 0 (adv w (evs ++ [Pdsh ["head"] (health_cmd self logfile); Polled 0]) (k + 1)).
Proof.
  intros Hall Hk.
  destruct (drop k (stdouts w)) as [|out rest] eqn:Hd.
  { apply (f_equal length) in Hd. rewrite length_drop in Hd. cbn in Hd. lia. }
  assert (Ho : settled out = true).
  { apply (Forall_lookup_1 _ _ k out Hall).
    rewrite <- (Nat.add_0_r k), <- lookup_drop, Hd. reflexivity. }
  pose proof (check_health_settled self check_list logfile (adv w evs k) out rest
                Hd Ho) as Hy.
  unfold yields in Hy. rewrite (bind_done _ _ _ _ _ Hy), adv_adv. reflexivity.
Qed.

Lemma run_get_ruleset {B} v id (k : nat -> M B) w :
  ruleset_map w !! str v = Some id ->
  (get_ruleset v ≫= k) w = k id w.
Proof.
  intros H. unfold get_ruleset. rewrite bind_assoc, run_get, H. reflexivity.
Qed.

Lemma issues_pool_set_if self name key v : issues (pool_set_if self name key v).
Proof.
  unfold pool_set_if. apply issues_if; [apply issues_pdsh|apply issues_ret].
Qed.

(** With health polls that settle at once, [mkpool] for a profile
    without a cache profile returns; it has sent the unconditional
    creation and the one of its branch, and polled once after them, once
    more if it set the size, and once at the end. *)
Lemma mkpool_healthy self depth name pn base w pg pgp :
  let p := profile_of self pn in
  let replication := str (pget p "replication" PyNone) in
  let sets_size := negb (String.eqb replication "") && isdigit replication in
  pget p "pg_size" (PyInt 1024) = PyInt pg ->
  pget p "pgp_size" (PyInt 1024) = PyInt pgp ->
  truthy (pget p "cache_profile" PyNone) = false ->
  (truthy (pget p "crush_profile" PyNone) = true ->
   is_Some (ruleset_map w !! str (pget p "crush_profile" PyNone))) ->
  Forall (fun s => settled s = true) (stdouts w) ->
  (if sets_size then 3 else 2) <= length (stdouts w) ->
  exists evs,
    yields (mkpool self (S depth) name pn base) w tt evs
           (if sets_size then 3 else 2)
    /\ polls evs = (if sets_size then [0; 0; 0] else [0; 0])
    /\ take 2 (commands evs) =
       [create_always self name (pretty pg) (pretty pgp) p;
        if negb (String.eqb replication "") && String.eqb replication "erasure"
        then create_erasure self name (pretty pg) (pretty pgp) p
        else create_replicated self name (pretty pg) (pretty pgp)].
Proof.
  intros p replication sets_size Hpg Hpgp Hcache Hcrush Hall Hlen.
  unfold yields. cbn [mkpool]. fold (profile_of self pn). fold p.
  fold replication. fold sets_size.
  rewrite Hpg, Hpgp, Hcache. cbn [fmt_d]. rewrite !run_ret.
  rewrite run_pdsh, run_if_pdsh, adv_adv.
  rewrite (run_check_health self None None _ w _ 0 Hall)
    by (destruct sets_size; lia).
  assert (Hs : exists e1,
             polls e1 = (if sets_size then [0] else []) /\
             forall (k : unit -> M unit) evs,
               ((if sets_size
                 then pool_set self name "size" replication ;;
                      check_health self None None ;; mret tt
                 else mret tt) ≫= k) (adv w evs 1) =
               k tt (adv w (evs ++ e1) (if sets_size then 2 else 1))).
  { destruct sets_size.
    - eexists. split; cycle 1.
      + intros k evs. rewrite bind_assoc. unfold pool_set. rewrite run_pdsh, adv_adv.
        rewrite bind_assoc.
        rewrite (run_check_health self None None _ w _ 1 Hall) by lia.
        rewrite run_ret, <- app_assoc. reflexivity.
      + reflexivity.
    - exists []. split; [reflexivity|].
      intros k evs. rewrite run_ret, app_nil_r. reflexivity. }
  destruct Hs as (e1 & Hp1 & ->).
  match goal with |- context [(?m ≫= ?k) (adv w ?evs ?j)] =>
    destruct (run_issues m k (adv w evs j)) as (e2 & Hp2 & _ & ->) end.
  { destruct base as [b|]; [|apply issues_ret].
    apply issues_if; [|apply issues_ret].
    repeat apply issues_bind; apply issues_pdsh. }
  rewrite adv_adv.
  assert (Hc : exists e3,
             polls e3 = [] /\
             forall (k : unit -> M unit) evs j,
               ((if truthy (pget p "crush_profile" PyNone)
                 then ruleset ← get_ruleset (pget p "crush_profile" PyNone);
                      pool_set self name "crush_ruleset" (pretty ruleset)
                 else mret tt) ≫= k) (adv w evs j) =
               k tt (adv w (evs ++ e3) j)).
  { destruct (truthy (pget p "crush_profile" PyNone)).
    - destruct (Hcrush eq_refl) as [id Hid]. eexists. split; cycle 1.
      + intros k evs j. rewrite bind_assoc.
        rewrite (run_get_ruleset _ id) by exact Hid.
        unfold pool_set. rewrite run_pdsh, adv_adv, Nat.add_0_r. reflexivity.
      + reflexivity.
    - exists []. split; [reflexivity|].
      intros k evs j. rewrite run_ret, app_nil_r. reflexivity. }
  destruct Hc as (e3 & Hp3 & ->).
  do 6 (match goal with |- context [(?m ≫= ?k) (adv w ?evs ?j)] =>
          let e := fresh "e" in let Hp := fresh "Hp" in
          destruct (run_issues m k (adv w evs j) (issues_pool_set_if _ _ _ _))
            as (e & Hp & _ & ->); rewrite adv_adv end).
  rewrite (run_check_health self None None _ w _ _ Hall)
    by (destruct sets_size; cbn; lia).
  eexists. split; [|split].
  - cbn [mret M_ret ret]. unfold mret, M_ret, ret. f_equal. f_equal.
    destruct sets_size; reflexivity.
  - rewrite !polls_app, Hp1, Hp2, Hp3, Hp, Hp0, Hp4, Hp5, Hp6, Hp7.
    destruct sets_size; reflexivity.
  - rewrite !commands_app. reflexivity.
Qed.

Lemma healthy_settled outs :
  Forall (fun s => contains "HEALTH_OK" s = true) outs ->
  Forall (fun s => settled s = true) outs.
Proof.
  intros H. eapply Forall_impl; [exact H|].
  intros s Hs. unfold settled. rewrite Hs. apply orb_true_r.
Qed.



(** C4. On [rep3] [mkpool] sends two pool-creation commands, the
    unconditional one and the replicated one of its branch; on an
    erasure profile likewise, the second being the erasure one. *)
Theorem mkpool_creates_twice :
  List.filter is_create
    (commands (trace (final (mkpool fresh_ceph 1 "data" (PyStr "rep3") None
                                    healthy_world)))) =
  ["sudo ceph -c /tmp/cbt/ceph.conf osd pool create data 128 128 ";
   "sudo ceph -c /tmp/cbt/ceph.conf osd pool create data 128 128"]
  /\ List.filter is_create
       (commands (trace (final (mkpool fresh_ceph 1 "data" (PyStr "ec") None
                                       healthy_world)))) =
     ["sudo ceph -c /tmp/cbt/ceph.conf osd pool create data 1024 1024 ec62";
      "sudo ceph -c /tmp/cbt/ceph.conf osd pool create data 1024 1024 erasure ec62"].
Proof. split; vm_compute; reflexivity. Qed.

Lemma profile_of_unknown self s :
  (forall table, pool_profiles (config self) = Some table -> table !! s = None) ->
  profile_of self (PyStr s) = ∅.
Proof.
  intros H. unfold profile_of, lookup_profile.
  destruct (pool_profiles (config self)) as [table|]; cbn [default from_option id].
  - rewrite (H table eq_refl). reflexivity.
  - destruct (decide (s = "default")) as [->|Hne].
    + rewrite lookup_singleton_eq. reflexivity.
    + rewrite lookup_singleton_ne by congruence. reflexivity.
Qed.

(** C5, as the code has it. A profile name that is not in the configured
    table, [default] or not, raises nothing: [mkpool] goes on with the
    empty profile, creates the pool with 1024 placement groups, polls
    twice and returns. *)
Theorem mkpool_unknown_profile_is_empty self depth name s base w :
  (forall table, pool_profiles (config self) = Some table -> table !! s = None) ->
  Forall (fun out => contains "HEALTH_OK" out = true) (stdouts w) ->
  2 <= length (stdouts w) ->
  profile_of self (PyStr s) = ∅
  /\ exists evs,
      yields (mkpool self (S depth) name (PyStr s) base) w tt evs 2
      /\ polls evs = [0; 0]
      /\ take 2 (commands evs) =
         [create_always self name "1024" "1024" ∅;
          create_replicated self name "1024" "1024"].
Proof.
  intros Hs Hall Hlen. pose proof (profile_of_unknown self s Hs) as Hp.
  split; [exact Hp|].
  destruct (mkpool_healthy self depth name (PyStr s) base w 1024 1024)
    as (evs & Hy & Hpolls & Hc).
  - rewrite Hp. reflexivity.
  - rewrite Hp. reflexivity.
  - rewrite Hp. reflexivity.
  - rewrite Hp. discriminate.
  - apply healthy_settled, Hall.
  - rewrite Hp. exact Hlen.
  - rewrite Hp in Hy, Hpolls, Hc. exists evs. auto.
Qed.

(** C5, as stated, fails: [nosuch] is neither in the table nor
    [default], and [mkpool] returns. *)
Lemma mkpool_unknown_profile_returns :
  (forall table,
      pool_profiles (config fresh_ceph) = Some table -> table !! "nosuch" = None)
  /\ "nosuch" <> "default"
  /\ returned (mkpool fresh_ceph 1 "data" (PyStr "nosuch") None healthy_world)
     = true.
Proof.
  split; [|split].
  - intros table [= <-]. vm_compute. reflexivity.
  - discriminate.
  - vm_compute. reflexivity.
Qed.

(** ** The guard of [initialize] *)

(** C9. On a cluster flagged [use_existing], [initialize] raises its
    [RuntimeError] from the world it was called in: nothing was sent,
    copied, created or started, and no attribute changed.  A
    configuration that does not mention [use_existing] flags the cluster
    so. *)
Theorem initialize_guards_existing self w :
  truthy (use_existing self) = true ->
  initialize self w =
  Raised (RuntimeError
            "initialize was called on an existing cluster! Avoiding touching anything.")
         w
  /\ trace (final (initialize self w)) = trace w
  /\ (forall dir config,
         cfg_use_existing config = None ->
         truthy (use_existing (Ceph_init dir config)) = true).
Proof.
  intros H. unfold initialize. rewrite H. split; [reflexivity|].
  split; [reflexivity|]. intros dir config Hc. cbn. rewrite Hc. reflexivity.
Qed.

(** ** The vocabulary of the health query *)

(** C1. An output whose only condition word is [stale] has none of the
    seven tokens of [health_checklist], yet the health query of [osdout]
    counts it as unhealthy: it sleeps, polls again and returns 1.  The
    list a caller passes makes no difference to [check_health]. *)
Theorem osdout_query_counts_stale :
  let snapshot := "HEALTH_WARN 3 pgs stale" in
  let w := with_state osdout (World_init [snapshot; "HEALTH_OK"]) in
  intersects health_checklist (split snapshot) = false
  /\ polls (trace (final (thread_osdout fresh_ceph example_rt_config w))) = [1]
  /\ sleeps (trace (final (thread_osdout fresh_ceph example_rt_config w))) = [1%Z]
  /\ (forall self l1 l2 logfile w,
         check_health self l1 logfile w = check_health self l2 logfile w).
Proof.
  cbv zeta. split; [vm_compute; reflexivity|].
  split; [vm_compute; reflexivity|]. split; [vm_compute; reflexivity|].
  reflexivity.
Qed.

(** ** The scrub poll *)

Lemma app_nil_string (s : string) : "" +:+ s = s.
Proof. reflexivity. Qed.

Lemma app_cons_string c (s t : string) : String c s +:+ t = String c (s +:+ t).
Proof. reflexivity. Qed.

Lemma is_digit_not_space c : is_digit c = true -> Ascii.eqb " " c = false.
Proof.
  destruct c as [[] [] [] [] [] [] [] []]; cbn; intros H;
    first [reflexivity|discriminate H].
Qed.

Lemma is_digit_not_newline c : is_digit c = true -> Ascii.eqb "010" c = false.
Proof.
  destruct c as [[] [] [] [] [] [] [] []]; cbn; intros H;
    first [reflexivity|discriminate H].
Qed.

Lemma pretty_N_char_digit x : is_digit (pretty_N_char x) = true.
Proof. unfold pretty_N_char. repeat case_match; reflexivity. Qed.

Lemma pretty_N_go_digits x :
  forall s, all_digits s = true -> all_digits (pretty_N_go x s) = true.
Proof.
  induction (N.lt_wf_0 x) as [x _ IH]. intros s Hs.
  destruct (decide (x = 0)%N) as [->|Hx]; [rewrite pretty_N_go_0; exact Hs|].
  rewrite pretty_N_go_step by lia. apply IH.
  - apply N.div_lt; lia.
  - cbn. rewrite pretty_N_char_digit, Hs. reflexivity.
Qed.

Lemma pretty_nat_digits (n : nat) : all_digits (pretty n) = true.
Proof.
  unfold pretty, pretty_nat, pretty, pretty_N. case_decide; [reflexivity|].
  apply pretty_N_go_digits. reflexivity.
Qed.

Lemma pretty_nat_zero (n : nat) : String.eqb (pretty n) "0" = (n =? 0)%nat.
Proof.
  destruct (String.eqb_spec (pretty n) "0") as [H|H].
  - change "0" with (pretty 0) in H. apply (inj pretty) in H. subst. reflexivity.
  - destruct n; [exfalso; apply H; reflexivity|reflexivity].
Qed.

Lemma contains_mark_skip_host host t :
  no_newline host = true ->
  contains idle_mark (host +:+ String ":" t) = contains idle_mark (String ":" t).
Proof.
  induction host as [|c host IH]; intros Hn; [reflexivity|].
  cbn [no_newline] in Hn. apply andb_true_iff in Hn as [Hc Hn].
  rewrite app_cons_string. cbn [contains]. rewrite (IH Hn).
  replace (startswith idle_mark (String c (host +:+ String ":" t))) with false;
    [reflexivity|].
  symmetry. change idle_mark with (String " " (String "0" (String "010" ""))).
  cbn [startswith].
  destruct (Ascii.eqb " " c); [|reflexivity].
  destruct host as [|c1 host]; [reflexivity|].
  rewrite app_cons_string. cbn [startswith].
  destruct (Ascii.eqb "0" c1); [|reflexivity].
  cbn [no_newline] in Hn. apply andb_true_iff in Hn as [Hc1 Hn].
  destruct host as [|c2 host]; [reflexivity|].
  rewrite app_cons_string. cbn [startswith].
  cbn [no_newline] in Hn. apply andb_true_iff in Hn as [Hc2 _].
  apply negb_true_iff in Hc2. rewrite Ascii.eqb_sym, Hc2. reflexivity.
Qed.

Lemma contains_mark_digits d :
  all_digits d = true -> contains idle_mark (d +:+ newline) = false.
Proof.
  induction d as [|c d IH]; intros Hd; [reflexivity|].
  cbn [all_digits] in Hd. apply andb_true_iff in Hd as [Hc Hd].
  rewrite app_cons_string. cbn [contains]. rewrite (IH Hd), orb_false_r.
  change idle_mark with (String " " (String "0" (String "010" ""))).
  cbn [startswith]. rewrite (is_digit_not_space c Hc). reflexivity.
Qed.

Lemma startswith_zero_digits d :
  all_digits d = true ->
  startswith ("0" +:+ newline) (d +:+ newline) = String.eqb d "0".
Proof.
  intros Hd. destruct d as [|c d]; [reflexivity|].
  change ("0" +:+ newline) with (String "0" (String "010" "")).
  rewrite app_cons_string. cbn [startswith String.eqb].
  rewrite (Ascii.eqb_sym c "0").
  destruct (Ascii.eqb "0" c); [|reflexivity].
  cbn [all_digits] in Hd. apply andb_true_iff in Hd as [_ Hd].
  destruct d as [|c' d]; [reflexivity|].
  rewrite app_cons_string. cbn [startswith String.eqb].
  cbn [all_digits] in Hd. apply andb_true_iff in Hd as [Hc' _].
  rewrite (is_digit_not_newline c' Hc'). reflexivity.
Qed.

(** The output has the mark exactly when no row was counted. *)
Lemma scrub_stdout_idle host rows :
  no_newline host = true ->
  contains idle_mark (scrub_stdout host rows) = (scrub_count rows =? 0)%nat.
Proof.
  intros Hn. unfold scrub_stdout.
  change (": " +:+ ?x) with (String ":" (String " " x)).
  rewrite (contains_mark_skip_host host _ Hn).
  set (d := pretty (scrub_count rows)).
  assert (Hd : all_digits d = true) by apply pretty_nat_digits.
  cbn [contains]. rewrite (contains_mark_digits d Hd), orb_false_r.
  change (startswith idle_mark (String ":" _)) with false.
  change (startswith idle_mark (String " " (d +:+ newline)))
    with (startswith ("0" +:+ newline) (d +:+ newline)).
  cbn [orb]. rewrite (startswith_zero_digits d Hd). apply pretty_nat_zero.
Qed.

Lemma check_scrub_loop_rounds cmd out rest :
  contains idle_mark out = true ->
  forall busy fuel w,
    Forall (fun s => contains idle_mark s = false) busy ->
    stdouts w = busy ++ out :: rest ->
    length busy < fuel ->
    yields (check_scrub_loop fuel cmd) w tt
           (retries cmd (length busy) ++ [Pdsh ["head"] cmd])
           (S (length busy)).
Proof.
  intros Hout. induction busy as [|b busy IH]; intros fuel w Hbusy Hw Hfuel.
  - destruct fuel as [|fuel]; [cbn in Hfuel; lia|].
    cbn [check_scrub_loop].
    eapply yields_eq; [eapply (yields_bind _ _ w out _ 1 tt [] 0)|..].
    + apply yields_pdsh_stdout with (rest := rest). exact Hw.
    + fold idle_mark. rewrite Hout. apply yields_ret.
    + reflexivity.
    + reflexivity.
  - destruct fuel as [|fuel]; [cbn in Hfuel; lia|].
    apply Forall_cons in Hbusy as [Hb Hbusy].
    assert (Hy := IH fuel (adv (adv w [Pdsh ["head"] cmd] 1) [Sleep 1] 0) Hbusy).
    rewrite !stdouts_adv, Hw in Hy. specialize (Hy eq_refl).
    assert (Hlt : length busy < fuel) by (cbn in Hfuel; lia).
    specialize (Hy Hlt). cbn [check_scrub_loop].
    eapply yields_eq;
      [eapply (yields_bind _ _ w b [Pdsh ["head"] cmd] 1 _ _ (0 + S (length busy)))|..].
    + apply yields_pdsh_stdout with (rest := busy ++ out :: rest). exact Hw.
    + fold idle_mark. rewrite Hb.
      eapply (yields_bind _ _ _ tt [Sleep 1] 0); [apply yields_emit|exact Hy].
    + reflexivity.
    + reflexivity.
Qed.

Lemma check_scrub_loop_starved cmd :
  forall busy fuel w,
    Forall (fun s => contains idle_mark s = false) busy ->
    stdouts w = busy ->
    returned (check_scrub_loop fuel cmd w) = false.
Proof.
  induction busy as [|b busy IH]; intros fuel w Hbusy Hw.
  - destruct fuel as [|fuel]; [reflexivity|].
    cbn [check_scrub_loop]. rewrite bind_run. unfold pdsh_stdout.
    rewrite run_emit. unfold next_stdout. rewrite stdouts_adv, Hw. reflexivity.
  - destruct fuel as [|fuel]; [reflexivity|].
    apply Forall_cons in Hbusy as [Hb Hbusy].
    cbn [check_scrub_loop].
    rewrite (bind_done _ _ _ _ _
               (yields_pdsh_stdout ["head"] cmd w b busy Hw)).
    fold idle_mark. rewrite Hb, run_sleep by lia. apply (IH fuel _ Hbusy).
    rewrite !stdouts_adv, Hw. reflexivity.
Qed.

Lemma commands_retries cmd n : commands (retries cmd n) = replicate n cmd.
Proof.
  unfold retries. induction n as [|n IH]; [reflexivity|].
  cbn [replicate concat]. rewrite commands_app, IH. reflexivity.
Qed.

Lemma sleeps_retries cmd n : sleeps (retries cmd n) = replicate n 1%Z.
Proof.
  unfold retries. induction n as [|n IH]; [reflexivity|].
  cbn [replicate concat]. rewrite sleeps_app, IH. reflexivity.
Qed.

Lemma replicate_snoc {A} n (x : A) : replicate n x ++ [x] = replicate (S n) x.
Proof. induction n as [|n IH]; [reflexivity|]. cbn. rewrite IH. reflexivity. Qed.

(** C2, as the code has it. [check_scrub] polls until the count the
    command prints is 0, that is until no row of the snapshot is selected
    by [grep "0.000000"]: it returns on the first such snapshot, having
    read every snapshot before it and slept one second after each; and
    as long as every snapshot has a selected row, it has not returned. *)
Theorem check_scrub_waits_for_no_zero_row self host busy idle later w :
  no_newline host = true ->
  Forall (fun rows => scrub_count rows <> 0) busy ->
  scrub_count idle = 0 ->
  stdouts w = (scrub_stdout host <$> busy) ++ scrub_stdout host idle :: later ->
  (exists evs,
      yields (check_scrub self) w tt evs (S (length busy))
      /\ commands evs = replicate (S (length busy)) (scrub_cmd self)
      /\ sleeps evs = replicate (length busy) 1%Z)
  /\ (forall w0,
         stdouts w0 = scrub_stdout host <$> busy ->
         returned (check_scrub self w0) = false).
Proof.
  intros Hn Hbusy Hidle Hw.
  assert (Hb : Forall (fun s => contains idle_mark s = false)
                      (scrub_stdout host <$> busy)).
  { apply Forall_fmap. eapply Forall_impl; [exact Hbusy|].
    intros rows Hr. cbn. rewrite (scrub_stdout_idle host rows Hn).
    apply Nat.eqb_neq, Hr. }
  assert (Hi : contains idle_mark (scrub_stdout host idle) = true).
  { rewrite (scrub_stdout_idle host idle Hn), Hidle. reflexivity. }
  split.
  - eexists. split; [|split].
    + unfold check_scrub. fold (scrub_cmd self).
      eapply yields_eq; [eapply yields_bind; [apply yields_ret|]|..].
      * rewrite adv_nil.
        pose proof (check_scrub_loop_rounds (scrub_cmd self) _ later Hi
                      (scrub_stdout host <$> busy) (S (length (stdouts w))) w
                      Hb Hw) as Hy.
        rewrite length_fmap in Hy. apply Hy.
        rewrite Hw, length_app, length_fmap. lia.
      * reflexivity.
      * reflexivity.
    + cbn [app]. rewrite commands_app, commands_retries. apply replicate_snoc.
    + cbn [app]. rewrite sleeps_app, sleeps_retries. apply app_nil_r.
  - intros w0 Hw0. unfold check_scrub. rewrite run_get.
    apply (check_scrub_loop_starved _ _ _ w0 Hb Hw0).
Qed.

(** C2, as stated, fails both ways: on a snapshot whose rows all read
    exactly zero [check_scrub] does not return, and on one with a row
    that is not zero it does. *)
Lemma check_scrub_zero_rows_still_waits :
  let zeros := ["0.000000"; "0.000000"] in
  let recent := ["2014-06-01 10:00:01.123456"] in
  forallb reads_zero zeros = true
  /\ returned (check_scrub fresh_ceph (World_init [scrub_stdout "head" zeros]))
     = false
  /\ forallb reads_zero recent = false
  /\ returned (check_scrub fresh_ceph (World_init [scrub_stdout "head" recent]))
     = true.
Proof. vm_compute. auto. Qed.

(** * The theorems at work on the example cluster *)

Lemma ruleset_registry_witness :
  let w1 := final (set_ruleset (PyStr "ssd") (World_init [])) in
  set_ruleset (PyStr "ssd") w1 =
  Raised (Exception "A rule named ssd already exists!") w1
  /\ ((str (PyStr "hdd") ∉ (str <$> [PyStr "ssd"]))
      /\ get_ruleset (PyStr "hdd") (after_registrations [PyStr "ssd"] (World_init []))
         = Raised (KeyError "hdd")
                  (after_registrations [PyStr "ssd"] (World_init [])))
  /\ exists id1 id2,
      ruleset_map (after_registrations [PyStr "ssd"; PyStr "hdd"] (World_init []))
        !! "ssd" = Some id1
      /\ ruleset_map (after_registrations [PyStr "ssd"; PyStr "hdd"] (World_init []))
           !! "hdd" = Some id2
      /\ id1 < id2.
Proof.
  destruct ruleset_registry as (H1 & H2 & H3).
  assert (Hne : str (PyStr "hdd") ∉ (str <$> [PyStr "ssd"])).
  { cbn. intros Hin. apply list_elem_of_singleton in Hin. discriminate Hin. }
  split; [exact (H1 (PyStr "ssd") (World_init []))|].
  split; [split; [exact Hne|exact (proj1 (H2 [PyStr "ssd"] (PyStr "hdd") [] Hne))]|].
  exact (H3 [] (PyStr "ssd") [] (PyStr "hdd") [] _ _ eq_refl eq_refl).
Defined.

Lemma initialize_guards_existing_witness :
  truthy (use_existing existing_ceph) = true
  /\ initialize existing_ceph healthy_world =
     Raised (RuntimeError
               "initialize was called on an existing cluster! Avoiding touching anything.")
            healthy_world.
Proof.
  split; [reflexivity|].
  exact (proj1 (initialize_guards_existing existing_ceph healthy_world eq_refl)).
Defined.


Lemma mkpool_unknown_profile_is_empty_witness :
  (forall table,
      pool_profiles (config fresh_ceph) = Some table -> table !! "nosuch" = None)
  /\ exists evs,
      yields (mkpool fresh_ceph 1 "data" (PyStr "nosuch") None) healthy_world tt
             evs 2
      /\ polls evs = [0; 0].
Proof.
  assert (H : forall table,
             pool_profiles (config fresh_ceph) = Some table ->
             table !! "nosuch" = None).
  { intros table [= <-]. reflexivity. }
  split; [exact H|].
  destruct (mkpool_unknown_profile_is_empty fresh_ceph 0 "data" "nosuch" None
              healthy_world H) as (_ & evs & Hy & Hp & _).
  - repeat constructor.
  - cbn. lia.
  - exists evs. split; assumption.
Defined.

Lemma check_scrub_waits_for_no_zero_row_witness :
  let busy := [["0.000000"; "2014-06-01 10:00:01.123456"]] in
  let idle := ["2014-06-01 10:00:01.123456"; "2014-06-01 10:02:07.654321"] in
  let w := World_init [scrub_stdout "head" ["0.000000"; "2014-06-01 10:00:01.123456"];
                       scrub_stdout "head" idle] in
  (no_newline "head" = true /\ scrub_count idle = 0)
  /\ exists evs,
      yields (check_scrub fresh_ceph) w tt evs 2
      /\ commands evs = replicate 2 (scrub_cmd fresh_ceph)
      /\ sleeps evs = [1%Z].
Proof.
  cbv zeta. split; [split; reflexivity|].
  refine (proj1 (check_scrub_waits_for_no_zero_row fresh_ceph "head"
                   [["0.000000"; "2014-06-01 10:00:01.123456"]]
                   ["2014-06-01 10:00:01.123456"; "2014-06-01 10:02:07.654321"]
                   []
                   (World_init
                      [scrub_stdout "head"
                         ["0.000000"; "2014-06-01 10:00:01.123456"];
                       scrub_stdout "head"
                         ["2014-06-01 10:00:01.123456";
                          "2014-06-01 10:02:07.654321"]])
                   eq_refl _ eq_refl eq_refl)).
  constructor; [|constructor]. vm_compute. discriminate.
Defined.

Lemma osdout_waits_maxhealthtries_witness :
  let w := with_maxhealthtries 3
             (with_state osdout (World_init (replicate 4 "HEALTH_OK"))) in
  (state w = osdout /\ outhealthtries w = 0 /\ maxhealthtries w = 3
   /\ 3 < length (stdouts w))
  /\ (exists w',
         passes fresh_ceph example_rt_config [false; false; false] w = Done tt w'
         /\ state w' = osdout /\ outhealthtries w' = 3)
  /\ (exists w',
         passes fresh_ceph example_rt_config [false; false; false; false] w
         = Done tt w'
         /\ state w' = osdin /\ outhealthtries w' = 3).
Proof.
  cbv zeta.
  split; [repeat split; cbn; lia|].
  destruct (osdout_waits_maxhealthtries fresh_ceph example_rt_config 3
              [PyInt 0; PyInt 1]
              (with_maxhealthtries 3
                 (with_state osdout (World_init (replicate 4 "HEALTH_OK"))))
              eq_refl eq_refl eq_refl eq_refl eq_refl)
    as (H1 & H2 & _).
  - repeat constructor.
  - cbn. lia.
  - split.
    + destruct (H1 [false; false; false]) as (w' & Hp & Hs & Ho & _); [cbn; lia|].
      exists w'. auto.
    + apply (H2 [false; false; false; false]). reflexivity.
Defined.

Lemma repeat_cycles_until_post_sees_stop_witness :
  let w := with_maxhealthtries 1
             (with_state markdown (World_init (replicate 6 "HEALTH_OK"))) in
  (truthy (default (PyBool false) (repeat example_rt_config)) = true
   /\ state w <> done)
  /\ exists k w' w'',
      passes fresh_ceph example_rt_config (replicate k false) w = Done tt w'
      /\ state w' = post
      /\ haltrequest w' = false
      /\ pass fresh_ceph example_rt_config true w' = Done tt w''
      /\ haltrequest w'' = true.
Proof.
  cbv zeta.
  assert (Hne : state (with_maxhealthtries 1
                         (with_state markdown
                            (World_init (replicate 6 "HEALTH_OK")))) <> done)
    by discriminate.
  split; [split; [reflexivity|exact Hne]|].
  destruct (repeat_cycles_until_post_sees_stop fresh_ceph example_rt_config _
              eq_refl Hne) as (_ & H2 & H3 & _).
  destruct (H3 [PyInt 0; PyInt 1] 3 eq_refl eq_refl eq_refl)
    as (k & w' & Hp & Hs & Hh).
  - discriminate.
  - cbn. repeat (apply (rounds_S _ [] "HEALTH_OK"); [constructor|reflexivity|]).
    constructor.
  - destruct (H2 true w' Hs Hh (or_intror eq_refl)) as (w'' & Hp2 & Hh2 & _).
    exists k, w', w''. auto.
Defined.


(** * Further properties of the modelled code *)

(** ** The health poll *)

Lemma check_health_loop_starved self cmd :
  forall busy fuel ret w,
    Forall (fun s => settled s = false) busy ->
    stdouts w = busy ->
    exists w',
      check_health_loop self fuel full_check_list cmd ret w = Pending w'
      /\ (length busy < fuel -> stdouts w' = []).
Proof.
  induction busy as [|b busy IH]; intros fuel ret w Hbusy Hw.
  - destruct fuel as [|fuel]; [exists w; split; [reflexivity|cbn; lia]|].
    cbn [check_health_loop]. rewrite bind_run. unfold pdsh_stdout.
    rewrite run_emit. unfold next_stdout. rewrite stdouts_adv, Hw.
    eexists. split; [reflexivity|]. intros _. cbn. rewrite Hw. reflexivity.
  - destruct fuel as [|fuel]; [exists w; split; [reflexivity|cbn; lia]|].
    apply Forall_cons in Hbusy as [Hb Hbusy]. unfold settled in Hb.
    apply orb_false_iff in Hb as [Hb1 Hb2]. apply negb_false_iff in Hb1.
    cbn [check_health_loop].
    rewrite (bind_done _ _ _ _ _
               (yields_pdsh_stdout ["head"] _ w b busy Hw)).
    rewrite full_check_list_nonempty, Hb1, Hb2. cbn [negb andb].
    rewrite run_sleep by lia.
    destruct (IH fuel (S ret) (adv (adv w [Pdsh ["head"] ("ceph -c " +:+ tmp_conf self +:+ " health " +:+ cmd)] 1) [Sleep 1] 0) Hbusy)
      as (w' & Hp & Hs).
    { rewrite !stdouts_adv, Hw. reflexivity. }
    exists w'. split; [exact Hp|]. intros Hf. apply Hs. cbn in Hf. lia.
Qed.

(** X1. When [n] outputs that show a listed condition (and no
    [HEALTH_OK]) come before the first output without one, [check_health]
    returns [n]: it has sent its command [n + 1] times, slept one second
    [n] times, used up exactly those outputs and left every attribute as
    it was. *)
Theorem check_health_counts_retries self check_list logfile w busy out rest :
  Forall (fun s => settled s = false) busy ->
  settled out = true ->
  stdouts w = busy ++ out :: rest ->
  exists w',
    check_health self check_list logfile w = Done (length busy) w'
    /\ stdouts w' = rest
    /\ same_control w w'
    /\ commands (trace w') =
       commands (trace w) ++ replicate (S (length busy)) (health_cmd self logfile)
    /\ sleeps (trace w') = sleeps (trace w) ++ replicate (length busy) 1%Z.
Proof.
  intros Hbusy Hout Hw.
  pose proof (check_health_rounds self check_list logfile w busy out rest
                Hbusy Hout Hw) as Hy.
  unfold yields in Hy. eexists. split; [exact Hy|].
  split; [rewrite stdouts_adv, Hw; apply drop_round|].
  split; [apply adv_same_control|].
  rewrite trace_adv. unfold poll_events. split.
  - rewrite !commands_app, commands_retries. cbn [commands omap].
    rewrite <- replicate_snoc. reflexivity.
  - rewrite !sleeps_app, sleeps_retries. cbn. rewrite app_nil_r. reflexivity.
Qed.

Lemma check_health_counts_retries_witness :
  let w := World_init ["HEALTH_WARN 2 pgs degraded"; "HEALTH_WARN 1 pgs peering";
                       "HEALTH_OK"; "HEALTH_OK"] in
  exists w',
    check_health fresh_ceph None None w = Done 2 w'
    /\ stdouts w' = ["HEALTH_OK"]
    /\ sleeps (trace w') = [1%Z; 1%Z].
Proof.
  cbv zeta.
  destruct (check_health_counts_retries fresh_ceph None None
              (World_init ["HEALTH_WARN 2 pgs degraded";
                           "HEALTH_WARN 1 pgs peering"; "HEALTH_OK"; "HEALTH_OK"])
              ["HEALTH_WARN 2 pgs degraded"; "HEALTH_WARN 1 pgs peering"]
              "HEALTH_OK" ["HEALTH_OK"])
    as (w' & H1 & H2 & _ & _ & H5).
  - repeat constructor.
  - reflexivity.
  - reflexivity.
  - exists w'. auto.
Defined.

(** X2. [check_health] has no bound of its own and no error path: it
    never raises, and when every pending output shows a listed condition
    and no [HEALTH_OK] it reads them all and has still not returned; the
    attributes are as they were and no return value is recorded. *)
Theorem check_health_unbounded self check_list logfile w :
  (forall e w', check_health self check_list logfile w <> Raised e w')
  /\ (Forall (fun s => settled s = false) (stdouts w) ->
      exists w',
        check_health self check_list logfile w = Pending w'
        /\ stdouts w' = []
        /\ same_control w w'
        /\ polls (trace w') = polls (trace w)).
Proof.
  pose proof (check_health_outcome self check_list logfile w) as Ho.
  split.
  - intros e w' H. rewrite H in Ho. exact Ho.
  - intros Hall. unfold check_health in *. rewrite run_get in *.
    match goal with |- context [check_health_loop self ?f _ ?c 0] =>
      destruct (check_health_loop_starved self c (stdouts w) f 0 w Hall eq_refl)
        as (w' & Hp & Hs) end.
    rewrite (bind_pending _ _ _ _ Hp) in Ho |- *.
    exists w'. split; [reflexivity|]. split; [apply Hs; lia|]. exact Ho.
Qed.

Lemma check_health_unbounded_witness :
  let w := World_init ["HEALTH_WARN 2 pgs degraded"; "HEALTH_ERR 4 pgs stuck"] in
  Forall (fun s => settled s = false) (stdouts w)
  /\ exists w', check_health fresh_ceph None None w = Pending w'
                /\ stdouts w' = [].
Proof.
  cbv zeta.
  assert (H : Forall (fun s => settled s = false)
                     ["HEALTH_WARN 2 pgs degraded"; "HEALTH_ERR 4 pgs stuck"])
    by (repeat constructor).
  split; [exact H|].
  destruct (proj2 (check_health_unbounded fresh_ceph None None
                     (World_init ["HEALTH_WARN 2 pgs degraded";
                                  "HEALTH_ERR 4 pgs stuck"])) H)
    as (w' & H1 & H2 & _).
  exists w'. auto.
Defined.

(** ** The ruleset registry *)

Lemma get_ruleset_lookup name w :
  get_ruleset name w =
  match ruleset_map w !! str name with
  | Some id => Done id w
  | None => Raised (KeyError (str name)) w
  end.
Proof.
  unfold get_ruleset. rewrite run_get.
  destruct (ruleset_map w !! str name); reflexivity.
Qed.

(** X3. A registration that succeeds can be looked up: the name gets
    the id that was next, the next id goes up by one, and every lookup
    that succeeded before gives the same id after. *)
Theorem set_then_get_ruleset name w w' :
  set_ruleset name w = Done tt w' ->
  get_ruleset name w' = Done (cur_ruleset w) w'
  /\ cur_ruleset w' = cur_ruleset w + 1
  /\ (forall other id,
         get_ruleset other w = Done id w -> get_ruleset other w' = Done id w').
Proof.
  intros H.
  assert (Hf : str name ∉ dom (ruleset_map w)).
  { intros Hin. rewrite set_ruleset_taken in H by exact Hin. discriminate. }
  rewrite set_ruleset_fresh in H by exact Hf. injection H as <-.
  split; [|split].
  - rewrite get_ruleset_lookup. cbn. rewrite lookup_insert_eq. reflexivity.
  - reflexivity.
  - intros other id Ho. rewrite get_ruleset_lookup in Ho |- *.
    destruct (ruleset_map w !! str other) as [id'|] eqn:Hk; [|discriminate].
    injection Ho as ->. cbn. rewrite lookup_insert_ne, Hk; [reflexivity|].
    intros Heq. apply Hf. rewrite Heq. apply elem_of_dom. eauto.
Qed.

Lemma set_then_get_ruleset_witness :
  let w := after_registrations [PyStr "ssd"] (World_init []) in
  exists w',
    set_ruleset (PyStr "hdd") w = Done tt w'
    /\ get_ruleset (PyStr "hdd") w' = Done 2 w'
    /\ get_ruleset (PyStr "ssd") w' = Done 1 w'.
Proof.
  cbv zeta. eexists. split; [reflexivity|].
  match goal with |- get_ruleset _ ?w' = _ /\ _ =>
    destruct (set_then_get_ruleset (PyStr "hdd")
                (after_registrations [PyStr "ssd"] (World_init [])) w' eq_refl)
      as (H1 & _ & H3) end.
  split; [exact H1|]. apply H3. reflexivity.
Defined.

Lemma after_registrations_cons n names w :
  after_registrations (n :: names) w =
  after_registrations names (final (set_ruleset n w)).
Proof. reflexivity. Qed.

Lemma after_registrations_fresh names :
  forall w,
    NoDup (str <$> names) ->
    Forall (fun n => str n ∉ dom (ruleset_map w)) names ->
    cur_ruleset (after_registrations names w) = cur_ruleset w + length names
    /\ forall i name,
        names !! i = Some name ->
        ruleset_map (after_registrations names w) !! str name
        = Some (cur_ruleset w + i).
Proof.
  induction names as [|n names IH]; intros w Hnd Hfresh.
  - split; [cbn; lia|]. intros i name H. discriminate H.
  - rewrite fmap_cons in Hnd. apply NoDup_cons in Hnd as [Hn Hnd].
    apply Forall_cons in Hfresh as [Hf Hfresh].
    rewrite after_registrations_cons.
    rewrite set_ruleset_fresh by exact Hf. cbn [final].
    set (w1 := with_ruleset _ _ w).
    destruct (IH w1 Hnd) as [Hc Hl].
    { rewrite Forall_forall in Hfresh |- *. intros x Hx. unfold w1. cbn.
      rewrite dom_insert. intros Hin. apply elem_of_union in Hin as [Hin|Hin].
      - apply elem_of_singleton in Hin. apply Hn. rewrite <- Hin.
        apply list_elem_of_fmap. exists x. auto.
      - exact (Hfresh x Hx Hin). }
    split; [rewrite Hc; unfold w1; cbn; lia|].
    intros [|i] name Hi.
    + injection Hi as <-. rewrite Nat.add_0_r.
      apply after_registrations_keeps. unfold w1. cbn. apply lookup_insert_eq.
    + rewrite (Hl i name Hi). unfold w1. cbn. f_equal. lia.
Qed.

(** X4. Ids are handed out in order from 1: after registering names with
    distinct string forms on a new cluster, the name at position [i]
    (from 0) looks up to [i + 1], and the next id is one more than their
    number. *)
Theorem registrations_count_from_one names outs :
  NoDup (str <$> names) ->
  let w := after_registrations names (World_init outs) in
  cur_ruleset w = S (length names)
  /\ forall i name, names !! i = Some name -> get_ruleset name w = Done (S i) w.
Proof.
  intros Hnd w.
  destruct (after_registrations_fresh names (World_init outs) Hnd) as [Hc Hl].
  { apply Forall_forall. intros x _. cbn. rewrite dom_empty. set_solver. }
  split; [exact Hc|]. intros i name Hi.
  rewrite get_ruleset_lookup. fold w in Hl. rewrite (Hl i name Hi). reflexivity.
Qed.

Lemma registrations_count_from_one_witness :
  let names := [PyStr "ssd"; PyStr "hdd"; PyStr "ec62"] in
  let w := after_registrations names (World_init []) in
  NoDup (str <$> names)
  /\ cur_ruleset w = 4
  /\ get_ruleset (PyStr "ec62") w = Done 3 w.
Proof.
  cbv zeta.
  assert (Hnd : NoDup (str <$> [PyStr "ssd"; PyStr "hdd"; PyStr "ec62"])).
  { cbn. repeat constructor; intros Hin;
      repeat (apply elem_of_cons in Hin as [Hin|Hin]; [discriminate Hin|]);
      apply elem_of_nil in Hin; exact Hin. }
  split; [exact Hnd|].
  destruct (registrations_count_from_one
              [PyStr "ssd"; PyStr "hdd"; PyStr "ec62"] [] Hnd) as [Hc Hl].
  split; [exact Hc|]. apply (Hl 2). reflexivity.
Defined.

(** X5. Names are registered under their string form: after [n1] has
    been tried, any [n2] that prints the same (the integer 1 and the
    string "1", say) is refused as already existing, and the two look up
    alike. *)
Theorem ruleset_names_are_strings n1 n2 w :
  str n1 = str n2 ->
  let w1 := final (set_ruleset n1 w) in
  set_ruleset n2 w1 =
  Raised (Exception ("A rule named " +:+ str n2 +:+ " already exists!")) w1
  /\ get_ruleset n2 w1 = get_ruleset n1 w1
  /\ exists id, get_ruleset n2 w1 = Done id w1.
Proof.
  intros Heq w1.
  assert (Hin : str n2 ∈ dom (ruleset_map w1)).
  { subst w1. rewrite <- Heq.
    destruct (set_ruleset_cases n1 w) as [[Hin ->]|[_ ->]]; [exact Hin|].
    cbn. rewrite dom_insert. set_solver. }
  split; [apply set_ruleset_taken, Hin|].
  rewrite !get_ruleset_lookup, Heq. split; [reflexivity|].
  apply elem_of_dom in Hin as [id Hid]. exists id. rewrite Hid. reflexivity.
Qed.

Lemma ruleset_names_are_strings_witness :
  let w1 := final (set_ruleset (PyInt 1) (World_init [])) in
  str (PyInt 1) = str (PyStr "1")
  /\ set_ruleset (PyStr "1") w1 =
     Raised (Exception "A rule named 1 already exists!") w1.
Proof.
  cbv zeta. split; [reflexivity|].
  exact (proj1 (ruleset_names_are_strings (PyInt 1) (PyStr "1") (World_init [])
                  eq_refl)).
Defined.

(** ** Building the profiles *)

(** A loop whose body sends some commands and then registers a name, or
    raises before it does anything. *)
Lemma for_each_register {A} (name : A -> string) (ok : A -> bool)
      (body : A -> M unit) :
  (forall x w,
      if ok x
      then exists evs, polls evs = []
                       /\ body x w = set_ruleset (PyStr (name x)) (adv w evs 0)
      else exists e, body x w = Raised e w) ->
  forall l w,
    let good :=
      Forall (fun x => ok x = true) l
      /\ NoDup (name <$> l)
      /\ Forall (fun x => name x ∉ dom (ruleset_map w)) l in
    match for_each l body w with
    | Done _ w' =>
        good
        /\ cur_ruleset w' = cur_ruleset w + length l
        /\ (forall i x, l !! i = Some x ->
                        ruleset_map w' !! name x = Some (cur_ruleset w + i))
        /\ (forall k, k ∉ (name <$> l) ->
                      ruleset_map w' !! k = ruleset_map w !! k)
        /\ stdouts w' = stdouts w
        /\ polls (trace w') = polls (trace w)
    | Raised _ _ => ~ good
    | Pending _ => False
    end.
Proof.
  intros Hbody. induction l as [|x l IH]; intros w good; subst good.
  - cbn. repeat split; try constructor; try (intros; discriminate); auto; lia.
  - cbn [for_each]. rewrite bind_run. specialize (Hbody x w).
    destruct (ok x) eqn:Hok; cycle 1.
    { destruct Hbody as (e & ->). intros (Ha & _). apply Forall_cons in Ha as [Ha _].
      congruence. }
    destruct Hbody as (evs & Hp & ->).
    destruct (decide (name x ∈ dom (ruleset_map w))) as [Hin|Hin].
    { rewrite set_ruleset_taken by exact Hin. intros (_ & _ & Hf).
      apply Forall_cons in Hf as [Hf _]. exact (Hf Hin). }
    rewrite set_ruleset_fresh by exact Hin.
    set (w1 := with_ruleset _ _ (adv w evs 0)).
    specialize (IH w1). cbv zeta in IH.
    assert (Hdom : forall k, k ∈ dom (ruleset_map w1) <->
                             k = name x \/ k ∈ dom (ruleset_map w)).
    { intros k. unfold w1. cbn. rewrite dom_insert. set_solver. }
    assert (Hstep : Forall (fun y => ok y = true) (x :: l)
                    /\ NoDup (name <$> x :: l)
                    /\ Forall (fun y => name y ∉ dom (ruleset_map w)) (x :: l)
                    <->
                    Forall (fun y => ok y = true) l
                    /\ NoDup (name <$> l)
                    /\ Forall (fun y => name y ∉ dom (ruleset_map w1)) l).
    { rewrite fmap_cons, NoDup_cons, !Forall_cons, !Forall_forall.
      split.
      - intros ((_ & Ha) & (Hn & Hnd) & (_ & Hf)). split; [exact Ha|].
        split; [exact Hnd|]. intros y Hy Hk. apply Hdom in Hk as [Hk|Hk].
        + apply Hn. rewrite <- Hk. apply list_elem_of_fmap. exists y. auto.
        + exact (Hf y Hy Hk).
      - intros (Ha & Hnd & Hf). split; [split; [exact Hok|exact Ha]|].
        split; [split; [|exact Hnd]|split; [exact Hin|]].
        + intros Hk. apply list_elem_of_fmap in Hk as (y & Hy & Hyl).
          apply (Hf y Hyl). apply Hdom. left. symmetry. exact Hy.
        + intros y Hy Hk. apply (Hf y Hy). apply Hdom. right. exact Hk. }
    destruct (for_each l body w1) as [[] w'|e w'|w']; [|tauto|exact IH].
    destruct IH as (Hg & Hc & Hl & Hk & Hs & Hp').
    split; [apply Hstep, Hg|].
    split; [rewrite Hc; unfold w1; cbn; lia|].
    split; [|split; [|split]].
    + intros [|i] y Hy.
      * injection Hy as <-. rewrite Nat.add_0_r, Hk.
        -- unfold w1. cbn. apply lookup_insert_eq.
        -- apply Hstep in Hg as (_ & Hnd & _).
           rewrite fmap_cons in Hnd. apply NoDup_cons in Hnd as [Hn _]. exact Hn.
      * rewrite (Hl i y Hy). unfold w1. cbn. f_equal. lia.
    + intros k Hk'. rewrite fmap_cons in Hk'. rewrite Hk.
      * unfold w1. cbn. apply lookup_insert_ne. intros Heq. apply Hk'.
        apply elem_of_cons. left. symmetry. exact Heq.
      * intros Hkl. apply Hk'. apply elem_of_cons. right. exact Hkl.
    + rewrite Hs. unfold w1. cbn. apply drop_0.
    + rewrite Hp'. unfold w1. cbn. rewrite polls_app, Hp, app_nil_r. reflexivity.
Qed.

Lemma crush_body_registers self (x : string * option (list pyval)) w :
  let body := fun '(name, osds) =>
    match osds with
    | None | Some [] =>
        raise (Exception "No OSDs defined for crush profile, bailing!")
    | Some osds =>
        for_each
          ["ceph -c " +:+ tmp_conf self +:+ " osd crush add-bucket " +:+ name +:+ "-root root";
           "ceph -c " +:+ tmp_conf self +:+ " osd crush add-bucket " +:+ name +:+ "-root root";
           "ceph -c " +:+ tmp_conf self +:+ " osd crush add-bucket " +:+ name +:+ "-rack rack";
           "ceph -c " +:+ tmp_conf self +:+ " osd crush move " +:+ name +:+ "-rack root=" +:+ name +:+ "-root";
           "ceph -c " +:+ tmp_conf self +:+ " osd crush add-bucket " +:+ name +:+ "-host host";
           "ceph -c " +:+ tmp_conf self +:+ " osd crush move " +:+ name +:+ "-host rack=" +:+ name +:+ "-rack"]
          (pdsh ["head"]) ;;
        for_each osds (fun i =>
          pdsh ["head"] ("ceph -c " +:+ tmp_conf self +:+ " osd crush set " +:+
                         str i +:+ " 1.0 host=" +:+ name +:+ "-host")) ;;
        pdsh ["head"] ("ceph -c " +:+ tmp_conf self +:+
                       " osd crush rule create-simple " +:+ name +:+ " " +:+
                       name +:+ "-root osd") ;;
        set_ruleset (PyStr name)
    end in
  if has_osds (snd x)
  then exists evs, polls evs = []
                   /\ body x w = set_ruleset (PyStr (fst x)) (adv w evs 0)
  else exists e, body x w = Raised e w.
Proof.
  cbv zeta. destruct x as [name [[|o os]|]]; cbn [has_osds snd fst].
  - eexists. reflexivity.
  - match goal with |- context [(?m ≫= ?k) w] =>
      destruct (run_issues m k w) as (e1 & Hp1 & _ & ->) end.
    { apply issues_for_each. intros c. apply issues_pdsh. }
    match goal with |- context [(?m ≫= ?k) (adv w e1 0)] =>
      destruct (run_issues m k (adv w e1 0)) as (e2 & Hp2 & _ & ->) end.
    { apply issues_for_each. intros c. apply issues_pdsh. }
    rewrite run_pdsh, !adv_adv. eexists. split; [|reflexivity].
    rewrite !polls_app, Hp1, Hp2. reflexivity.
  - eexists. reflexivity.
Qed.

Lemma erasure_body_registers self (x : string * erasure_profile) w :
  let body := fun '(name, profile) =>
    pdsh ["head"] ("ceph -c " +:+ tmp_conf self +:+
                   " osd erasure-code-profile set " +:+ name +:+
                   " ruleset-failure-domain=osd k=" +:+
                   str (default (PyInt 6) (erasure_k profile)) +:+ " m=" +:+
                   str (default (PyInt 2) (erasure_m profile))) ;;
    set_ruleset (PyStr name) in
  exists evs, polls evs = []
              /\ body x w = set_ruleset (PyStr (fst x)) (adv w evs 0).
Proof.
  cbv zeta. destruct x as [name profile]. rewrite run_pdsh.
  eexists. split; [|reflexivity]. reflexivity.
Qed.

Lemma Forall_fst {B} (P : string -> Prop) (l : list (string * B)) :
  Forall P (fst <$> l) <-> Forall (fun x => P (fst x)) l.
Proof. rewrite Forall_fmap. reflexivity. Qed.

(** What [make_profiles] does, in one statement. *)
Lemma make_profiles_outcome self w :
  let crush := crush_profiles (config self) in
  let names := profile_names self in
  let good :=
    Forall (fun x => has_osds (snd x) = true) crush
    /\ NoDup names
    /\ Forall (fun n => n ∉ dom (ruleset_map w)) names in
  match make_profiles self w with
  | Done _ w' =>
      good
      /\ cur_ruleset w' = cur_ruleset w + length names
      /\ (forall i n, names !! i = Some n ->
                      ruleset_map w' !! n = Some (cur_ruleset w + i))
      /\ (forall k, k ∉ names -> ruleset_map w' !! k = ruleset_map w !! k)
      /\ stdouts w' = stdouts w
      /\ polls (trace w') = polls (trace w)
  | Raised _ _ => ~ good
  | Pending _ => False
  end.
Proof.
  cbv zeta. unfold make_profiles, profile_names. rewrite bind_run.
  match goal with |- context [for_each (crush_profiles _) ?b w] =>
    pose proof (for_each_register fst (fun x => has_osds (snd x)) b
                  (crush_body_registers self) (crush_profiles (config self)) w)
      as H1; cbv zeta in H1;
    destruct (for_each (crush_profiles (config self)) b w) as [[] w1|e w1|w1]
  end; [|..].
  2:{ intros (Ha & Hnd & Hf). apply H1. split; [exact Ha|].
      apply NoDup_app in Hnd as (Hnd & _ & _). split; [exact Hnd|].
      apply Forall_app in Hf as [Hf _].
      apply (Forall_fst (fun n => n ∉ dom (ruleset_map w))) in Hf. exact Hf. }
  2:{ exact H1. }
  destruct H1 as ((Ha & Hnd1 & Hf1) & Hc1 & Hl1 & Hk1 & Hs1 & Hp1).
  match goal with |- context [for_each (erasure_profiles _) ?b w1] =>
    pose proof (for_each_register fst (fun _ => true) b
                  (fun x w => erasure_body_registers self x w)
                  (erasure_profiles (config self)) w1)
      as H2; cbv zeta in H2;
    destruct (for_each (erasure_profiles (config self)) b w1) as [[] w2|e w2|w2]
  end; [| |exact H2].
  - destruct H2 as ((_ & Hnd2 & Hf2) & Hc2 & Hl2 & Hk2 & Hs2 & Hp2).
    assert (Hsep : forall n, n ∈ fst <$> erasure_profiles (config self) ->
                             n ∉ dom (ruleset_map w1)).
    { intros n Hn. apply list_elem_of_fmap in Hn as (y & -> & Hy).
      rewrite Forall_forall in Hf2. exact (Hf2 y Hy). }
    assert (Hin1 : forall n, n ∈ fst <$> crush_profiles (config self) ->
                             n ∈ dom (ruleset_map w1)).
    { intros n Hn. apply list_elem_of_lookup_1 in Hn as (i & Hi).
      apply list_lookup_fmap_Some in Hi as (x & -> & Hx).
      apply elem_of_dom. rewrite (Hl1 i x Hx). eauto. }
    split; [split; [exact Ha|split]|].
    + apply NoDup_app. split; [exact Hnd1|]. split; [|exact Hnd2].
      intros n Hn Hn2. exact (Hsep n Hn2 (Hin1 n Hn)).
    + apply Forall_app. split.
      * apply (Forall_fst (fun n => n ∉ dom (ruleset_map w))). exact Hf1.
      * apply Forall_forall. intros n Hn Hd. apply (Hsep n Hn).
        destruct (decide (n ∈ fst <$> crush_profiles (config self))) as [Hc|Hc];
          [apply Hin1, Hc|].
        apply elem_of_dom. rewrite (Hk1 n Hc). apply elem_of_dom. exact Hd.
    + split; [rewrite Hc2, Hc1, length_app, !length_fmap; lia|].
      split; [|split; [|split]].
      * intros i n Hi.
        destruct (decide (i < length (fst <$> crush_profiles (config self))))
          as [Hlt|Hge].
        -- rewrite lookup_app_l in Hi by exact Hlt.
           apply list_lookup_fmap_Some in Hi as (x & -> & Hx).
           rewrite Hk2; [apply (Hl1 i x Hx)|].
           intros Hn2. apply (Hsep _ Hn2). apply elem_of_dom.
           rewrite (Hl1 i x Hx). eauto.
        -- rewrite lookup_app_r in Hi by lia.
           apply list_lookup_fmap_Some in Hi as (x & -> & Hx).
           rewrite (Hl2 _ x Hx), Hc1. f_equal. rewrite length_fmap in *. lia.
      * intros k Hk. rewrite Hk2, Hk1; [reflexivity| |].
        -- intros Hc. apply Hk. apply elem_of_app. left. exact Hc.
        -- intros Hc. apply Hk. apply elem_of_app. right. exact Hc.
      * rewrite Hs2. exact Hs1.
      * rewrite Hp2. exact Hp1.
  - intros (_ & Hnd & Hf). apply H2. split; [apply Forall_forall; auto|].
    apply NoDup_app in Hnd as (_ & Hdis & Hnd2). split; [exact Hnd2|].
    apply Forall_app in Hf as [_ Hf]. apply Forall_forall. intros x Hx Hd.
    assert (Hn : fst x ∈ fst <$> erasure_profiles (config self)).
    { apply list_elem_of_fmap. exists x. auto. }
    destruct (decide (fst x ∈ fst <$> crush_profiles (config self))) as [Hc|Hc].
    + exact (Hdis _ Hc Hn).
    + rewrite Forall_forall in Hf. apply (Hf _ Hn).
      apply elem_of_dom. rewrite <- (Hk1 _ Hc). apply elem_of_dom. exact Hd.
Qed.

(** X6. [make_profiles] never waits for an output, and it returns
    exactly when every crush profile lists at least one osd and the names
    of the crush and erasure profiles are distinct from one another and
    from the names already registered; otherwise it raises. *)
Theorem make_profiles_returns_iff self w :
  (returned (make_profiles self w) = true <->
   Forall (fun x => has_osds (snd x) = true) (crush_profiles (config self))
   /\ NoDup (profile_names self)
   /\ Forall (fun n => n ∉ dom (ruleset_map w)) (profile_names self))
  /\ (forall w', make_profiles self w <> Pending w').
Proof.
  pose proof (make_profiles_outcome self w) as H. cbv zeta in H.
  destruct (make_profiles self w) as [[] w'|e w'|w']; cbn [returned].
  - split; [|discriminate]. split; [intros _; apply H|reflexivity].
  - split; [|discriminate]. split; [discriminate|]. intros Hg. destruct (H Hg).
  - destruct H.
Qed.

Lemma make_profiles_returns_iff_witness :
  returned (make_profiles profiles_ceph (World_init [])) = true
  /\ returned (make_profiles no_osds_ceph (World_init [])) = false.
Proof.
  split.
  - apply (proj1 (make_profiles_returns_iff profiles_ceph (World_init []))).
    split; [repeat constructor|]. split.
    + cbn. repeat constructor; intros Hin;
        repeat (apply elem_of_cons in Hin as [Hin|Hin]; [discriminate Hin|]);
        apply elem_of_nil in Hin; exact Hin.
    + apply Forall_forall. intros n _. cbn. rewrite dom_empty. set_solver.
  - destruct (returned (make_profiles no_osds_ceph (World_init []))) eqn:E;
      [|reflexivity].
    apply (proj1 (make_profiles_returns_iff no_osds_ceph (World_init []))) in E.
    destruct E as (E & _). exfalso.
    apply Forall_cons in E as [_ E]. apply Forall_cons in E as [E _].
    discriminate E.
Defined.

(** X7. When it returns, [make_profiles] has registered every profile
    name, crush profiles first and erasure profiles after them, each in
    the order of the configuration: the name at position [i] looks up to
    the id that was next plus [i].  Names it did not register look up as
    before, and no output was read. *)
Theorem make_profiles_ids_in_order self w :
  Forall (fun x => has_osds (snd x) = true) (crush_profiles (config self)) ->
  NoDup (profile_names self) ->
  Forall (fun n => n ∉ dom (ruleset_map w)) (profile_names self) ->
  exists w',
    make_profiles self w = Done tt w'
    /\ cur_ruleset w' = cur_ruleset w + length (profile_names self)
    /\ (forall i n, profile_names self !! i = Some n ->
                    get_ruleset (PyStr n) w' = Done (cur_ruleset w + i) w')
    /\ (forall k, k ∉ profile_names self ->
                  ruleset_map w' !! k = ruleset_map w !! k)
    /\ stdouts w' = stdouts w.
Proof.
  intros Ha Hnd Hf.
  pose proof (make_profiles_outcome self w) as H. cbv zeta in H.
  destruct (make_profiles self w) as [[] w'|e w'|w'];
    [|destruct H; auto|destruct H].
  destruct H as (_ & Hc & Hl & Hk & Hs & _).
  exists w'. split; [reflexivity|]. split; [exact Hc|].
  split; [|split; [exact Hk|exact Hs]].
  intros i n Hi. rewrite get_ruleset_lookup. cbn [str].
  rewrite (Hl i n Hi). reflexivity.
Qed.

Lemma make_profiles_ids_in_order_witness :
  exists w',
    make_profiles profiles_ceph (World_init []) = Done tt w'
    /\ cur_ruleset w' = 4
    /\ get_ruleset (PyStr "ssd") w' = Done 1 w'
    /\ get_ruleset (PyStr "hdd") w' = Done 2 w'
    /\ get_ruleset (PyStr "ec62") w' = Done 3 w'.
Proof.
  destruct (make_profiles_ids_in_order profiles_ceph (World_init []))
    as (w' & H1 & H2 & H3 & _).
  - repeat constructor.
  - cbn. repeat constructor; intros Hin;
      repeat (apply elem_of_cons in Hin as [Hin|Hin]; [discriminate Hin|]);
      apply elem_of_nil in Hin; exact Hin.
  - apply Forall_forall. intros n _. cbn. rewrite dom_empty. set_solver.
  - exists w'. split; [exact H1|]. split; [exact H2|].
    split; [apply (H3 0); reflexivity|].
    split; [apply (H3 1); reflexivity|apply (H3 2); reflexivity].
Defined.

Lemma for_each_app {A} (l1 l2 : list A) (body : A -> M unit) w :
  for_each (l1 ++ l2) body w =
  match for_each l1 body w with
  | Done _ w1 => for_each l2 body w1
  | Raised e w1 => Raised e w1
  | Pending w1 => Pending w1
  end.
Proof.
  revert w. induction l1 as [|x l1 IH]; intros w; [reflexivity|].
  cbn [app for_each]. rewrite !bind_run.
  destruct (body x w); [apply IH|reflexivity|reflexivity].
Qed.

Lemma for_each_pdsh_map {A} roles (f : A -> string) (l : list A) w :
  for_each l (fun x => pdsh roles (f x)) w =
  Done tt (adv w (Pdsh roles <$> (f <$> l)) 0).
Proof.
  revert w. induction l as [|x l IH]; intros w.
  - cbn. rewrite adv_nil. reflexivity.
  - cbn [for_each]. rewrite run_pdsh, IH, adv_adv. reflexivity.
Qed.

Lemma for_each_trace {A} (body : A -> M unit) (ev : A -> list event) :
  (forall x w w', body x w = Done tt w' ->
                  trace w' = trace w ++ ev x /\ stdouts w' = stdouts w) ->
  forall l w w',
    for_each l body w = Done tt w' ->
    trace w' = trace w ++ concat (ev <$> l) /\ stdouts w' = stdouts w.
Proof.
  intros Hb. induction l as [|x l IH]; intros w w' H.
  - injection H as <-. cbn. rewrite app_nil_r. auto.
  - cbn [for_each] in H. rewrite bind_run in H.
    destruct (body x w) as [[] w1|e w1|w1] eqn:E; try discriminate.
    destruct (Hb x w w1 E) as [Ht Hs]. destruct (IH w1 w' H) as [Ht' Hs'].
    split; [|congruence]. rewrite Ht', Ht. cbn. rewrite app_assoc. reflexivity.
Qed.

Lemma set_ruleset_trace name w :
  trace (final (set_ruleset name w)) = trace w
  /\ stdouts (final (set_ruleset name w)) = stdouts w.
Proof.
  destruct (set_ruleset_cases name w) as [[_ ->]|[_ ->]]; auto.
Qed.

(** What a crush profile that gets registered has sent. *)
Lemma crush_body_trace self (x : string * option (list pyval)) w w' :
  let body := fun '(name, osds) =>
    match osds with
    | None | Some [] =>
        raise (Exception "No OSDs defined for crush profile, bailing!")
    | Some osds =>
        for_each
          ["ceph -c " +:+ tmp_conf self +:+ " osd crush add-bucket " +:+ name +:+ "-root root";
           "ceph -c " +:+ tmp_conf self +:+ " osd crush add-bucket " +:+ name +:+ "-root root";
           "ceph -c " +:+ tmp_conf self +:+ " osd crush add-bucket " +:+ name +:+ "-rack rack";
           "ceph -c " +:+ tmp_conf self +:+ " osd crush move " +:+ name +:+ "-rack root=" +:+ name +:+ "-root";
           "ceph -c " +:+ tmp_conf self +:+ " osd crush add-bucket " +:+ name +:+ "-host host";
           "ceph -c " +:+ tmp_conf self +:+ " osd crush move " +:+ name +:+ "-host rack=" +:+ name +:+ "-rack"]
          (pdsh ["head"]) ;;
        for_each osds (fun i =>
          pdsh ["head"] ("ceph -c " +:+ tmp_conf self +:+ " osd crush set " +:+
                         str i +:+ " 1.0 host=" +:+ name +:+ "-host")) ;;
        pdsh ["head"] ("ceph -c " +:+ tmp_conf self +:+
                       " osd crush rule create-simple " +:+ name +:+ " " +:+
                       name +:+ "-root osd") ;;
        set_ruleset (PyStr name)
    end in
  body x w = Done tt w' ->
  trace w' =
  trace w ++ (Pdsh ["head"] <$> crush_cmds self (fst x) (default [] (snd x)))
  /\ stdouts w' = stdouts w.
Proof.
  cbv zeta. destruct x as [name [[|o os]|]]; cbn [fst snd default];
    [discriminate| |discriminate].
  intros H.
  rewrite (bind_done _ _ _ _ _ (for_each_pdsh_map ["head"] (fun c => c) _ w)) in H.
  rewrite (bind_done _ _ _ _ _ (for_each_pdsh_map ["head"] _ (o :: os) _)) in H.
  rewrite run_pdsh, !adv_adv in H.
  match type of H with set_ruleset ?n ?w1 = _ =>
    destruct (set_ruleset_trace n w1) as [Ht Hs]; rewrite H in Ht, Hs;
    cbn [final] in Ht, Hs
  end.
  rewrite Ht, Hs, trace_adv, stdouts_adv_0. split; [|reflexivity].
  unfold crush_cmds. rewrite !fmap_app. reflexivity.
Qed.

(** X8. A crush profile without osds stops [make_profiles] with the
    "No OSDs" exception before a single command is sent for it, and
    nothing is undone: the commands sent are exactly those of the
    profiles before it, which stay registered; nothing is sent for the
    profiles after it or for the erasure profiles, and no output is
    read. *)
Theorem make_profiles_stops_at_empty_profile self w before name osds rest :
  crush_profiles (config self) = before ++ (name, osds) :: rest ->
  has_osds osds = false ->
  Forall (fun x => has_osds (snd x) = true) before ->
  NoDup (fst <$> before) ->
  Forall (fun x => fst x ∉ dom (ruleset_map w)) before ->
  exists w',
    make_profiles self w =
    Raised (Exception "No OSDs defined for crush profile, bailing!") w'
    /\ trace w' = trace w ++ crush_events self before
    /\ stdouts w' = stdouts w
    /\ cur_ruleset w' = cur_ruleset w + length before
    /\ (forall i x, before !! i = Some x ->
                    get_ruleset (PyStr (fst x)) w' = Done (cur_ruleset w + i) w')
    /\ (forall k, k ∉ (fst <$> before) ->
                  ruleset_map w' !! k = ruleset_map w !! k).
Proof.
  intros Hcfg Hbad Ha Hnd Hf. unfold make_profiles. rewrite bind_run, Hcfg.
  rewrite for_each_app.
  match goal with |- context [for_each before ?b w] =>
    pose proof (for_each_register fst (fun x => has_osds (snd x)) b
                  (crush_body_registers self) before w) as H1; cbv zeta in H1;
    pose proof (for_each_trace b
                  (fun x => Pdsh ["head"] <$>
                              crush_cmds self (fst x) (default [] (snd x)))
                  (crush_body_trace self) before w) as H2;
    destruct (for_each before b w) as [[] w1|e w1|w1]
  end; [|destruct H1; auto|destruct H1].
  destruct H1 as (_ & Hc & Hl & Hk & _).
  destruct (H2 w1 eq_refl) as [Ht Hs].
  exists w1. split; [|split; [|split; [exact Hs|split; [exact Hc|split; [|exact Hk]]]]].
  - cbn [for_each]. rewrite bind_run.
    destruct osds as [[|o os]|]; [reflexivity|discriminate Hbad|reflexivity].
  - rewrite Ht. unfold crush_events. f_equal.
    clear. induction before as [|x l IH]; [reflexivity|].
    cbn [fmap list_fmap concat]. rewrite fmap_app. f_equal. exact IH.
  - intros i x Hi. rewrite get_ruleset_lookup. cbn [str].
    rewrite (Hl i x Hi). reflexivity.
Qed.

Lemma make_profiles_stops_at_empty_profile_witness :
  exists w',
    make_profiles no_osds_ceph (World_init []) =
    Raised (Exception "No OSDs defined for crush profile, bailing!") w'
    /\ length (commands (trace w')) = 8
    /\ get_ruleset (PyStr "ssd") w' = Done 1 w'
    /\ ruleset_map w' !! "nvme" = None.
Proof.
  destruct (make_profiles_stops_at_empty_profile no_osds_ceph (World_init [])
              [("ssd", Some [PyInt 0])] "hdd" (Some [])
              [("nvme", Some [PyInt 3])] eq_refl eq_refl)
    as (w' & H1 & Ht & _ & _ & H3 & H4).
  - repeat constructor.
  - cbn. repeat constructor. intros Hin. apply elem_of_nil in Hin. exact Hin.
  - repeat constructor. cbn. rewrite dom_empty. set_solver.
  - exists w'. split; [exact H1|].
    split; [rewrite Ht; reflexivity|].
    split; [exact (H3 0 ("ssd", Some [PyInt 0]) eq_refl)|].
    rewrite H4; [reflexivity|]. cbn. intros Hin.
    apply elem_of_cons in Hin as [Hin|Hin]; [discriminate Hin|].
    apply elem_of_nil in Hin. exact Hin.
Defined.

(** ** Removing pools *)

Lemma rmpool_unfold self depth name pn w :
  rmpool self (S depth) name pn w =
  ((if truthy (cache_profile_of self pn)
    then
      for_each (detach_cmds self name) (pdsh ["head"]) ;;
      rmpool self depth (name +:+ "-cache") (cache_profile_of self pn)
    else mret tt) ;;
   pdsh ["head"] (delete_cmd self name)) w.
Proof.
  cbn [rmpool]. fold (profile_of self pn). fold (cache_profile_of self pn).
  unfold delete_cmd. destruct (truthy (cache_profile_of self pn)); reflexivity.
Qed.

Lemma pdsh_done roles cmd w :
  pdsh roles cmd w = Done tt (adv w [Pdsh roles cmd] 0).
Proof. reflexivity. Qed.

Lemma for_each_pdsh roles (cmds : list string) w :
  for_each cmds (pdsh roles) w = Done tt (adv w (Pdsh roles <$> cmds) 0).
Proof.
  revert w. induction cmds as [|c cmds IH]; intros w.
  - cbn. rewrite adv_nil. reflexivity.
  - cbn [for_each]. rewrite run_pdsh, IH, adv_adv. reflexivity.
Qed.




(** X10. For a profile with a cache profile that has none of its own,
    [rmpool] sends exactly six commands: the cache pool is switched to
    forward mode, flushed and evicted, the overlay and the tier are
    removed, the cache pool is deleted and then the base pool.  For a
    profile without a cache profile the deletion is the only command. *)
Theorem rmpool_cache_tier_order self depth name pn w :
  (truthy (cache_profile_of self pn) = false ->
   rmpool self (S depth) name pn w =
   Done tt (adv w [Pdsh ["head"] (delete_cmd self name)] 0))
  /\ (truthy (cache_profile_of self pn) = true ->
      truthy (cache_profile_of self (cache_profile_of self pn)) = false ->
      rmpool self (S (S depth)) name pn w =
      Done tt (adv w (Pdsh ["head"] <$>
                        detach_cmds self name ++
                        [delete_cmd self (name +:+ "-cache");
                         delete_cmd self name]) 0)).
Proof.
  split.
  - intros Hc. rewrite rmpool_unfold, Hc. reflexivity.
  - intros Hc Hcc. rewrite rmpool_unfold, Hc.
    rewrite bind_assoc.
    rewrite (bind_done _ _ _ _ _ (for_each_pdsh ["head"] (detach_cmds self name) w)).
    rewrite bind_run, rmpool_unfold, Hcc, run_ret, pdsh_done, pdsh_done.
    rewrite !adv_adv, !fmap_app. reflexivity.
Qed.

Lemma rmpool_cache_tier_order_witness :
  (truthy (cache_profile_of tiered_ceph (PyStr "base")) = true
   /\ truthy (cache_profile_of tiered_ceph
                (cache_profile_of tiered_ceph (PyStr "base"))) = false)
  /\ commands (trace (final (rmpool tiered_ceph 2 "data" (PyStr "base")
                                    (World_init []))))
     = detach_cmds tiered_ceph "data" ++
       [delete_cmd tiered_ceph "data-cache"; delete_cmd tiered_ceph "data"].
Proof.
  split; [split; reflexivity|].
  rewrite (proj2 (rmpool_cache_tier_order tiered_ceph 0 "data" (PyStr "base")
                    (World_init [])) eq_refl eq_refl).
  reflexivity.
Defined.

(** ** More on pool creation *)

Lemma run_pool_set {B} self name key value (k : unit -> M B) w :
  (pool_set self name key value ≫= k) w =
  k tt (adv w [Pdsh ["head"]
                    ("sudo ceph -c " +:+ tmp_conf self +:+ " osd pool set " +:+
                     name +:+ " " +:+ key +:+ " " +:+ value)] 0).
Proof. reflexivity. Qed.

(** [mkpool] with health polls that settle at once, for any profile
    with numeric sizes: what it has done when it gets to the crush
    ruleset, and the two ways it goes on from there. *)
Lemma mkpool_healthy_outcome self depth name pn base w pg pgp :
  let p := profile_of self pn in
  let crush := pget p "crush_profile" PyNone in
  let n1 := if sets_size p then 2 else 1 in
  let e1 := mkpool_front self name p base (pretty pg) (pretty pgp) in
  pget p "pg_size" (PyInt 1024) = PyInt pg ->
  pget p "pgp_size" (PyInt 1024) = PyInt pgp ->
  Forall (fun s => settled s = true) (stdouts w) ->
  n1 <= length (stdouts w) ->
  (truthy crush = true -> ruleset_map w !! str crush = None ->
   mkpool self (S depth) name pn base w =
   Raised (KeyError (str crush)) (adv w e1 n1))
  /\ ((truthy crush = true -> is_Some (ruleset_map w !! str crush)) ->
      n1 < length (stdouts w) ->
      exists e2,
        polls e2 = [0]
        /\ mkpool self (S depth) name pn base w =
           (if truthy (cache_profile_of self pn)
            then mkpool self depth (name +:+ "-cache")
                        (cache_profile_of self pn) (Some name)
            else mret tt) (adv w (e1 ++ e2) (S n1))).
Proof.
  intros p crush n1 e1 Hpg Hpgp Hall Hlen.
  assert (Hfront : forall k : unit -> M unit,
    mkpool self (S depth) name pn base w =
    ((if truthy crush
      then ruleset ← get_ruleset crush;
           pool_set self name "crush_ruleset" (pretty ruleset)
      else mret tt) ;;
     pool_set_if self name "hit_set_type" (pget p "hit_set_type" PyNone) ;;
     pool_set_if self name "hit_set_count" (pget p "hit_set_count" PyNone) ;;
     pool_set_if self name "hit_set_period" (pget p "hit_set_period" PyNone) ;;
     pool_set_if self name "target_max_objects"
                 (pget p "target_max_objects" PyNone) ;;
     pool_set_if self name "target_max_bytes" (pget p "target_max_bytes" PyNone) ;;
     pool_set_if self name "min_read_recency_for_promote"
                 (pget p "min_read_recency_for_promote" PyNone) ;;
     check_health self None None ;;
     if truthy (cache_profile_of self pn)
     then mkpool self depth (name +:+ "-cache") (cache_profile_of self pn)
                 (Some name)
     else mret tt) (adv w e1 n1)).
  { intros _. cbn [mkpool]. fold (profile_of self pn). fold p.
    fold crush. fold (cache_profile_of self pn).
    change (negb (str (pget p "replication" PyNone) =? "")%string
            && isdigit (str (pget p "replication" PyNone)))
      with (sets_size p).
    rewrite Hpg, Hpgp. cbn [fmt_d]. rewrite !run_ret.
    rewrite run_pdsh, run_if_pdsh, adv_adv.
    rewrite (run_check_health self None None _ w _ 0 Hall)
      by (subst n1; destruct (sets_size p); lia).
    subst e1 n1. unfold mkpool_front.
    destruct (sets_size p).
    - rewrite bind_assoc, run_pool_set, adv_adv.
      rewrite bind_assoc.
      rewrite (run_check_health self None None _ w _ 1 Hall) by lia.
      rewrite run_ret.
      destruct base as [b|]; cbn [attach_cmds].
      + destruct (negb (b =? "")%string && truthy (pget p "cache_mode" PyNone)).
        * rewrite !bind_assoc, run_pdsh. rewrite !bind_assoc, run_pdsh.
          rewrite run_pdsh, !adv_adv. reflexivity.
        * rewrite run_ret. cbn [fmap list_fmap]. rewrite app_nil_r. reflexivity.
      + rewrite run_ret. cbn [fmap list_fmap]. rewrite app_nil_r. reflexivity.
    - rewrite run_ret.
      destruct base as [b|]; cbn [attach_cmds].
      + destruct (negb (b =? "")%string && truthy (pget p "cache_mode" PyNone)).
        * rewrite !bind_assoc, run_pdsh. rewrite !bind_assoc, run_pdsh.
          rewrite run_pdsh, !adv_adv. reflexivity.
        * rewrite run_ret. cbn [fmap list_fmap]. rewrite app_nil_r. reflexivity.
      + rewrite run_ret. cbn [fmap list_fmap]. rewrite app_nil_r. reflexivity. }
  specialize (Hfront (fun _ => mret tt)). split.
  - intros Ht Hnone. rewrite Hfront, Ht, bind_assoc.
    unfold get_ruleset at 1. rewrite bind_assoc, run_get.
    change (ruleset_map (adv w e1 n1)) with (ruleset_map w). rewrite Hnone.
    reflexivity.
  - intros Hcrush Hlen2. rewrite Hfront.
    assert (Hc : exists e3,
               polls e3 = [] /\
               forall (k : unit -> M unit) evs j,
                 ((if truthy crush
                   then ruleset ← get_ruleset crush;
                        pool_set self name "crush_ruleset" (pretty ruleset)
                   else mret tt) ≫= k) (adv w evs j) =
                 k tt (adv w (evs ++ e3) j)).
    { destruct (truthy crush).
      - destruct (Hcrush eq_refl) as [id Hid]. eexists. split; cycle 1.
        + intros k evs j. rewrite bind_assoc.
          rewrite (run_get_ruleset _ id) by exact Hid.
          unfold pool_set. rewrite run_pdsh, adv_adv, Nat.add_0_r. reflexivity.
        + reflexivity.
      - exists []. split; [reflexivity|].
        intros k evs j. rewrite run_ret, app_nil_r. reflexivity. }
    destruct Hc as (e3 & Hp3 & ->).
    assert (Hk : exists e4,
               polls e4 = [] /\
               forall (k : unit -> M unit) evs j,
                 (pool_set_if self name "hit_set_type"
                              (pget p "hit_set_type" PyNone) ;;
                  pool_set_if self name "hit_set_count"
                              (pget p "hit_set_count" PyNone) ;;
                  pool_set_if self name "hit_set_period"
                              (pget p "hit_set_period" PyNone) ;;
                  pool_set_if self name "target_max_objects"
                              (pget p "target_max_objects" PyNone) ;;
                  pool_set_if self name "target_max_bytes"
                              (pget p "target_max_bytes" PyNone) ;;
                  pool_set_if self name "min_read_recency_for_promote"
                              (pget p "min_read_recency_for_promote" PyNone) ;;
                  k tt) (adv w evs j) =
                 k tt (adv w (evs ++ e4) j)).
    { exists (Pdsh ["head"] <$> knob_cmds self name p).
      split; cycle 1.
      - intros k evs j. unfold pool_set_if, knob_cmds. cbn [flat_map].
        repeat match goal with
               | |- context [if truthy ?v then pool_set _ _ _ _ else mret tt] =>
                   destruct (truthy v)
               end;
          repeat (rewrite run_pool_set || rewrite run_ret || rewrite adv_adv);
          rewrite ?Nat.add_0_r, ?app_nil_r, <- ?app_assoc; reflexivity.
      - unfold knob_cmds. cbn [flat_map].
        repeat match goal with
               | |- context [if truthy ?v then _ else _] => destruct (truthy v)
               end; reflexivity. }
    destruct Hk as (e4 & Hp4 & Hk).
    rewrite (Hk (fun _ => check_health self None None ;;
                          if truthy (cache_profile_of self pn)
                          then mkpool self depth (name +:+ "-cache")
                                      (cache_profile_of self pn) (Some name)
                          else mret tt)).
    rewrite (run_check_health self None None _ w _ _ Hall) by lia.
    eexists (e3 ++ e4 ++ [_; _]). split; cycle 1.
    + f_equal. f_equal; [|lia]. rewrite <- !app_assoc. reflexivity.
    + rewrite !polls_app, Hp3, Hp4. reflexivity.
Qed.

(** X11. [mkpool] prints the two sizes with [%d] before it sends
    anything: if [pg_size] or [pgp_size] of the profile is not a number
    (a string such as "128", say), it raises [TypeError] from the world it
    was called in, with no command sent. *)
Theorem mkpool_sizes_must_be_numbers self depth name pn base w :
  let p := profile_of self pn in
  is_number (pget p "pg_size" (PyInt 1024)) = false
  \/ is_number (pget p "pgp_size" (PyInt 1024)) = false ->
  mkpool self (S depth) name pn base w =
  Raised (TypeError "%d format: a number is required") w.
Proof.
  intros p H. cbn [mkpool]. fold (profile_of self pn). fold p.
  rewrite bind_run.
  destruct (pget p "pg_size" (PyInt 1024)) as [|[]|z|s] eqn:Hpg; cbn [fmt_d];
    try reflexivity;
    (destruct H as [H|H]; [discriminate H|]);
    rewrite run_ret || (unfold mret, M_ret, ret; cbn beta iota);
    rewrite bind_run;
    destruct (pget p "pgp_size" (PyInt 1024)) as [|[]|z'|s'];
    try discriminate H; reflexivity.
Qed.

Lemma mkpool_sizes_must_be_numbers_witness :
  let self := Ceph_init "/tmp/cbt"
                {| cfg_use_existing := Some (PyBool false);
                   cfg_idle_duration := None;
                   cfg_log_dir := None; cfg_pid_dir := None; cfg_core_dir := None;
                   conf_file := None; crush_profiles := []; erasure_profiles := [];
                   pool_profiles :=
                     Some {[ "quoted" := ({[ "pg_size" := PyStr "128" ]} : profile) ]};
                   recovery_test := example_rt_config |} in
  is_number (pget (profile_of self (PyStr "quoted")) "pg_size" (PyInt 1024)) = false
  /\ mkpool self 1 "data" (PyStr "quoted") None healthy_world =
     Raised (TypeError "%d format: a number is required") healthy_world.
Proof.
  cbv zeta. split; [reflexivity|].
  apply mkpool_sizes_must_be_numbers. left. reflexivity.
Defined.

Lemma returned_bind {A B} (m : M A) (k : A -> M B) w :
  returned ((m ≫= k) w) = true ->
  exists a w', m w = Done a w' /\ returned (k a w') = true.
Proof.
  rewrite bind_run. destruct (m w) as [a w'|e w'|w']; cbn [returned];
    [eauto|discriminate|discriminate].
Qed.

(** X12. Nothing bounds the chain of cache profiles: on a set of profile
    names in which every profile names a cache profile of the set (a
    profile that is its own cache profile, say), [mkpool] and [rmpool]
    do not return, however deep they are allowed to nest. *)
Theorem cache_profile_cycle_never_returns self (cyclic : pyval -> Prop) :
  (forall pn, cyclic pn ->
              truthy (cache_profile_of self pn) = true
              /\ cyclic (cache_profile_of self pn)) ->
  forall depth name pn base w,
    cyclic pn ->
    returned (mkpool self depth name pn base w) = false
    /\ returned (rmpool self depth name pn w) = false.
Proof.
  intros Hcyc. induction depth as [|depth IH]; intros name pn base w Hpn;
    [split; reflexivity|].
  destruct (Hcyc pn Hpn) as [Ht Hnext]. split.
  - destruct (returned (mkpool self (S depth) name pn base w)) eqn:E;
      [exfalso|reflexivity].
    cbn [mkpool] in E. fold (profile_of self pn) in E.
    fold (cache_profile_of self pn) in E.
    repeat (apply returned_bind in E as (? & ? & _ & E); cbv beta in E).
    rewrite Ht in E.
    match type of E with returned (mkpool _ _ _ _ _ ?w') = true =>
      destruct (IH (name +:+ "-cache") (cache_profile_of self pn) (Some name)
                   w' Hnext) as [E' _] end.
    congruence.
  - destruct (returned (rmpool self (S depth) name pn w)) eqn:E;
      [exfalso|reflexivity].
    rewrite rmpool_unfold, Ht in E.
    apply returned_bind in E as (? & ? & E & _).
    assert (E2 : returned ((for_each (detach_cmds self name) (pdsh ["head"]) ;;
                            rmpool self depth (name +:+ "-cache")
                                   (cache_profile_of self pn)) w) = true)
      by (rewrite E; reflexivity).
    apply returned_bind in E2 as (? & ? & _ & E2).
    match type of E2 with returned (rmpool _ _ _ _ ?w') = true =>
      destruct (IH (name +:+ "-cache") (cache_profile_of self pn) None w' Hnext)
        as [_ E'] end.
    congruence.
Qed.

Lemma cache_profile_cycle_never_returns_witness :
  (truthy (cache_profile_of tiered_ceph (PyStr "loop")) = true
   /\ cache_profile_of tiered_ceph (PyStr "loop") = PyStr "loop")
  /\ returned (mkpool tiered_ceph 7 "data" (PyStr "loop") None healthy_world)
     = false.
Proof.
  split; [split; reflexivity|].
  apply (cache_profile_cycle_never_returns tiered_ceph (fun pn => pn = PyStr "loop")).
  - intros pn ->. split; reflexivity.
  - reflexivity.
Defined.

Lemma pretty_N_go_length x :
  forall s, String.length s <= String.length (pretty_N_go x s).
Proof.
  induction (N.lt_wf_0 x) as [x _ IH]. intros s.
  destruct (decide (x = 0)%N) as [->|Hx]; [rewrite pretty_N_go_0; lia|].
  rewrite pretty_N_go_step by lia.
  etrans; [|apply IH; apply N.div_lt; lia]. cbn. lia.
Qed.

Lemma isdigit_pretty_positive (q : positive) : isdigit (pretty (Zpos q)) = true.
Proof.
  change (pretty (Zpos q)) with (pretty (Npos q)).
  unfold pretty, pretty_N. case_decide; [discriminate|].
  unfold isdigit. rewrite pretty_N_go_digits by reflexivity.
  rewrite andb_true_r. apply negb_true_iff.
  destruct (String.eqb_spec (pretty_N_go (N.pos q) "") "") as [E|E]; [|reflexivity].
  exfalso. rewrite pretty_N_go_step in E by lia.
  pose proof (pretty_N_go_length (N.pos q `div` 10)
                (String (pretty_N_char (N.pos q `mod` 10)) "")) as Hl.
  rewrite E in Hl. cbn in Hl. lia.
Qed.

Lemma isdigit_pretty_Z (z : Z) : isdigit (pretty z) = (0 <=? z)%Z.
Proof.
  destruct z as [|q|q].
  - reflexivity.
  - apply isdigit_pretty_positive.
  - reflexivity.
Qed.

Lemma sets_size_int (p : profile) z :
  p !! "replication" = Some (PyInt z) -> sets_size p = (0 <=? z)%Z.
Proof.
  intros H. unfold sets_size, pget. rewrite H. cbn [default from_option id str].
  pose proof (isdigit_pretty_Z z) as Hd. unfold isdigit in Hd |- *.
  rewrite <- Hd. destruct (negb (pretty z =? "")%string); reflexivity.
Qed.

(** X13. A crush profile that was never registered is found out late:
    with health polls that settle at once, [mkpool] raises the
    [KeyError] of the lookup only after it has sent both creation
    commands, polled, set the size if the profile asks for it and attached
    the tier; nothing is sent after that, the pool is not deleted again
    and the registry is as it was. *)
Theorem mkpool_unregistered_crush_profile self depth name pn base w pg pgp :
  let p := profile_of self pn in
  let crush := pget p "crush_profile" PyNone in
  pget p "pg_size" (PyInt 1024) = PyInt pg ->
  pget p "pgp_size" (PyInt 1024) = PyInt pgp ->
  truthy crush = true ->
  ruleset_map w !! str crush = None ->
  Forall (fun s => settled s = true) (stdouts w) ->
  (if sets_size p then 2 else 1) <= length (stdouts w) ->
  exists w',
    mkpool self (S depth) name pn base w = Raised (KeyError (str crush)) w'
    /\ trace w' =
       trace w ++ mkpool_front self name p base (pretty pg) (pretty pgp)
    /\ same_control w w'.
Proof.
  intros p crush Hpg Hpgp Ht Hnone Hall Hlen.
  destruct (mkpool_healthy_outcome self depth name pn base w pg pgp
              Hpg Hpgp Hall Hlen) as [H _].
  eexists. split; [apply H; assumption|]. split; [reflexivity|].
  apply adv_same_control.
Qed.

Lemma mkpool_unregistered_crush_profile_witness :
  exists w',
    mkpool crush_ceph 1 "data" (PyStr "fast") None healthy_world
    = Raised (KeyError "ssd") w'
    /\ commands (trace w') =
       ["sudo ceph -c /tmp/cbt/ceph.conf osd pool create data 1024 1024 ";
        "sudo ceph -c /tmp/cbt/ceph.conf osd pool create data 1024 1024";
        "ceph -c /tmp/cbt/ceph.conf health ";
        "sudo ceph -c /tmp/cbt/ceph.conf osd pool set data size 2";
        "ceph -c /tmp/cbt/ceph.conf health "].
Proof.
  destruct (mkpool_unregistered_crush_profile crush_ceph 0 "data" (PyStr "fast")
              None healthy_world 1024 1024)
    as (w' & H1 & H2 & _).
  - reflexivity.
  - reflexivity.
  - reflexivity.
  - reflexivity.
  - repeat constructor.
  - vm_compute. lia.
  - exists w'. split; [exact H1|]. rewrite H2. vm_compute. reflexivity.
Defined.

(** X14. [mkpool] sets the pool size when [replication] prints as a
    non-empty string of digits.  For an integer that is when it is not
    negative, 0 included; then there are three health polls, otherwise
    two, and either way the trace starts with the commands of
    [mkpool_front]. *)
Theorem mkpool_sets_size_of_integers self depth name pn base w pg pgp z :
  let p := profile_of self pn in
  p !! "replication" = Some (PyInt z) ->
  pget p "pg_size" (PyInt 1024) = PyInt pg ->
  pget p "pgp_size" (PyInt 1024) = PyInt pgp ->
  truthy (cache_profile_of self pn) = false ->
  truthy (pget p "crush_profile" PyNone) = false ->
  Forall (fun s => settled s = true) (stdouts w) ->
  3 <= length (stdouts w) ->
  sets_size p = (0 <=? z)%Z
  /\ exists e2,
      polls e2 = [0]
      /\ mkpool self (S depth) name pn base w =
         Done tt (adv w (mkpool_front self name p base (pretty pg) (pretty pgp)
                         ++ e2)
                      (if (0 <=? z)%Z then 3 else 2))
      /\ polls (mkpool_front self name p base (pretty pg) (pretty pgp)) =
         (if (0 <=? z)%Z then [0; 0] else [0]).
Proof.
  intros p Hrep Hpg Hpgp Hcache Hcrush Hall Hlen.
  pose proof (sets_size_int p z Hrep) as Hs. split; [exact Hs|].
  destruct (mkpool_healthy_outcome self depth name pn base w pg pgp
              Hpg Hpgp Hall) as [_ H].
  { fold p. destruct (sets_size p); lia. }
  destruct H as (e2 & Hp2 & Hrun).
  { fold p. rewrite Hcrush. discriminate. }
  { fold p. destruct (sets_size p); lia. }
  fold p in Hrun. rewrite Hcache in Hrun.
  exists e2. split; [exact Hp2|]. split.
  - rewrite Hrun. unfold mret, M_ret, ret. rewrite Hs.
    destruct (0 <=? z)%Z; reflexivity.
  - unfold mkpool_front. rewrite !polls_app, Hs.
    assert (Ha : forall l : list string, polls (Pdsh ["head"] <$> l) = []).
    { induction l as [|c l IHl]; [reflexivity|exact IHl]. }
    rewrite Ha. destruct (0 <=? z)%Z; reflexivity.
Qed.

Lemma mkpool_sets_size_of_integers_witness :
  sets_size (profile_of crush_ceph (PyStr "none")) = false
  /\ sets_size (profile_of fresh_ceph (PyStr "rep3")) = true
  /\ polls (trace (final (mkpool crush_ceph 1 "data" (PyStr "none") None
                                 healthy_world))) = [0; 0].
Proof.
  destruct (mkpool_sets_size_of_integers crush_ceph 0 "data" (PyStr "none") None
              healthy_world 1024 1024 (-1))
    as (H1 & e2 & Hp & Hrun & Hf); try reflexivity.
  - repeat constructor.
  - split; [exact H1|]. split; [reflexivity|].
    rewrite Hrun. cbn [final]. rewrite trace_adv, !polls_app, Hf, Hp. reflexivity.
Defined.

(** X15. For a profile whose replication is the string "erasure",
    [mkpool] sends the unconditional creation and then the erasure
    creation with the name of the erasure profile, sets no size and
    polls twice. *)
Theorem mkpool_erasure_profile self depth name pn base w pg pgp :
  let p := profile_of self pn in
  p !! "replication" = Some (PyStr "erasure") ->
  pget p "pg_size" (PyInt 1024) = PyInt pg ->
  pget p "pgp_size" (PyInt 1024) = PyInt pgp ->
  truthy (cache_profile_of self pn) = false ->
  truthy (pget p "crush_profile" PyNone) = false ->
  Forall (fun s => settled s = true) (stdouts w) ->
  2 <= length (stdouts w) ->
  exists e2,
    polls e2 = [0]
    /\ mkpool self (S depth) name pn base w =
       Done tt
         (adv w
            ([Pdsh ["head"] (create_always self name (pretty pg) (pretty pgp) p);
              Pdsh ["head"] (create_erasure self name (pretty pg) (pretty pgp) p);
              Pdsh ["head"] (health_cmd self None); Polled 0] ++
             (Pdsh ["head"] <$> attach_cmds self name p base) ++ e2)
            2).
Proof.
  intros p Hrep Hpg Hpgp Hcache Hcrush Hall Hlen.
  assert (Hr : str (pget p "replication" PyNone) = "erasure").
  { unfold pget. rewrite Hrep. reflexivity. }
  assert (Hs : sets_size p = false).
  { unfold sets_size. rewrite Hr. reflexivity. }
  destruct (mkpool_healthy_outcome self depth name pn base w pg pgp
              Hpg Hpgp Hall) as [_ H].
  { fold p. rewrite Hs. lia. }
  destruct H as (e2 & Hp2 & Hrun).
  { fold p. rewrite Hcrush. discriminate. }
  { fold p. rewrite Hs. lia. }
  fold p in Hrun. rewrite Hcache, Hs in Hrun.
  exists e2. split; [exact Hp2|]. rewrite Hrun.
  unfold mkpool_front. rewrite Hs, Hr. reflexivity.
Qed.

Lemma mkpool_erasure_profile_witness :
  (profile_of fresh_ceph (PyStr "ec") !! "replication" = Some (PyStr "erasure")
   /\ 2 <= length (stdouts healthy_world))
  /\ exists w',
      mkpool fresh_ceph 1 "data" (PyStr "ec") None healthy_world = Done tt w'
      /\ polls (trace w') = [0; 0]
      /\ take 2 (commands (trace w')) =
         ["sudo ceph -c /tmp/cbt/ceph.conf osd pool create data 1024 1024 ec62";
          "sudo ceph -c /tmp/cbt/ceph.conf osd pool create data 1024 1024 erasure ec62"].
Proof.
  assert (Hall : Forall (fun s => settled s = true) (stdouts healthy_world))
    by repeat constructor.
  assert (Hlen : 2 <= length (stdouts healthy_world)) by (vm_compute; lia).
  split; [split; [reflexivity|exact Hlen]|].
  destruct (mkpool_erasure_profile fresh_ceph 0 "data" (PyStr "ec") None
              healthy_world 1024 1024 eq_refl eq_refl eq_refl eq_refl eq_refl
              Hall Hlen)
    as (e2 & Hp & Hrun).
  eexists. split; [exact Hrun|]. split.
  - rewrite trace_adv, !polls_app, Hp. reflexivity.
  - reflexivity.
Defined.

Lemma polls_pdsh (cmds : list string) : polls (Pdsh ["head"] <$> cmds) = [].
Proof. induction cmds as [|c cmds IH]; [reflexivity|exact IH]. Qed.

Lemma polls_mkpool_front self name p base pg pgp :
  polls (mkpool_front self name p base pg pgp) =
  if sets_size p then [0; 0] else [0].
Proof.
  unfold mkpool_front. rewrite !polls_app, polls_pdsh.
  destruct (sets_size p); reflexivity.
Qed.

(** X16. A profile with a cache profile gives two pools: when the base
    pool has had its final health poll, [mkpool] creates [name-cache]
    from the cache profile with the base pool as its base, so the cache
    pool is attached as tier and overlay of the base exactly when the
    cache profile has a cache mode, and never before the base pool is
    done. *)
Theorem mkpool_cache_pool_follows_base self depth name pn base w
        pg pgp cpg cpgp :
  let p := profile_of self pn in
  let c := cache_profile_of self pn in
  let q := profile_of self c in
  let n := (if sets_size p then 3 else 2) + (if sets_size q then 3 else 2) in
  truthy c = true ->
  truthy (cache_profile_of self c) = false ->
  pget p "pg_size" (PyInt 1024) = PyInt pg ->
  pget p "pgp_size" (PyInt 1024) = PyInt pgp ->
  pget q "pg_size" (PyInt 1024) = PyInt cpg ->
  pget q "pgp_size" (PyInt 1024) = PyInt cpgp ->
  truthy (pget p "crush_profile" PyNone) = false ->
  truthy (pget q "crush_profile" PyNone) = false ->
  Forall (fun s => settled s = true) (stdouts w) ->
  n <= length (stdouts w) ->
  exists e2 e4,
    polls e2 = [0] /\ polls e4 = [0]
    /\ mkpool self (S (S depth)) name pn base w =
       Done tt
         (adv w
            (mkpool_front self name p base (pretty pg) (pretty pgp) ++ e2 ++
             mkpool_front self (name +:+ "-cache") q (Some name)
                          (pretty cpg) (pretty cpgp) ++ e4)
            n).
Proof.
  intros p c q n Hc Hcc Hpg Hpgp Hcpg Hcpgp Hcrush Hccrush Hall Hlen.
  destruct (mkpool_healthy_outcome self (S depth) name pn base w pg pgp
              Hpg Hpgp Hall) as [_ H].
  { fold p. subst n. destruct (sets_size p), (sets_size q); lia. }
  destruct H as (e2 & Hp2 & Hrun).
  { fold p. rewrite Hcrush. discriminate. }
  { fold p. subst n. destruct (sets_size p), (sets_size q); lia. }
  fold p c in Hrun. rewrite Hc in Hrun.
  set (w1 := adv w _ _) in Hrun.
  assert (Hall1 : Forall (fun s => settled s = true) (stdouts w1)).
  { unfold w1. rewrite stdouts_adv. apply Forall_drop, Hall. }
  assert (Hlen1 : (if sets_size q then 3 else 2) <= length (stdouts w1)).
  { unfold w1. rewrite stdouts_adv, length_drop. subst n.
    destruct (sets_size p), (sets_size q); lia. }
  destruct (mkpool_healthy_outcome self depth (name +:+ "-cache") c (Some name)
              w1 cpg cpgp Hcpg Hcpgp Hall1) as [_ H].
  { fold q. destruct (sets_size q); lia. }
  destruct H as (e4 & Hp4 & Hrun2).
  { fold q. rewrite Hccrush. discriminate. }
  { fold q. destruct (sets_size q); lia. }
  fold q in Hrun2. rewrite Hcc in Hrun2.
  exists e2, e4. split; [exact Hp2|]. split; [exact Hp4|].
  rewrite Hrun, Hrun2. unfold mret, M_ret, ret, w1. rewrite adv_adv.
  f_equal. f_equal.
  - rewrite <- !app_assoc. reflexivity.
  - subst n. destruct (sets_size p), (sets_size q); reflexivity.
Qed.

Lemma mkpool_cache_pool_follows_base_witness :
  (truthy (cache_profile_of tiered_ceph (PyStr "base")) = true
   /\ 6 <= length (stdouts very_healthy_world))
  /\ exists w',
      mkpool tiered_ceph 2 "data" (PyStr "base") None very_healthy_world
      = Done tt w'
      /\ polls (trace w') = [0; 0; 0; 0; 0; 0]
      /\ List.filter (contains " osd tier ") (commands (trace w')) =
         ["sudo ceph -c /tmp/cbt/ceph.conf osd tier add data data-cache";
          "sudo ceph -c /tmp/cbt/ceph.conf osd tier cache-mode data-cache writeback";
          "sudo ceph -c /tmp/cbt/ceph.conf osd tier set-overlay data data-cache"].
Proof.
  assert (Hall : Forall (fun s => settled s = true) (stdouts very_healthy_world))
    by repeat constructor.
  assert (Hlen : 6 <= length (stdouts very_healthy_world))
    by (vm_compute; lia).
  split; [split; [reflexivity|exact Hlen]|].
  destruct (mkpool_cache_pool_follows_base tiered_ceph 0 "data" (PyStr "base")
              None very_healthy_world 1024 1024 1024 1024
              eq_refl eq_refl eq_refl eq_refl eq_refl eq_refl eq_refl eq_refl
              Hall Hlen)
    as (e2 & e4 & Hp2 & Hp4 & Hrun).
  eexists. split; [exact Hrun|]. split.
  - rewrite trace_adv, !polls_app, !polls_mkpool_front, Hp2, Hp4. reflexivity.
  - match goal with
    | |- context [trace ?w] => change w with (final (Done tt w))
    end.
    rewrite <- Hrun. vm_compute. reflexivity.
Defined.

(** ** The recovery test: who calls the callback, and when it ends *)

Lemma callbacks_app t1 t2 : callbacks (t1 ++ t2) = callbacks t1 + callbacks t2.
Proof. unfold callbacks. rewrite omap_app, length_app. reflexivity. Qed.

Lemma quiet_ret {A} (a : A) : quiet (mret a).
Proof. intros w. reflexivity. Qed.

Lemma quiet_get {A} (f : World -> A) : quiet (get f).
Proof. intros w. reflexivity. Qed.

Lemma quiet_raise {A} e : quiet (raise e : M A).
Proof. intros w. reflexivity. Qed.

Lemma quiet_bind {A B} (m : M A) (k : A -> M B) :
  quiet m -> (forall a, quiet (k a)) -> quiet (m ≫= k).
Proof.
  intros Hm Hk w. rewrite bind_run. specialize (Hm w).
  destruct (m w) as [a w1|e w1|w1]; cbn [final] in *; [|exact Hm|exact Hm].
  rewrite Hk. exact Hm.
Qed.

Lemma quiet_modify f : (forall w, trace (f w) = trace w) -> quiet (modify f).
Proof. intros Hf w. cbn. rewrite Hf. reflexivity. Qed.

Lemma quiet_emit e : callbacks [e] = 0 -> quiet (emit e).
Proof.
  intros He w. change (callbacks (trace w ++ [e]) = callbacks (trace w)).
  rewrite callbacks_app, He. lia.
Qed.

Lemma quiet_pdsh roles cmd : quiet (pdsh roles cmd).
Proof. apply quiet_emit. reflexivity. Qed.

Lemma quiet_sleep secs : quiet (sleep secs).
Proof.
  unfold sleep. destruct (secs <? 0)%Z;
    [apply quiet_raise|apply quiet_emit; reflexivity].
Qed.

Lemma quiet_for_each {A} (l : list A) (body : A -> M unit) :
  (forall x, quiet (body x)) -> quiet (for_each l body).
Proof.
  intros Hb. induction l as [|x l IH]; [apply (quiet_ret tt)|].
  cbn [for_each]. apply quiet_bind; [apply Hb|intros _; exact IH].
Qed.

Lemma quiet_next_stdout : quiet next_stdout.
Proof. intros w. unfold next_stdout. destruct (stdouts w); reflexivity. Qed.

Lemma quiet_check_health_loop self fuel check_list logline :
  forall ret, quiet (check_health_loop self fuel check_list logline ret).
Proof.
  induction fuel as [|fuel IH]; intros ret; [intros w; reflexivity|].
  cbn [check_health_loop]. apply quiet_bind.
  - unfold pdsh_stdout. apply quiet_bind; [apply quiet_emit; reflexivity|].
    intros _. apply quiet_next_stdout.
  - intros out.
    destruct (negb (bool_decide (check_list = [])) &&
              negb (intersects check_list (split out))); [apply quiet_ret|].
    destruct (contains "HEALTH_OK" out); [apply quiet_ret|].
    apply quiet_bind; [apply quiet_sleep|intros _; apply IH].
Qed.

Lemma quiet_check_health self check_list logfile :
  quiet (check_health self check_list logfile).
Proof.
  unfold check_health. apply quiet_bind; [apply quiet_get|]. intros fuel.
  apply quiet_bind; [apply quiet_check_health_loop|]. intros r.
  apply quiet_bind; [apply quiet_emit; reflexivity|]. intros _. apply quiet_ret.
Qed.

Lemma quiet_for_osds cfg (body : pyval -> M unit) :
  (forall x, quiet (body x)) -> quiet (for_osds cfg body).
Proof.
  intros Hb. unfold for_osds. destruct (osds cfg);
    [apply quiet_for_each, Hb|apply quiet_raise].
Qed.

Local Ltac quiet_step :=
  first [ apply quiet_pdsh | apply quiet_sleep | apply quiet_ret
        | apply quiet_get | apply quiet_check_health
        | apply quiet_modify; intros ?; reflexivity
        | apply quiet_for_osds; intros ?
        | apply quiet_bind; [|intros ?] ].

Lemma quiet_states self cfg st : st <> done -> quiet (states self cfg st).
Proof.
  intros Hst. destruct st; try congruence; cbn [states].
  - unfold thread_pre. repeat quiet_step.
  - unfold thread_markdown. repeat quiet_step.
  - unfold thread_osdout. repeat quiet_step.
    match goal with |- quiet (if ?c then _ else _) => destruct c end;
      repeat quiet_step.
    match goal with |- quiet (if ?c then _ else _) => destruct c end;
      repeat quiet_step.
  - unfold thread_osdin. repeat quiet_step.
    match goal with |- quiet (if ?c then _ else _) => destruct c end;
      repeat quiet_step.
    match goal with |- quiet (if ?c then _ else _) => destruct c end;
      repeat quiet_step.
  - unfold thread_post. repeat quiet_step.
    match goal with |- quiet (if ?c then _ else _) => destruct c end;
      repeat quiet_step.
    match goal with |- quiet (if ?c then _ else _) => destruct c end;
      repeat quiet_step.
Qed.

(** One pass calls the callback exactly when it runs the [done]
    handler. *)
Lemma pass_callbacks self cfg b w :
  callbacks (trace (final (pass self cfg b w))) =
  callbacks (trace w) +
  (if haltrequest w then 0 else match state w with done => 1 | _ => 0 end).
Proof.
  destruct (haltrequest w) eqn:Hh.
  { rewrite pass_halted by exact Hh. cbn. lia. }
  rewrite pass_run by exact Hh. rewrite invoke_run.
  set (w0 := if b then with_stoprequest true w else w).
  assert (E : state w0 = state w /\ trace w0 = trace w).
  { unfold w0. destruct b; auto. }
  destruct E as [E1 E2]. rewrite E1, <- E2.
  destruct (state w) eqn:Hst;
    try (rewrite (quiet_states self cfg); [lia|rewrite <- Hst; congruence]).
  all: try (rewrite quiet_states by discriminate; lia).
  cbn [states]. unfold thread_done. rewrite run_pdsh, run_emit.
  cbn [modify final with_haltrequest trace]. rewrite !trace_adv.
  rewrite !callbacks_app. cbn. lia.
Qed.

Lemma passes_halted self cfg schedule w :
  haltrequest w = true -> passes self cfg schedule w = Done tt w.
Proof.
  intros Hh. induction schedule as [|b l IH]; [reflexivity|].
  rewrite passes_cons, pass_halted by exact Hh. exact IH.
Qed.

(** Over any number of passes the callback is called at most once, and
    when it has been called the thread has halted in [done]. *)
Lemma passes_callbacks self cfg schedule :
  forall w,
    let w' := after self cfg schedule w in
    callbacks (trace w) <= callbacks (trace w')
    /\ callbacks (trace w') <= S (callbacks (trace w))
    /\ (callbacks (trace w') = S (callbacks (trace w)) ->
        haltrequest w' = true /\ state w' = done).
Proof.
  induction schedule as [|b l IH]; intros w; cbv zeta.
  { rewrite after_nil. split; [lia|]. split; [lia|]. lia. }
  unfold after. rewrite passes_cons.
  pose proof (pass_callbacks self cfg b w) as Hc.
  destruct (haltrequest w) eqn:Hh.
  { rewrite pass_halted in * by exact Hh. apply IH. }
  destruct (state w) eqn:Hst.
  6: { destruct (pass_done self cfg b w Hh Hst) as (w1 & Hp & H1 & H2).
       rewrite Hp in *. cbn [final] in Hc.
       rewrite passes_halted by exact H1. cbn [final].
       split; [lia|]. split; [lia|]. auto. }
  all: rewrite Nat.add_0_r in Hc;
    destruct (pass self cfg b w) as [[] w1|e w1|w1]; cbn [final] in *;
    [specialize (IH w1); cbv zeta in IH; unfold after in IH; rewrite Hc in IH;
     exact IH
    |rewrite Hc; split; [lia|]; split; [lia|]; lia
    |rewrite Hc; split; [lia|]; split; [lia|]; lia].
Qed.

Lemma passes_quiet_unless_done self cfg schedule w w' :
  passes self cfg schedule w = Done tt w' ->
  state w' <> done ->
  callbacks (trace w') = callbacks (trace w).
Proof.
  intros Hp Hst.
  pose proof (passes_callbacks self cfg schedule w) as H. cbv zeta in H.
  unfold after in H. rewrite Hp in H. cbn [final] in H.
  destruct H as (H1 & H2 & H3).
  destruct (Nat.eq_dec (callbacks (trace w')) (S (callbacks (trace w)))) as [E|E];
    [destruct (H3 E) as [_ Hd]; contradiction|lia].
Qed.

Lemma last_commands_pdsh t roles cmd :
  last (commands (t ++ [Pdsh roles cmd])) = Some cmd.
Proof. rewrite commands_app. apply last_snoc. Qed.

(** X17. A recovery test that does not repeat and is never asked to
    stop, with a [pre_time] and a [post_time] that are not negative,
    runs to its end when its health polls are answered: [run] returns
    with the state [done] and the halt event set, the callback has been
    called exactly once, and the last thing written to the recovery log
    is the exit line naming [done]. *)
Theorem run_once_completes self cfg l w :
  osds cfg = Some l ->
  truthy (default (PyBool false) (repeat cfg)) = false ->
  (0 <= default 60 (pre_time cfg))%Z ->
  (0 <= default 60 (post_time cfg))%Z ->
  state w = pre ->
  rounds (2 * S (maxhealthtries w)) (stdouts w) ->
  exists k w',
    run self cfg (replicate k false) w = Done tt w'
    /\ state w' = done /\ haltrequest w' = true /\ stoprequest w' = false
    /\ callbacks (trace w') = S (callbacks (trace w))
    /\ last (commands (trace w')) = Some (exit_cmd cfg "done").
Proof.
  intros Hl Hrep Hpre Hpost Hst Hr.
  set (w0 := with_stoprequest false (with_haltrequest false w)).
  destruct (reach_post self cfg l Hl w0) as (k & w1 & Hp & H1 & H2 & H3 & H4).
  { cbn. congruence. } { reflexivity. } { intros _. exact Hpre. } { exact Hr. }
  assert (Hc1 : callbacks (trace w1) = callbacks (trace w)).
  { apply (passes_quiet_unless_done self cfg _ w0 w1 Hp). congruence. }
  (* the pass in [post] *)
  destruct (thread_post_shape cfg w1) as (e2 & _ & He2).
  change (stoprequest w0) with false in H3. rewrite H3, Hrep in He2.
  replace (default 60 (post_time cfg) <? 0)%Z with false in He2
    by (symmetry; apply Z.ltb_ge; exact Hpost).
  set (w2 := with_state done (adv w1 e2 0)) in *.
  assert (Hp2 : pass self cfg false w1 = Done tt w2).
  { rewrite pass_run, invoke_run, H1 by exact H2. exact He2. }
  pose proof (pass_callbacks self cfg false w1) as Hc2.
  rewrite Hp2, H2, H1 in Hc2. cbn [final] in Hc2.
  (* the pass in [done] *)
  destruct (thread_done_shape cfg w2) as (e3 & He3 & _).
  set (w3 := with_haltrequest true (adv w2 e3 0)) in *.
  assert (Hp3 : pass self cfg false w2 = Done tt w3).
  { rewrite pass_run, invoke_run by exact H2. exact He3. }
  pose proof (pass_callbacks self cfg false w2) as Hc3.
  rewrite Hp3 in Hc3. cbn [final] in Hc3.
  change (haltrequest w2) with (haltrequest w1) in Hc3. rewrite H2 in Hc3.
  change (state w2) with done in Hc3.
  exists (k + 2), (adv w3 [Pdsh ["head"] (exit_cmd cfg "done")] 0).
  rewrite run_unfold. fold w0.
  rewrite replicate_add, passes_app, Hp. cbn [replicate].
  rewrite passes_cons, Hp2. cbv beta iota. rewrite passes_cons, Hp3.
  cbv beta iota. change (passes self cfg [] w3) with (Done tt w3).
  cbv beta iota. change (haltrequest w3) with true. cbv beta iota.
  change (state w3) with done. cbv beta iota. fold (exit_cmd cfg "done").
  rewrite <- (unit_bind_ret (pdsh _ _)), run_pdsh. cbn [mret M_ret ret].
  split; [reflexivity|]. split; [reflexivity|]. split; [reflexivity|].
  split; [exact H3|]. split.
  - rewrite trace_adv, callbacks_app. cbv beta iota in Hc3.
    change (callbacks [Pdsh ["head"] (exit_cmd cfg "done")]) with 0. lia.
  - rewrite trace_adv. apply last_commands_pdsh.
Qed.

Lemma run_once_completes_witness :
  let w := World_init (replicate 122 "HEALTH_OK") in
  (truthy (default (PyBool false) (repeat once_rt_config)) = false
   /\ state w = pre)
  /\ exists k w',
      run fresh_ceph once_rt_config (replicate k false) w = Done tt w'
      /\ state w' = done /\ callbacks (trace w') = 1.
Proof.
  cbv zeta. split; [split; reflexivity|].
  destruct (run_once_completes fresh_ceph once_rt_config [PyInt 0]
              (World_init (replicate 122 "HEALTH_OK")) eq_refl eq_refl
              ltac:(cbn; lia) ltac:(cbn; lia) eq_refl)
    as (k & w' & Hrun & H1 & _ & _ & H2 & _).
  - change (maxhealthtries (World_init _)) with 60.
    change (stdouts (World_init ?o)) with o.
    change (2 * 61) with 122.
    generalize 122. intros n. induction n as [|n IH]; [constructor|].
    apply (rounds_S _ [] "HEALTH_OK"); [constructor|reflexivity|exact IH].
  - exists k, w'. split; [exact Hrun|]. split; [exact H1|exact H2].
Defined.

(** X18. However the passes of [run] are interleaved with the owner,
    the callback is called at most once; when it has been called the
    thread has halted in [done]; and a thread that has halted, or one
    that repeats and is not in [done], does not call it at all. *)
Theorem callback_at_most_once self cfg schedule w :
  let w' := after self cfg schedule w in
  (callbacks (trace w) <= callbacks (trace w')
   /\ callbacks (trace w') <= S (callbacks (trace w)))
  /\ (callbacks (trace w') = S (callbacks (trace w)) ->
      haltrequest w' = true /\ state w' = done)
  /\ (haltrequest w = true
      \/ (truthy (default (PyBool false) (repeat cfg)) = true /\ state w <> done) ->
      callbacks (trace w') = callbacks (trace w)).
Proof.
  cbv zeta.
  pose proof (passes_callbacks self cfg schedule w) as H. cbv zeta in H.
  destruct H as (H1 & H2 & H3).
  split; [split; assumption|]. split; [exact H3|].
  intros [Hh|[Hrep Hst]].
  - unfold after. rewrite passes_halted by exact Hh. reflexivity.
  - destruct (Nat.eq_dec (callbacks (trace (after self cfg schedule w)))
                         (S (callbacks (trace w)))) as [E|E]; [|lia].
    destruct (H3 E) as [_ Hd].
    exfalso. exact (repeat_never_done self cfg w Hrep Hst schedule Hd).
Qed.

Lemma callback_at_most_once_witness :
  let w := with_state post (World_init ["HEALTH_OK"; "HEALTH_OK"]) in
  callbacks (trace (after fresh_ceph example_rt_config
                          [false; true; false; false; false] w)) = 0.
Proof.
  cbv zeta.
  apply (proj2 (proj2 (callback_at_most_once fresh_ceph example_rt_config
                         [false; true; false; false; false]
                         (with_state post
                            (World_init ["HEALTH_OK"; "HEALTH_OK"]))))).
  right. split; [reflexivity|discriminate].
Defined.

Lemma pass_owner_first self cfg w :
  haltrequest w = false ->
  pass self cfg true w = pass self cfg false (with_stoprequest true w).
Proof.
  intros Hh. rewrite !pass_run by exact Hh. reflexivity.
Qed.

(** X19. A stop requested during the very first pass of [run] is
    honoured only in [post]: with a [pre_time] that is not negative and
    the health polls answered, the thread goes through its states up to
    [post], halts there, and [run] returns with [post] as the last state
    and the callback not called. *)
Theorem early_stop_ends_in_post self cfg l w :
  osds cfg = Some l ->
  (0 <= default 60 (pre_time cfg))%Z ->
  state w = pre ->
  rounds (2 * S (maxhealthtries w)) (stdouts w) ->
  exists k w',
    run self cfg (true :: replicate k false) w = Done tt w'
    /\ state w' = post /\ haltrequest w' = true
    /\ callbacks (trace w') = callbacks (trace w)
    /\ last (commands (trace w')) = Some (exit_cmd cfg "post").
Proof.
  intros Hl Hpre Hst Hr.
  set (w0 := with_stoprequest false (with_haltrequest false w)).
  set (w0s := with_stoprequest true w0).
  destruct (reach_post self cfg l Hl w0s) as (k & w1 & Hp & H1 & H2 & H3 & H4).
  { cbn. congruence. } { reflexivity. } { intros _. exact Hpre. } { exact Hr. }
  assert (Hc1 : callbacks (trace w1) = callbacks (trace w)).
  { apply (passes_quiet_unless_done self cfg _ w0s w1 Hp). congruence. }
  destruct k as [|k].
  { cbn in Hp. injection Hp as <-. cbn in H1. congruence. }
  change (stoprequest w0s) with true in H3.
  destruct (thread_post_shape cfg w1) as (e2 & _ & He2). rewrite H3 in He2.
  set (w2 := with_haltrequest true (adv w1 e2 0)) in *.
  assert (Hp2 : pass self cfg false w1 = Done tt w2).
  { rewrite pass_run, invoke_run, H1 by exact H2. exact He2. }
  pose proof (pass_callbacks self cfg false w1) as Hc2.
  rewrite Hp2, H2, H1 in Hc2. cbn [final] in Hc2.
  exists (k + 1), (adv w2 [Pdsh ["head"] (exit_cmd cfg "post")] 0).
  rewrite run_unfold. fold w0.
  rewrite passes_cons, (pass_owner_first self cfg w0) by reflexivity.
  fold w0s. rewrite replicate_add.
  rewrite passes_replicate_S in Hp.
  destruct (pass self cfg false w0s) as [[] wa|e wa|wa]; try discriminate.
  rewrite passes_app, Hp. cbn [replicate]. rewrite passes_cons, Hp2.
  cbv beta iota. change (passes self cfg [] w2) with (Done tt w2).
  cbv beta iota. change (haltrequest w2) with true. cbv beta iota.
  change (state w2) with (state w1). rewrite H1. cbv beta iota.
  fold (exit_cmd cfg "post").
  rewrite <- (unit_bind_ret (pdsh _ _)), run_pdsh. cbn [mret M_ret ret].
  split; [reflexivity|]. split; [exact H1|]. split; [reflexivity|]. split.
  - rewrite trace_adv, callbacks_app.
    change (callbacks [Pdsh ["head"] (exit_cmd cfg "post")]) with 0. lia.
  - rewrite trace_adv. apply last_commands_pdsh.
Qed.

Lemma rounds_healthy n : rounds n (replicate n "HEALTH_OK").
Proof.
  induction n as [|n IH]; [constructor|].
  apply (rounds_S _ [] "HEALTH_OK"); [constructor|reflexivity|exact IH].
Qed.

Lemma early_stop_ends_in_post_witness :
  let w := World_init (replicate 122 "HEALTH_OK") in
  state w = pre
  /\ exists k w',
      run fresh_ceph example_rt_config (true :: replicate k false) w = Done tt w'
      /\ state w' = post /\ callbacks (trace w') = 0.
Proof.
  cbv zeta. split; [reflexivity|].
  destruct (early_stop_ends_in_post fresh_ceph example_rt_config
              [PyInt 0; PyInt 1]
              (World_init (replicate 122 "HEALTH_OK")) eq_refl
              ltac:(cbn; lia) eq_refl (rounds_healthy 122))
    as (k & w' & Hrun & H1 & _ & H2 & _).
  exists k, w'. split; [exact Hrun|]. split; [exact H1|exact H2].
Defined.

Lemma polls_retries cmd n : polls (retries cmd n) = [].
Proof.
  unfold retries. induction n as [|n IH]; [reflexivity|].
  cbn [replicate concat]. rewrite polls_app, IH. reflexivity.
Qed.

Lemma polls_poll_events cmd n : polls (poll_events cmd n) = [n].
Proof.
  unfold poll_events. rewrite polls_app, polls_retries. reflexivity.
Qed.

(** X20. In [osdout] and in [osdin], a health poll that had to go round
    its loop returns a count that is not 0, and the handler then moves to
    the next state at once, whatever its counter of tries says; the
    counters stay as they were. *)
Theorem unhealthy_poll_moves_on self cfg l b w busy out rest :
  osds cfg = Some l ->
  haltrequest w = false ->
  state w = osdout \/ state w = osdin ->
  busy <> [] ->
  Forall (fun s => settled s = false) busy ->
  settled out = true ->
  stdouts w = busy ++ out :: rest ->
  exists w',
    pass self cfg b w = Done tt w'
    /\ state w' = next_state (state w)
    /\ outhealthtries w' = outhealthtries w
    /\ inhealthtries w' = inhealthtries w
    /\ stdouts w' = rest
    /\ polls (trace w') = polls (trace w) ++ [length busy].
Proof.
  intros Hl Hh Hst Hne Hbusy Hout Hw.
  set (w0 := if b then with_stoprequest true w else w).
  assert (E : state w0 = state w /\ stdouts w0 = stdouts w
              /\ trace w0 = trace w
              /\ outhealthtries w0 = outhealthtries w
              /\ inhealthtries w0 = inhealthtries w).
  { unfold w0. destruct b; cbn; auto. }
  destruct E as (E1 & E2 & E3 & E4 & E5). rewrite Hw in E2.
  pose proof (check_health_rounds self (Some health_checklist) (rt_logfile cfg)
                w0 busy out rest Hbusy Hout E2) as Hc.
  unfold yields in Hc.
  assert (Hn : (length busy =? 0)%nat = false).
  { apply Nat.eqb_neq. destruct busy; [congruence|cbn; lia]. }
  rewrite pass_run, invoke_run by exact Hh. fold w0. rewrite E1.
  destruct Hst as [Hst|Hst]; rewrite Hst; cbn [states next_state].
  - pose proof (thread_osdout_shape self cfg w0) as Hs. rewrite Hc in Hs.
    rewrite Hn, andb_false_r, Hl in Hs. destruct Hs as (evs & -> & Hp).
    eexists. split; [reflexivity|]. split; [reflexivity|].
    split; [exact E4|]. split; [exact E5|]. split.
    + cbn [stdouts with_state]. rewrite stdouts_adv_0, stdouts_adv, E2.
      apply drop_round.
    + cbn [trace with_state]. rewrite !trace_adv, E3, !polls_app, Hp.
      rewrite polls_poll_events, app_nil_r. reflexivity.
  - pose proof (thread_osdin_shape self cfg w0) as Hs. rewrite Hc in Hs.
    rewrite Hn, andb_false_r in Hs. destruct Hs as (evs & -> & Hp).
    eexists. split; [reflexivity|]. split; [reflexivity|].
    split; [exact E4|]. split; [exact E5|]. split.
    + cbn [stdouts with_state]. rewrite stdouts_adv_0, stdouts_adv, E2.
      apply drop_round.
    + cbn [trace with_state]. rewrite !trace_adv, E3, !polls_app, Hp.
      rewrite polls_poll_events, app_nil_r. reflexivity.
Qed.

Lemma unhealthy_poll_moves_on_witness :
  let w := with_state osdout
             (World_init ["HEALTH_WARN 3 pgs degraded"; "HEALTH_OK"]) in
  (haltrequest w = false /\ state w = osdout)
  /\ exists w',
      pass fresh_ceph example_rt_config false w = Done tt w'
      /\ state w' = osdin /\ outhealthtries w' = 0
      /\ polls (trace w') = [1].
Proof.
  cbv zeta. split; [split; reflexivity|].
  destruct (unhealthy_poll_moves_on fresh_ceph example_rt_config
              [PyInt 0; PyInt 1] false
              (with_state osdout
                 (World_init ["HEALTH_WARN 3 pgs degraded"; "HEALTH_OK"]))
              ["HEALTH_WARN 3 pgs degraded"] "HEALTH_OK" []
              eq_refl eq_refl (or_introl eq_refl))
    as (w' & Hp & H1 & H2 & _ & _ & H3); try reflexivity.
  - discriminate.
  - repeat constructor.
  - exists w'. auto.
Defined.

(** X21. A recovery test whose configuration has no [osds], and a
    [pre_time] that is not negative, dies in its second pass: [markdown]
    raises the TypeError of iterating [None], so [run] ends with that
    error, the halt event still clear, the callback not called, and the
    command that set the [noup] flag as the last one sent. *)
Theorem thread_without_osds_dies self cfg w schedule :
  osds cfg = None ->
  (0 <= default 60 (pre_time cfg))%Z ->
  state w = pre ->
  2 <= length schedule ->
  exists w',
    run self cfg schedule w =
    Raised (TypeError "'NoneType' object is not iterable") w'
    /\ state w' = markdown /\ haltrequest w' = false
    /\ callbacks (trace w') = callbacks (trace w)
    /\ last (commands (trace w')) =
       Some ("ceph -c " +:+ tmp_conf self +:+ " ceph osd set noup;" +:+
             logcmd cfg "Setting the ceph osd noup flag").
Proof.
  intros Hl Hpre Hst Hlen.
  destruct schedule as [|b1 [|b2 schedule]]; [cbn in Hlen; lia..|].
  set (w0 := with_stoprequest false (with_haltrequest false w)).
  rewrite run_unfold. fold w0.
  rewrite passes_cons, pass_run, invoke_run by reflexivity.
  set (wa := if b1 then with_stoprequest true w0 else w0).
  assert (Ea : state wa = pre /\ trace wa = trace w).
  { unfold wa. destruct b1; auto. }
  destruct Ea as [Ea Et]. rewrite Ea. cbn [states].
  unfold thread_pre. rewrite run_pdsh, run_sleep, run_pdsh, !adv_adv by exact Hpre.
  cbn [modify]. cbv beta iota.
  match goal with |- context [with_state markdown ?x] =>
    set (w1 := with_state markdown x) end.
  rewrite passes_cons, pass_run, invoke_run by (unfold w1, wa; destruct b1; reflexivity).
  set (wb := if b2 then with_stoprequest true w1 else w1).
  assert (Eb : state wb = markdown /\ trace wb = trace w1
               /\ haltrequest wb = false).
  { unfold wb, w1, wa. destruct b2, b1; auto. }
  destruct Eb as (Eb & Etb & Ehb). rewrite Eb. cbn [states].
  unfold thread_markdown, for_osds. rewrite Hl.
  exists wb. split; [reflexivity|]. split; [exact Eb|]. split; [exact Ehb|].
  rewrite Etb. unfold w1. cbn [trace with_state]. rewrite trace_adv, Et.
  split.
  - rewrite callbacks_app. cbn. lia.
  - rewrite !commands_app, !app_assoc. apply last_snoc.
Qed.

Lemma thread_without_osds_dies_witness :
  state (World_init []) = pre
  /\ run fresh_ceph no_osds_rt_config [false; false; false] (World_init []) =
     Raised (TypeError "'NoneType' object is not iterable")
            (final (run fresh_ceph no_osds_rt_config [false; false]
                        (World_init []))).
Proof.
  split; [reflexivity|].
  destruct (thread_without_osds_dies fresh_ceph no_osds_rt_config
              (World_init []) [false; false; false] eq_refl
              ltac:(cbn; lia) eq_refl)
    as (w' & Hrun & _); [cbn; lia|].
  rewrite Hrun. f_equal. vm_compute in Hrun. injection Hrun as <-.
  vm_compute. reflexivity.
Defined.

(** ** What [initialize] has done when it fails *)

Lemma raise_bind {A B} e (k : A -> M B) w : (raise e ≫= k) w = Raised e w.
Proof. reflexivity. Qed.

(** X22. On a cluster that is not flagged [use_existing] and whose
    configuration has no [conf_file], [initialize] raises the KeyError
    of the missing key only from [distribute_conf]: by then the old
    processes have been killed, the temporary directory removed and the
    directories made again, in 19 remote commands, and nothing has been
    copied. *)
Theorem initialize_without_conf_file self w :
  truthy (use_existing self) = false ->
  conf_file (config self) = None ->
  exists evs,
    initialize self w = Raised (KeyError "conf_file") (adv w evs 0)
    /\ length (commands evs) = 19
    /\ "sudo killall -9 ceph-osd" ∈ commands evs
    /\ ("sudo rm -rf " +:+ tmp_dir self) ∈ commands evs
    /\ Forall (fun e => match e with Pdcp _ _ _ => False | _ => True end) evs.
Proof.
  intros Hex Hconf. unfold initialize. rewrite Hex.
  unfold rbd_unmount, shutdown, cleanup, distribute_conf. rewrite Hconf.
  cbn [for_each].
  repeat (rewrite bind_assoc || rewrite run_emit || rewrite run_pdsh
          || rewrite adv_adv || rewrite run_ret).
  rewrite raise_bind.
  eexists. split; [reflexivity|]. cbn [app].
  split; [reflexivity|]. split; [|split].
  - cbn. set_solver.
  - cbn. set_solver.
  - repeat constructor.
Qed.

Lemma initialize_without_conf_file_witness :
  (truthy (use_existing no_conf_ceph) = false
   /\ conf_file (config no_conf_ceph) = None)
  /\ exists w',
      initialize no_conf_ceph (World_init ["HEALTH_OK"]) =
      Raised (KeyError "conf_file") w'
      /\ stdouts w' = ["HEALTH_OK"].
Proof.
  split; [split; reflexivity|].
  destruct (initialize_without_conf_file no_conf_ceph
              (World_init ["HEALTH_OK"]) eq_refl eq_refl)
    as (evs & Hrun & _).
  eexists. split; [exact Hrun|]. reflexivity.
Defined.

(** ** Building the cluster *)

Lemma append_nil_r (s : string) : s +:+ "" = s.
Proof.
  induction s as [|c s IH]; [reflexivity|].
  rewrite app_cons_string, IH. reflexivity.
Qed.

Lemma add_sent_nil p : add_sent [] p = p.
Proof. destruct p. unfold add_sent. cbn. rewrite app_nil_r. reflexivity. Qed.

Lemma add_sent_add_sent o1 o2 p : add_sent o2 (add_sent o1 p) = add_sent (o1 ++ o2) p.
Proof. unfold add_sent. cbn. rewrite app_assoc. reflexivity. Qed.

(** Commands whose templates all format are all sent. *)
Lemma send_formatted_all tgt args cmds :
  Forall (fun t => exists s, Build.format t args = Build.Text s) cmds ->
  forall p, exists out,
    Build.send_formatted (Build.send tgt) args cmds p =
    Build.Returned (add_sent out p)
    /\ length out = length cmds
    /\ Forall (fun tc => tc.1 = tgt) out.
Proof.
  induction 1 as [|t cmds [s Hs] _ IH]; intros p.
  - exists []. rewrite add_sent_nil. repeat split. constructor.
  - cbn [Build.send_formatted]. rewrite Hs. cbn [Build.send Build.and_then].
    destruct (IH (add_sent [(tgt, s)] p)) as (out & Hout & Hlen & Hall).
    exists ((tgt, s) :: out). fold (add_sent [(tgt, s)] p).
    rewrite Hout, add_sent_add_sent. split; [reflexivity|].
    split; [cbn; lia|]. constructor; [reflexivity|exact Hall].
Qed.

Lemma for_range_from_all (body : nat -> Build.progress -> Build.ended) tgt k n :
  (forall i p, exists out,
      body i p = Build.Returned (add_sent out p)
      /\ length out = k /\ Forall (fun tc => tc.1 = tgt) out) ->
  forall i p, exists out,
    Build.for_range_from i n body p = Build.Returned (add_sent out p)
    /\ length out = n * k /\ Forall (fun tc => tc.1 = tgt) out.
Proof.
  intros Hb. induction n as [|n IH]; intros i p.
  - exists []. rewrite add_sent_nil. repeat split. constructor.
  - cbn [Build.for_range_from].
    destruct (Hb i p) as (o1 & H1 & L1 & A1). rewrite H1. cbn [Build.and_then].
    destruct (IH (S i) (add_sent o1 p)) as (o2 & H2 & L2 & A2).
    exists (o1 ++ o2). rewrite H2, add_sent_add_sent. split; [reflexivity|].
    split; [rewrite length_app; lia|]. apply Forall_app. auto.
Qed.

Lemma fs_cmds_format mnt_dir sc device :
  Forall (fun t => exists s,
              Build.format t (Build.fs_args mnt_dir sc device) = Build.Text s)
         (Build.fs_cmds (Build.sc_fs sc)).
Proof.
  unfold Build.fs_cmds, Build.fs_args.
  destruct (bool_decide (Build.sc_fs sc = Some "tmpfs"));
    [|destruct (bool_decide (Build.sc_fs sc = Some "zfs"))];
    repeat constructor; eexists; vm_compute; reflexivity.
Qed.

(** X23. [setup_fs] can format every one of its commands: with
    [osds_per_node] set to [n], and unless an empty [fs] ends the
    program, it returns after sending, for each of the [n] devices, all
    the commands of the file system (3 for tmpfs, 7 for zfs, 5
    otherwise), all of them to the OSD nodes. *)
Theorem setup_fs_sends_all mnt_dir sc shutdown_exits n :
  Build.sc_osds_per_node sc = Some n ->
  (Build.sc_fs sc = Some "" -> shutdown_exits = false) ->
  exists out,
    Build.setup_fs mnt_dir sc shutdown_exits =
    Build.Returned (add_sent out Build.start)
    /\ length out = Z.to_nat n * length (Build.fs_cmds (Build.sc_fs sc))
    /\ Forall (fun tc => tc.1 = Build.Nodes ["osds"]) out
    /\ length (Build.fs_cmds (Build.sc_fs sc)) =
       match Build.sc_fs sc with
       | Some "tmpfs" => 3
       | Some "zfs" => 7
       | _ => 5
       end.
Proof.
  intros Hn Hfs. unfold Build.setup_fs. rewrite Hn.
  replace (bool_decide (Build.sc_fs sc = Some "") && shutdown_exits)
    with false.
  2: { destruct (bool_decide (Build.sc_fs sc = Some "")) eqn:E; [|reflexivity].
       apply bool_decide_eq_true in E. rewrite (Hfs E). reflexivity. }
  cbn [Build.and_then]. unfold Build.for_range.
  destruct (for_range_from_all
              (fun device =>
                 Build.send_formatted (Build.send (Build.Nodes ["osds"]))
                   (Build.fs_args mnt_dir sc device)
                   (Build.fs_cmds (Build.sc_fs sc)))
              (Build.Nodes ["osds"])
              (length (Build.fs_cmds (Build.sc_fs sc))) (Z.to_nat n))
    with (i := 0) (p := Build.start) as (out & Hout & Hlen & Hall).
  { intros i p. apply send_formatted_all, fs_cmds_format. }
  exists out. split; [exact Hout|]. split; [exact Hlen|]. split; [exact Hall|].
  unfold Build.fs_cmds.
  destruct (Build.sc_fs sc) as [fs|]; [|reflexivity].
  destruct (decide (fs = "tmpfs")) as [->|H1]; [reflexivity|].
  destruct (decide (fs = "zfs")) as [->|H2]; [reflexivity|].
  rewrite !bool_decide_eq_false_2 by congruence.
  cbn. repeat (match goal with
               | |- context [match ?s with EmptyString => _ | String _ _ => _ end] =>
                   destruct s as [|? ?]; try reflexivity
               | |- context [match ?c with Ascii _ _ _ _ _ _ _ _ => _ end] =>
                   destruct c as [[] [] [] [] [] [] [] []]; try reflexivity
               end); congruence.
Qed.

Lemma setup_fs_sends_all_witness :
  exists out,
    Build.setup_fs "/mnt" (example_settings None) true =
    Build.Returned (add_sent out Build.start)
    /\ length out = 10.
Proof.
  destruct (setup_fs_sends_all "/mnt" (example_settings None) true 2 eq_refl)
    as (out & Hout & Hlen & _).
  - discriminate.
  - exists out. split; [exact Hout|exact Hlen].
Defined.

Lemma make_osds_cannot_build_aux self mnt_dir ceph_osd_cmd osd_valgrind sc
        setup_valgrind uuid4 host hosts n :
  Build.sc_osds sc = Some (host :: hosts) ->
  Build.sc_osds_per_node sc = Some n ->
  (0 < n)%Z ->
  let user := default PyNone (Build.sc_user sc) in
  Build.make_osds self mnt_dir ceph_osd_cmd osd_valgrind sc setup_valgrind uuid4 =
  if truthy user
  then Build.Failed (Build.Err (KeyError "osd_num"))
         {| Build.sent :=
              [(Build.Host (str user +:+ "@" +:+ host),
                "sudo ceph -c " +:+ tmp_conf self +:+ " osd create " +:+ uuid4 0)];
            Build.osdnum := 0; Build.drawn := 1;
            Build.pdshhost := Some (str user +:+ "@" +:+ host) |}
  else Build.Failed (Build.UnboundLocalError "pdshhost")
         {| Build.sent := []; Build.osdnum := 0; Build.drawn := 1;
            Build.pdshhost := None |}.
Proof.
  intros Hosds Hn Hpos user.
  unfold Build.make_osds. rewrite Hosds. cbn [Build.for_hosts].
  unfold Build.make_host_osds. fold user. rewrite Hn.
  unfold Build.for_range.
  destruct (Z.to_nat n) as [|k] eqn:Hk; [lia|].
  cbn [Build.for_range_from]. unfold Build.make_osd.
  replace ("sudo ceph -c " +:+ tmp_conf self +:+ " osd create " +:+ uuid4 0)
    with ("sudo ceph -c " +:+ tmp_conf self +:+ " osd create " +:+ uuid4 0 +:+ "")
    by (rewrite append_nil_r; reflexivity).
  destruct (truthy user); reflexivity.
Qed.

(** X24. [make_osds] cannot build an OSD.  With a host to build on and
    [osds_per_node] above 0 it fails during the first OSD of the first
    host: without a [user], on the unassigned [pdshhost] before anything
    is sent; with one, on the field [osd_num] that the second command
    needs and [format] is not given, after the first command alone was
    sent.  No OSD is started either way. *)
Theorem make_osds_cannot_build self mnt_dir ceph_osd_cmd osd_valgrind sc
        setup_valgrind uuid4 host hosts n :
  Build.sc_osds sc = Some (host :: hosts) ->
  Build.sc_osds_per_node sc = Some n ->
  (0 < n)%Z ->
  let user := default PyNone (Build.sc_user sc) in
  Build.make_osds self mnt_dir ceph_osd_cmd osd_valgrind sc setup_valgrind uuid4 =
  if truthy user
  then Build.Failed (Build.Err (KeyError "osd_num"))
         {| Build.sent :=
              [(Build.Host (str user +:+ "@" +:+ host),
                "sudo ceph -c " +:+ tmp_conf self +:+ " osd create " +:+ uuid4 0)];
            Build.osdnum := 0; Build.drawn := 1;
            Build.pdshhost := Some (str user +:+ "@" +:+ host) |}
  else Build.Failed (Build.UnboundLocalError "pdshhost")
         {| Build.sent := []; Build.osdnum := 0; Build.drawn := 1;
            Build.pdshhost := None |}.
Proof.
  intros Hosds Hn Hpos.
  exact (make_osds_cannot_build_aux self mnt_dir ceph_osd_cmd osd_valgrind sc
           setup_valgrind uuid4 host hosts n Hosds Hn Hpos).
Qed.

Lemma make_osds_cannot_build_witness :
  Build.make_osds fresh_ceph "/mnt" "/usr/bin/ceph-osd" PyNone
                  (example_settings (Some (PyStr "root"))) no_valgrind
                  example_uuid4 =
  Build.Failed (Build.Err (KeyError "osd_num"))
    {| Build.sent :=
         [(Build.Host "root@node1",
           "sudo ceph -c /tmp/cbt/ceph.conf osd create uuid-0")];
       Build.osdnum := 0; Build.drawn := 1;
       Build.pdshhost := Some "root@node1" |}.
Proof.
  exact (make_osds_cannot_build fresh_ceph "/mnt" "/usr/bin/ceph-osd" PyNone
           (example_settings (Some (PyStr "root"))) no_valgrind example_uuid4
           "node1" ["node2"] 2 eq_refl eq_refl eq_refl).
Defined.

Lemma for_range_nothing n body p :
  (n <= 0)%Z -> Build.for_range n body p = Build.Returned p.
Proof.
  intros Hn. unfold Build.for_range.
  replace (Z.to_nat n) with 0 by lia. reflexivity.
Qed.

Lemma for_hosts_idle (body : string -> Build.progress -> Build.ended) hosts :
  (forall host p, exists q,
      body host p = Build.Returned q
      /\ Build.sent q = Build.sent p /\ Build.osdnum q = Build.osdnum p) ->
  forall p, exists q,
    Build.for_hosts hosts body p = Build.Returned q
    /\ Build.sent q = Build.sent p /\ Build.osdnum q = Build.osdnum p.
Proof.
  intros Hb. induction hosts as [|host hosts IH]; intros p.
  - exists p. auto.
  - cbn [Build.for_hosts]. destruct (Hb host p) as (q & -> & H1 & H2).
    cbn [Build.and_then]. destruct (IH q) as (r & -> & G1 & G2).
    exists r. split; [reflexivity|]. split; congruence.
Qed.

(** X25. [make_osds] returns exactly when it has nothing to build,
    because there is no OSD host or [osds_per_node] is not above 0; and
    when it returns it has sent no command. *)
Theorem make_osds_returns_iff_idle self mnt_dir ceph_osd_cmd osd_valgrind sc
        setup_valgrind uuid4 :
  let r := Build.make_osds self mnt_dir ceph_osd_cmd osd_valgrind sc
                           setup_valgrind uuid4 in
  ((exists p, r = Build.Returned p) <-> nothing_to_build sc)
  /\ (forall p, r = Build.Returned p -> Build.sent p = [] /\ Build.osdnum p = 0).
Proof.
  cbv zeta.
  assert (Hidle : forall hosts n,
             Build.sc_osds sc = Some hosts ->
             Build.sc_osds_per_node sc = Some n -> (n <= 0)%Z ->
             exists q,
               Build.make_osds self mnt_dir ceph_osd_cmd osd_valgrind sc
                               setup_valgrind uuid4 = Build.Returned q
               /\ Build.sent q = [] /\ Build.osdnum q = 0).
  { intros hosts n Hosds Hn Hle. unfold Build.make_osds. rewrite Hosds.
    apply for_hosts_idle. intros host p. unfold Build.make_host_osds.
    rewrite Hn, for_range_nothing by exact Hle.
    eexists. split; [reflexivity|].
    destruct (truthy (default PyNone (Build.sc_user sc))); auto. }
  assert (Hcases : forall p,
             Build.make_osds self mnt_dir ceph_osd_cmd osd_valgrind sc
                             setup_valgrind uuid4 = Build.Returned p ->
             nothing_to_build sc /\ Build.sent p = [] /\ Build.osdnum p = 0).
  { intros p Hp.
    destruct (Build.sc_osds sc) as [[|host hosts]|] eqn:Hosds.
    - unfold Build.make_osds in Hp. rewrite Hosds in Hp. injection Hp as <-.
      split; [exists []; split; [exact Hosds|left; reflexivity]|auto].
    - destruct (Build.sc_osds_per_node sc) as [n|] eqn:Hn.
      + destruct (Z_lt_le_dec 0 n) as [Hpos|Hle].
        * rewrite (make_osds_cannot_build_aux self mnt_dir ceph_osd_cmd
                     osd_valgrind sc setup_valgrind uuid4 host hosts n
                     Hosds Hn Hpos) in Hp.
          destruct (truthy (default PyNone (Build.sc_user sc))); discriminate.
        * destruct (Hidle _ n eq_refl eq_refl Hle) as (q & Hq & H1 & H2).
          rewrite Hq in Hp. injection Hp as <-.
          split; [|auto]. exists (host :: hosts). split; [exact Hosds|].
          right. exists n. auto.
      + unfold Build.make_osds in Hp. rewrite Hosds in Hp.
        cbn [Build.for_hosts] in Hp. unfold Build.make_host_osds in Hp.
        rewrite Hn in Hp. discriminate.
    - unfold Build.make_osds in Hp. rewrite Hosds in Hp. discriminate. }
  split; [split|].
  - intros [p Hp]. apply (Hcases p Hp).
  - intros (hosts & Hosds & [->|(n & Hn & Hle)]).
    + unfold Build.make_osds. rewrite Hosds. eexists. reflexivity.
    + destruct (Hidle hosts n Hosds Hn Hle) as (q & Hq & _). exists q. exact Hq.
  - intros p Hp. apply (Hcases p Hp).
Qed.

Lemma make_osds_returns_iff_idle_witness :
  ~ exists p,
      Build.make_osds fresh_ceph "/mnt" "/usr/bin/ceph-osd" PyNone
                      (example_settings None) no_valgrind example_uuid4
      = Build.Returned p.
Proof.
  intros [p Hp].
  destruct (make_osds_returns_iff_idle fresh_ceph "/mnt" "/usr/bin/ceph-osd"
              PyNone (example_settings None) no_valgrind example_uuid4)
    as [[H _] _].
  destruct (H (ex_intro _ p Hp)) as (hosts & Hh & [->|(n & Hn & Hle)]).
  - discriminate.
  - injection Hn as <-. lia.
Defined.
